(** * jhipster-core: the JDL token catalog and the document parser

    A shallow embedding of [lib/dsl/lexer.js] and
    [lib/parser/document_parser.js], followed by the properties of the
    specification that were checked against them.

    Conventions of the embedding.
    - A JavaScript string is a [string], a character being a code unit
      below 256; the case functions are the ASCII ones, which is what the
      lexer's name pattern admits for identifiers.
    - [undefined] is [None]; a property that may be missing has an option
      type, and JavaScript truthiness is written out ([truthy]).
    - A JavaScript object used as a map is an [ObjMap]: the list of its
      entries in insertion order, since the order of keys is observable
      ([_.values(tokens)] fixes the priority of the lexer). Prototype
      properties are not modelled.
    - The module-level variables of the parser are the fields of [Env.t];
      every step takes and returns the environment, and a step that writes
      into the document returns the document it wrote. *)

From Stdlib Require Import List String Ascii Bool Arith.
Import ListNotations.
Open Scope string_scope.

(** ** JavaScript values and lodash helpers *)

Definition truthy (s : option string) : bool :=
  match s with
  | Some (String _ _) => true
  | _ => false
  end.

(** [a || b] on strings that may be undefined. *)
Definition js_or (a : option string) (b : string) : string :=
  match a with
  | Some (String c r) => String c r
  | _ => b
  end.

Definition in_range (lo hi : nat) (c : ascii) : bool :=
  Nat.leb lo (nat_of_ascii c) && Nat.leb (nat_of_ascii c) hi.

Definition is_upper (c : ascii) : bool := in_range 65 90 c.
Definition is_lower (c : ascii) : bool := in_range 97 122 c.
Definition is_digit (c : ascii) : bool := in_range 48 57 c.

Definition lower_char (c : ascii) : ascii :=
  if is_upper c then ascii_of_nat (nat_of_ascii c + 32) else c.

Definition upper_char (c : ascii) : ascii :=
  if is_lower c then ascii_of_nat (nat_of_ascii c - 32) else c.

(** [String.prototype.toLowerCase]. *)
Fixpoint toLowerCase (s : string) : string :=
  match s with
  | EmptyString => EmptyString
  | String c r => String (lower_char c) (toLowerCase r)
  end.

(** [_.lowerFirst] and [_.upperFirst]. *)
Definition lowerFirst (s : string) : string :=
  match s with
  | EmptyString => EmptyString
  | String c r => String (lower_char c) r
  end.

Definition upperFirst (s : string) : string :=
  match s with
  | EmptyString => EmptyString
  | String c r => String (upper_char c) r
  end.

(** [a === s] for a value that may be undefined and a string. *)
Definition option_eqb (a : option string) (s : string) : bool :=
  match a with
  | Some x => String.eqb x s
  | None => false
  end.

(** [Array.prototype.includes] on an array of strings. *)
Definition includes (l : list string) (x : string) : bool :=
  existsb (String.eqb x) l.

(** ** Objects used as maps *)

Definition ObjMap (V : Type) : Type := list (string * V).

Fixpoint obj_get {V : Type} (o : ObjMap V) (k : string) : option V :=
  match o with
  | [] => None
  | (k', v) :: r => if String.eqb k' k then Some v else obj_get r k
  end.

(** [o[k] = v]: an existing key keeps its place, a new one goes last. *)
Fixpoint obj_set {V : Type} (o : ObjMap V) (k : string) (v : V) : ObjMap V :=
  match o with
  | [] => [(k, v)]
  | (k', v') :: r =>
      if String.eqb k' k then (k', v) :: r else (k', v') :: obj_set r k v
  end.

Definition obj_keys {V : Type} (o : ObjMap V) : list string := map fst o.
Definition obj_values {V : Type} (o : ObjMap V) : list V := map snd o.

Definition obj_has {V : Type} (o : ObjMap V) (k : string) : bool :=
  match obj_get o k with
  | Some _ => true
  | None => false
  end.

(** A loop over an array whose body writes into the element it visits:
    the body returns the element as it leaves it, and the loop returns the
    array of the elements so left. *)
Fixpoint forEach_mut {S A : Type} (body : S -> A -> S * A) (s : S) (l : list A)
  : S * list A :=
  match l with
  | [] => (s, [])
  | a :: r =>
      let '(s1, a') := body s a in
      let '(s2, r') := forEach_mut body s1 r in
      (s2, a' :: r')
  end.

(** ** chevrotain, as far as the catalog uses it

    The lexer library is not part of the repository; what follows is its
    documented behaviour: a pattern is a string or a regular expression, a
    token type may name a longer alternative and categories, the lexer
    tries the token types in the order given and takes the first whose
    pattern matches at the current offset (the longer alternative instead
    when it matches more text), and a token type matches a category when
    the category is among its ancestors. *)
Module chevrotain.

(** The regular expressions of the catalog, with the backtracking
    priorities of JavaScript: [Star] is greedy, [LazyStar] is not. *)
Inductive RegExp : Type :=
| Chr (c : ascii)
| Cls (p : ascii -> bool)
| Seq (a b : RegExp)
| Opt (a : RegExp)
| Star (a : RegExp)
| LazyStar (a : RegExp).

Definition Plus (a : RegExp) : RegExp := Seq a (Star a).

(** [run r s k]: match [r] at the start of [s] and hand the rest of the
    text to [k]; the first success in priority order is the match. *)
Fixpoint run (r : RegExp) (s : string) (k : string -> option string)
  {struct r} : option string :=
  match r with
  | Chr c =>
      match s with
      | String d rest => if Ascii.eqb c d then k rest else None
      | EmptyString => None
      end
  | Cls p =>
      match s with
      | String d rest => if p d then k rest else None
      | EmptyString => None
      end
  | Seq a b => run a s (fun rest => run b rest k)
  | Opt a =>
      match run a s k with
      | Some rest => Some rest
      | None => k s
      end
  | Star a =>
      (fix star (n : nat) (s : string) {struct n} : option string :=
         match n with
         | O => k s
         | S n' =>
             match
               run a s (fun rest =>
                 if Nat.ltb (String.length rest) (String.length s)
                 then star n' rest else None)
             with
             | Some rest => Some rest
             | None => k s
             end
         end) (String.length s) s
  | LazyStar a =>
      (fix star (n : nat) (s : string) {struct n} : option string :=
         match k s with
         | Some rest => Some rest
         | None =>
             match n with
             | O => None
             | S n' =>
                 run a s (fun rest =>
                   if Nat.ltb (String.length rest) (String.length s)
                   then star n' rest else None)
             end
         end) (String.length s) s
  end.

(** The length of the match of [r] anchored at the start of [s]. *)
Definition exec (r : RegExp) (s : string) : option nat :=
  match run r s Some with
  | Some rest => Some (String.length s - String.length rest)
  | None => None
  end.

(** [RegExp.prototype.test]: a match anywhere in the text. *)
Fixpoint test (r : RegExp) (s : string) : bool :=
  match exec r s with
  | Some _ => true
  | None =>
      match s with
      | String _ rest => test r rest
      | EmptyString => false
      end
  end.

(** [Lexer.NA] is a regular expression object that marks a token type
    as a pure category; it is not a string and never matches. *)
Inductive Pattern : Type :=
| PString (s : string)
| PRegExp (r : RegExp)
| NA.

Inductive Group : Type := SKIPPED.

#[local] Set Warnings "-register-all".

Inductive TokenType : Type := mkTokenType {
  name : string;
  PATTERN : Pattern;
  LONGER_ALT : option TokenType;
  CATEGORIES : list TokenType;
  GROUP : option Group;
  LINE_BREAKS : bool;
  LABEL : option string
}.

(** The argument of [createToken]. A single category given without an
    array ([categories: KEYWORD]) is written as the array of it, which
    is how chevrotain reads it. *)
Record Config : Type := mkConfig {
  c_name : string;
  pattern : Pattern;
  longer_alt : option TokenType;
  categories : option (list TokenType);
  group : option Group;
  line_breaks : bool;
  label : option string
}.

Definition createToken (config : Config) : TokenType :=
  {| name := c_name config;
     PATTERN := pattern config;
     LONGER_ALT := longer_alt config;
     CATEGORIES := match categories config with
                   | Some l => l
                   | None => []
                   end;
     GROUP := group config;
     LINE_BREAKS := line_breaks config;
     LABEL := label config |}.

(** Token types are compared by identity; names are unique. *)
Definition same (a b : TokenType) : bool := String.eqb (name a) (name b).

(** [tokenMatcher]: the type itself or one of its ancestors. *)
Fixpoint tokenMatcher (t c : TokenType) {struct t} : bool :=
  same t c || existsb (fun k => tokenMatcher k c) (CATEGORIES t).

Fixpoint starts_with (p s : string) : bool :=
  match p, s with
  | EmptyString, _ => true
  | String a p', String b s' => Ascii.eqb a b && starts_with p' s'
  | String _ _, EmptyString => false
  end.

Definition match_at (p : Pattern) (text : string) : option nat :=
  match p with
  | PString s => if starts_with s text then Some (String.length s) else None
  | PRegExp r => exec r text
  | NA => None
  end.

Fixpoint drop (n : nat) (s : string) : string :=
  match n, s with
  | S n', String _ rest => drop n' rest
  | _, _ => s
  end.

Fixpoint take (n : nat) (s : string) : string :=
  match n, s with
  | S n', String c rest => String c (take n' rest)
  | _, _ => EmptyString
  end.

(** One step of the scan: the first token type that matches, replaced
    by its longer alternative when that one matches more. *)
Fixpoint first_match (defs : list TokenType) (text : string)
  : option (TokenType * nat) :=
  match defs with
  | [] => None
  | t :: rest =>
      match match_at (PATTERN t) text with
      | Some n =>
          match LONGER_ALT t with
          | Some alt =>
              match match_at (PATTERN alt) text with
              | Some m => if Nat.ltb n m then Some (alt, m) else Some (t, n)
              | None => Some (t, n)
              end
          | None => Some (t, n)
          end
      | None => first_match rest text
      end
  end.

Record IToken : Type := mkIToken {
  image : string;
  startOffset : nat;
  tokenType : TokenType
}.

Record ILexingError : Type := mkILexingError {
  offset : nat;
  length : nat
}.

Record ILexingResult : Type := mkILexingResult {
  tokens : list IToken;
  errors : list ILexingError
}.

(** Recovery: characters are dropped, at least one, until some token
    type matches again. *)
Fixpoint resync (defs : list TokenType) (text : string) : nat :=
  match text with
  | EmptyString => 0
  | String _ rest =>
      match first_match defs rest with
      | Some _ => 1
      | None => S (resync defs rest)
      end
  end.

Fixpoint scan (fuel : nat) (defs : list TokenType) (text : string)
  (at_ : nat) : ILexingResult :=
  match fuel, text with
  | O, _ | _, EmptyString => mkILexingResult [] []
  | S fuel', String _ _ =>
      match first_match defs text with
      | Some (t, n) =>
          let r := scan fuel' defs (drop n text) (at_ + n) in
          match GROUP t with
          | Some SKIPPED => r
          | None =>
              mkILexingResult (mkIToken (take n text) at_ t :: tokens r)
                              (errors r)
          end
      | None =>
          let n := resync defs text in
          let r := scan fuel' defs (drop n text) (at_ + n) in
          mkILexingResult (tokens r) (mkILexingError at_ n :: errors r)
      end
  end.

(** [new Lexer(definitions).tokenize(text)]. Every step consumes at
    least one character, so the length of the text is fuel enough. *)
Definition tokenize (definitions : list TokenType) (text : string)
  : ILexingResult :=
  scan (String.length text) definitions text 0.

End chevrotain.

(** ** lib/dsl/lexer.js *)

Import chevrotain.

Definition quote : ascii := ascii_of_nat 34.
Definition is_char (c d : ascii) : bool := Ascii.eqb c d.

(** [[a-zA-Z_]] and [[a-zA-Z_\-\d]]. *)
Definition name_start (c : ascii) : bool :=
  is_lower c || is_upper c || is_char "_" c.
Definition name_part (c : ascii) : bool :=
  is_lower c || is_upper c || is_char "_" c || is_char "-" c || is_digit c.

(** [\s] on a text of code units below 256, which is what a [string]
    holds: tab, line feed, vertical tab, form feed, carriage return,
    space and the no-break space U+00A0. The other characters of [\s]
    (U+1680, U+2000 to U+200A, U+2028, U+2029, U+202F, U+205F, U+3000
    and U+FEFF) lie above 255. *)
Definition white (c : ascii) : bool :=
  in_range 9 13 c || in_range 32 32 c || in_range 160 160 c.

(** [/[a-zA-Z_][a-zA-Z_\-\d]*/] *)
Definition namePattern : RegExp := Seq (Cls name_start) (Star (Cls name_part)).

Definition NAME : TokenType :=
  chevrotain.createToken
    (mkConfig "NAME" (PRegExp namePattern) None None None false None).

Definition KEYWORD : TokenType :=
  chevrotain.createToken
    (mkConfig "KEYWORD" NA (Some NAME) (Some [NAME]) None false None).

Definition isString (p : Pattern) : bool :=
  match p with
  | PString _ => true
  | _ => false
  end.

(** [namePattern.test(config.pattern)], asked of a string pattern. *)
Definition matches_name (p : Pattern) : bool :=
  match p with
  | PString s => test namePattern s
  | _ => false
  end.

(** The first step of [createToken]: a string pattern on which the name
    pattern matches gets NAME as longer alternative and KEYWORD as a
    category. *)
Definition as_keyword (config : Config) : Config :=
  if isString (pattern config) && matches_name (pattern config) then
    mkConfig (c_name config) (pattern config) (Some NAME)
      (match categories config with
       | None => Some [KEYWORD]
       | Some l => Some (l ++ [KEYWORD])%list
       end)
      (group config) (line_breaks config) (label config)
  else config.

(** The second step: a readable label for a string pattern. *)
Definition with_label (config : Config) : Config :=
  match pattern config, label config with
  | PString s, None =>
      mkConfig (c_name config) (pattern config) (longer_alt config)
        (categories config) (group config) (line_breaks config)
        (Some ("'" ++ s ++ "'"))
  | _, _ => config
  end.

(** [createToken(config)]: the new token type, and the exported table
    [tokens] with the token type filed under its name. *)
Definition createToken (config : Config) (tokens : ObjMap TokenType)
  : TokenType * ObjMap TokenType :=
  let newToken := chevrotain.createToken (with_label (as_keyword config)) in
  (newToken, obj_set tokens (c_name config) newToken).

Definition cfg (n : string) (p : Pattern) (cats : option (list TokenType))
  : Config := mkConfig n p None cats None false None.

Definition BOOLEAN : TokenType := fst (createToken (cfg "BOOLEAN" NA None) []).
Definition CONFIG_KEY : TokenType :=
  fst (createToken (cfg "CONFIG_KEY" NA None) []).
Definition MIN_MAX_KEYWORD : TokenType :=
  fst (createToken (cfg "MIN_MAX_KEYWORD" NA (Some [KEYWORD])) []).

(** The calls of [createToken], in the order of the file. *)
Definition calls : list Config :=
  [ cfg "BOOLEAN" NA None;
    cfg "CONFIG_KEY" NA None;
    (* /\s+/ *)
    mkConfig "WHITESPACE" (PRegExp (Plus (Cls white))) None None
      (Some SKIPPED) true None;
    (* /\/\*([\s\S]*?)\*\// *)
    mkConfig "COMMENT"
      (PRegExp (Seq (Chr "/") (Seq (Chr "*")
         (Seq (LazyStar (Cls (fun _ => true))) (Seq (Chr "*") (Chr "/"))))))
      None None None true None;
    cfg "CONFIG" (PString "config") None;
    cfg "ENTITIES" (PString "entities") None;
    cfg "BASE_NAME" (PString "baseName") (Some [CONFIG_KEY]);
    cfg "PATH" (PString "path") (Some [CONFIG_KEY]);
    cfg "PACKAGE_NAME" (PString "packageName") (Some [CONFIG_KEY]);
    cfg "AUTHENTICATION_TYPE" (PString "authenticationType") (Some [CONFIG_KEY]);
    cfg "HIBERNATE_CACHE" (PString "hibernateCache") (Some [CONFIG_KEY]);
    cfg "CLUSTERED_HTTP_SESSION" (PString "clusteredHttpSession")
      (Some [CONFIG_KEY]);
    cfg "WEBSOCKET" (PString "websocket") (Some [CONFIG_KEY]);
    cfg "DATABASE_TYPE" (PString "databaseType") (Some [CONFIG_KEY]);
    cfg "DEV_DATABASE_TYPE" (PString "devDatabaseType") (Some [CONFIG_KEY]);
    cfg "PROD_DATABASE_TYPE" (PString "prodDatabaseType") (Some [CONFIG_KEY]);
    cfg "USE_COMPASS" (PString "useCompass") (Some [CONFIG_KEY]);
    cfg "BUILD_TOOL" (PString "buildTool") (Some [CONFIG_KEY]);
    cfg "SEARCH_ENGINE" (PString "searchEngine") (Some [CONFIG_KEY]);
    cfg "ENABLE_TRANSLATION" (PString "enableTranslation") (Some [CONFIG_KEY]);
    cfg "APPLICATION_TYPE" (PString "applicationType") (Some [CONFIG_KEY]);
    (* application must appear AFTER "applicationType" *)
    cfg "APPLICATION" (PString "application") None;
    cfg "TEST_FRAMEWORK" (PString "testFrameworks") (Some [CONFIG_KEY]);
    cfg "LANGUAGES" (PString "languages") (Some [CONFIG_KEY]);
    cfg "SERVER_PORT" (PString "serverPort") (Some [CONFIG_KEY]);
    cfg "ENABLE_SOCIAL_SIGN_IN" (PString "enableSocialSignIn")
      (Some [CONFIG_KEY]);
    cfg "USE_SASS" (PString "useSass") (Some [CONFIG_KEY]);
    cfg "JHI_PREFIX" (PString "jhiPrefix") (Some [CONFIG_KEY]);
    cfg "MESSAGE_BROKER" (PString "messageBroker") (Some [CONFIG_KEY]);
    cfg "SERVICE_DISCOVERY_TYPE" (PString "serviceDiscoveryType")
      (Some [CONFIG_KEY]);
    cfg "CLIENT_PACKAGE_MANAGER" (PString "clientPackageManager")
      (Some [CONFIG_KEY]);
    cfg "CLIENT_FRAMEWORK" (PString "clientFramework") (Some [CONFIG_KEY]);
    cfg "CLIENT_ROOT_FOLDER" (PString "clientRootFolder") None;
    cfg "NATIVE_LANGUAGE" (PString "nativeLanguage") (Some [CONFIG_KEY]);
    cfg "FRONT_END_BUILDER" (PString "frontendBuilder") (Some [CONFIG_KEY]);
    cfg "SKIP_USER_MANAGEMENT" (PString "skipUserManagement")
      (Some [CONFIG_KEY]);
    cfg "ENABLE_SWAGGER_CODEGEN" (PString "enableSwaggerCodegen") None;
    cfg "TRUE" (PString "true") (Some [BOOLEAN]);
    cfg "FALSE" (PString "false") (Some [BOOLEAN]);
    cfg "ENTITY" (PString "entity") None;
    cfg "RELATIONSHIP" (PString "relationship") None;
    cfg "ENUM" (PString "enum") None;
    cfg "ONE_TO_ONE" (PString "OneToOne") None;
    cfg "ONE_TO_MANY" (PString "OneToMany") None;
    cfg "MANY_TO_ONE" (PString "ManyToOne") None;
    cfg "MANY_TO_MANY" (PString "ManyToMany") None;
    cfg "TO" (PString "to") None;
    cfg "ALL" (PString "all") None;
    cfg "STAR" (PString "*") None;
    cfg "WITH" (PString "with") None;
    cfg "EXCEPT" (PString "except") None;
    cfg "NO_FLUENT_METHOD" (PString "noFluentMethod") None;
    cfg "DTO" (PString "dto") None;
    cfg "PAGINATE" (PString "paginate") None;
    cfg "SERVICE" (PString "service") None;
    cfg "MICROSERVICE" (PString "microservice") None;
    cfg "SEARCH" (PString "search") None;
    cfg "SKIP_CLIENT" (PString "skipClient") (Some [CONFIG_KEY]);
    cfg "SKIP_SERVER" (PString "skipServer") (Some [CONFIG_KEY]);
    cfg "ANGULAR_SUFFIX" (PString "angularSuffix") None;
    cfg "FILTER" (PString "filter") None;
    cfg "REQUIRED" (PString "required") None;
    cfg "MIN_MAX_KEYWORD" NA (Some [KEYWORD]);
    cfg "MINLENGTH" (PString "minlength") (Some [MIN_MAX_KEYWORD]);
    cfg "MAXLENGTH" (PString "maxlength") (Some [MIN_MAX_KEYWORD]);
    cfg "MINBYTES" (PString "minbytes") (Some [MIN_MAX_KEYWORD]);
    cfg "MAXBYTES" (PString "maxbytes") (Some [MIN_MAX_KEYWORD]);
    cfg "MAX" (PString "max") (Some [MIN_MAX_KEYWORD]);
    cfg "MIN" (PString "min") (Some [MIN_MAX_KEYWORD]);
    cfg "PATTERN" (PString "pattern") None;
    (* /\/[^\n\r/]*\// *)
    cfg "REGEX"
      (PRegExp (Seq (Chr "/")
         (Seq (Star (Cls (fun c => negb (in_range 10 10 c || in_range 13 13 c
                                         || is_char "/" c))))
              (Chr "/")))) None;
    (* /-?\d+/ *)
    cfg "INTEGER" (PRegExp (Seq (Opt (Chr "-")) (Plus (Cls is_digit)))) None;
    (* a double quote, any characters but a double quote, a double quote *)
    cfg "STRING"
      (PRegExp (Seq (Chr quote)
         (Seq (Star (Cls (fun c => negb (is_char quote c)))) (Chr quote))))
      None;
    cfg "LPAREN" (PString "(") None;
    cfg "RPAREN" (PString ")") None;
    cfg "LCURLY" (PString "{") None;
    cfg "RCURLY" (PString "}") None;
    cfg "LSQUARE" (PString "[") None;
    cfg "RSQUARE" (PString "]") None;
    cfg "COMMA" (PString ",") None;
    cfg "EQUALS" (PString "=") None;
    cfg "DOT" (PString ".") None ].

(** The exported table: every call files its token type, then
    [tokens.NAME = NAME] puts the name token last. *)
Definition tokens : ObjMap TokenType :=
  obj_set (fold_left (fun t config => snd (createToken config t)) calls [])
          "NAME" NAME.

(** [new Lexer(_.values(tokens))] *)
Definition JDLLexer : list TokenType := obj_values tokens.

(** The token type exported under a name, e.g. [tokens.APPLICATION]. *)
Definition token (n : string) : option TokenType := obj_get tokens n.

(** ** Vocabulary of the statements about the catalog *)

(** [p] is the beginning of [q] and shorter. *)
Definition strict_prefix (p q : string) : bool :=
  starts_with p q && negb (String.eqb p q).

(** The text of [t] is a strict prefix of the text of [u]: tried first,
    [t] would take the beginning of every [u]. *)
Definition shadows (t u : TokenType) : bool :=
  match PATTERN t, PATTERN u with
  | PString p, PString q => strict_prefix p q
  | _, _ => false
  end.

(** No token type comes before one whose text it begins. *)
Fixpoint longest_first (l : list TokenType) : bool :=
  match l with
  | [] => true
  | t :: r => forallb (fun u => negb (shadows t u)) r && longest_first r
  end.

(** The lexer reads the text [s] as one token, of a type that [ok]
    accepts, and reports no error. *)
Definition lexes_as (ok : TokenType -> bool) (s : string) : bool :=
  match tokenize JDLLexer s with
  | mkILexingResult [tok] [] =>
      String.eqb (image tok) s && Nat.eqb (startOffset tok) 0
      && ok (tokenType tok)
  | _ => false
  end.

(** The text of a token type with a string pattern is read as a token of
    that very type. *)
Definition lexes_to_itself (t : TokenType) : bool :=
  match PATTERN t with
  | PString s => lexes_as (same t) s
  | _ => true
  end.

(** The text of a keyword is read as a token that a position expecting a
    NAME accepts. *)
Definition lexes_to_name (t : TokenType) : bool :=
  match PATTERN t with
  | PString s =>
      if test namePattern s
      then lexes_as (fun k => tokenMatcher k NAME) s
      else true
  | _ => true
  end.

(** ** Vocabulary of the further statements about the lexer *)

(** [r] can match the empty text. *)
Fixpoint nullable (r : RegExp) : bool :=
  match r with
  | Chr _ | Cls _ => false
  | Seq a b => nullable a && nullable b
  | Opt _ | Star _ | LazyStar _ => true
  end.

(** [r] can match a text that is not empty and begins with [c]. *)
Fixpoint can_start (r : RegExp) (c : ascii) : bool :=
  match r with
  | Chr d => Ascii.eqb d c
  | Cls p => p c
  | Seq a b => can_start a c || (nullable a && can_start b c)
  | Opt a | Star a | LazyStar a => can_start a c
  end.

(** The pattern can match at a text that begins with [c]. *)
Definition pattern_starts (p : Pattern) (c : ascii) : bool :=
  match p with
  | PString EmptyString => true
  | PString (String a _) => Ascii.eqb a c
  | PRegExp r => can_start r c || nullable r
  | NA => false
  end.

Fixpoint all_chars (p : ascii -> bool) (s : string) : bool :=
  match s with
  | EmptyString => true
  | String c r => p c && all_chars p r
  end.

(** A text that the name pattern matches as a whole. *)
Definition name_shaped (s : string) : bool :=
  match s with
  | EmptyString => false
  | String c r => name_start c && all_chars name_part r
  end.

(** One digit or more. *)
Definition digits (s : string) : bool :=
  match s with
  | EmptyString => false
  | String _ _ => all_chars is_digit s
  end.

(** A character at which no pattern of the lexer can match. *)
Definition unknown (c : ascii) : bool :=
  forallb (fun t => negb (pattern_starts (PATTERN t) c)) JDLLexer.

Definition all_ascii : list ascii := map ascii_of_nat (seq 0 256).

(** No text that begins with a character of the class [cls] is matched
    by the pattern. *)
Definition passes (cls : ascii -> bool) (p : Pattern) : bool :=
  forallb (fun c => implb (cls c) (negb (pattern_starts p c))) all_ascii.

(** A call of [createToken] for a keyword that is not skipped, or for a
    pattern that matches no name. *)
Definition keyword_or_passes (config : Config) : bool :=
  (matches_name (pattern config)
   && match group config with
      | None => true
      | Some _ => false
      end)
  || passes name_start (pattern config).

(** The characters that are not among those of [s]. *)
Definition none_of (s : list ascii) (c : ascii) : bool :=
  negb (existsb (Ascii.eqb c) s).


(** The characters that begin no token: neither a letter, an
    underscore, a digit or whitespace (the no-break space included), nor
    a double quote or one of the punctuation characters of the
    patterns. *)
Definition stray (c : ascii) : bool :=
  negb (name_start c || is_digit c || white c)
  && none_of (quote :: list_ascii_of_string "()*,-./=[]{}") c.

(** The text holds the two characters that end a comment. *)
Fixpoint closed_within (s : string) : bool :=
  match s with
  | EmptyString => false
  | String _ r => starts_with "*/" s || closed_within r
  end.

(** [[^\n\r/]] *)
Definition regex_char (c : ascii) : bool :=
  negb (in_range 10 10 c || in_range 13 13 c || is_char "/" c).

(** No string occurs twice. *)
Fixpoint no_repeat (l : list string) : bool :=
  match l with
  | [] => true
  | x :: r => negb (includes r x) && no_repeat r
  end.

(** At the text of a keyword, the scan of the lexer stops at the type of
    that keyword and takes the whole text. *)
Definition matched_first (t : TokenType) : bool :=
  match PATTERN t with
  | PString s =>
      if name_shaped s
      then match first_match JDLLexer s with
           | Some (u, n) => same u t && Nat.eqb n (String.length s)
           | None => false
           end
      else true
  | _ => true
  end.
(** ** The intermediate document (the input of the parser)

    The shapes are the ones the parser reads: a property it tests before
    use is optional, the others are taken as present. *)

Module EntityList.
Record t : Type := mk { entityList : list string; excluded : list string }.
End EntityList.

Module DocApplication.
Record t : Type := mk { config : ObjMap string; entities : EntityList.t }.
End DocApplication.

Module DocEnum.
Record t : Type := mk {
  name : string;
  values : list string;
  javadoc : option string
}.
End DocEnum.

Module DocValidation.
Record t : Type := mk {
  key : string;
  value : option string;
  constant : bool
}.
End DocValidation.

Module DocField.
Record t : Type := mk {
  name : string;
  type : string;
  javadoc : option string;
  validations : list DocValidation.t
}.
End DocField.

Module DocEntity.
Record t : Type := mk {
  name : string;
  tableName : option string;
  javadoc : option string;
  body : list DocField.t
}.
End DocEntity.

Module DocSide.
Record t : Type := mk {
  name : string;
  injectedfield : option string;
  required : option bool;
  javadoc : option string
}.
End DocSide.

Module DocRelationship.
Record t : Type := mk {
  cardinality : string;
  from : DocSide.t;
  to : DocSide.t
}.
End DocRelationship.

Module OptionList.
Record t : Type := mk { excluded : list string; list : list string }.
End OptionList.

Module Document.
Record t : Type := mk {
  applications : list DocApplication.t;
  enums : list DocEnum.t;
  entities : list DocEntity.t;
  relationships : list DocRelationship.t;
  constants : ObjMap string;
  noClient : OptionList.t;
  noServer : OptionList.t;
  noFluentMethod : OptionList.t;
  filter : OptionList.t;
  microservice : ObjMap OptionList.t;
  (* the other binary options, each under its own key of the document *)
  binaryOptions : ObjMap (ObjMap OptionList.t)
}.
Definition with_applications (d : t) (l : list DocApplication.t) : t :=
  mk l (enums d) (entities d) (relationships d) (constants d) (noClient d)
     (noServer d) (noFluentMethod d) (filter d) (microservice d)
     (binaryOptions d).
Definition with_entities (d : t) (l : list DocEntity.t) : t :=
  mk (applications d) (enums d) l (relationships d) (constants d)
     (noClient d) (noServer d) (noFluentMethod d) (filter d)
     (microservice d) (binaryOptions d).
Definition with_relationships (d : t) (l : list DocRelationship.t) : t :=
  mk (applications d) (enums d) (entities d) l (constants d) (noClient d)
     (noServer d) (noFluentMethod d) (filter d) (microservice d)
     (binaryOptions d).
(** [document[key]] for the key of a binary option. *)
Definition at_key (d : t) (key : string) : ObjMap OptionList.t :=
  if String.eqb key "microservice" then microservice d
  else match obj_get (binaryOptions d) key with
       | Some m => m
       | None => []
       end.
End Document.

Module Configuration.
Record t : Type := mk {
  document : option Document.t;
  applicationType : option string;
  applicationName : option string;
  generatorVersion : option string
}.
End Configuration.

(** ** The domain objects (lib/core)

    The classes of [lib/core] are the output of the parser; their shape is
    taken from the data model of the specification. *)

Module JDLValidation.
(** Modelled from the spec: JDLValidation, "a kind (e.g. required, min,
    max, pattern) and a value". *)
Record t : Type := mk { name : string; value : option string }.
End JDLValidation.

Module JDLField.
(** Modelled from the spec: JDLField, "name, declared type, mapping of
    validation-kind to Validation, optional comment". *)
Record t : Type := mk {
  name : string;
  type : string;
  validations : ObjMap JDLValidation.t;
  comment : option string
}.
End JDLField.

Module JDLEntity.
(** Modelled from the spec: JDLEntity, "name (unique), table name,
    comment (optional), mapping of field name to Field". *)
Record t : Type := mk {
  name : string;
  tableName : string;
  fields : ObjMap JDLField.t;
  comment : option string
}.
End JDLEntity.

Module JDLEnum.
(** Modelled from the spec: JDLEnum, "name, ordered list of member names,
    optional comment". *)
Record t : Type := mk {
  name : string;
  values : list string;
  comment : option string
}.
End JDLEnum.

(** Modelled from the spec: the "ordered/deduplicated set" of the entity
    names of an application, the names in the order given, each once. *)
Fixpoint distinct (seen l : list string) : list string :=
  match l with
  | [] => []
  | x :: r =>
      if includes seen x then distinct seen r else x :: distinct (x :: seen) r
  end.

Module JDLApplication.
(** Modelled from the spec: JDLApplication, "a configuration bag
    (key/value) plus an ordered/deduplicated set of entity names it
    owns". *)
Record t : Type := mk { config : ObjMap string; entities : list string }.
(** Modelled from the spec: [new JDLApplication({config, entities})]
    keeps the configuration and the set of the entity names. *)
Definition new (config : ObjMap string) (entities : list string) : t :=
  mk config (distinct [] entities).
(** Modelled from the spec: the graph owns its applications "by unique
    name"; the name of an application is the [baseName] of its
    configuration (the application-config key 'baseName' of the lexer),
    read as a property key, so "undefined" when the configuration has
    none. *)
Definition name (a : t) : string :=
  match obj_get (config a) "baseName" with
  | Some n => n
  | None => "undefined"
  end.
End JDLApplication.

Module JDLRelationship.
(** Modelled from the spec: JDLRelationship, "directional edge between
    two existing entities, a cardinality kind, per-side injected-field
    name, per-side required flag, per-side comment". An endpoint that the
    graph does not hold is [None]. *)
Record t : Type := mk {
  from : option JDLEntity.t;
  to : option JDLEntity.t;
  type : string;
  injectedFieldInFrom : option string;
  injectedFieldInTo : option string;
  isInjectedFieldInFromRequired : option bool;
  isInjectedFieldInToRequired : option bool;
  commentInFrom : option string;
  commentInTo : option string
}.
End JDLRelationship.

(** Modelled from the spec: an option is "either unary (applies a flag to
    a set of entities, with an excluded subset) or binary (applies a
    named key/value pair to a set of entities, with an excluded
    subset)". *)
Inductive JDLOption : Type :=
| JDLUnaryOption (name : string) (entityNames excludedNames : list string)
| JDLBinaryOption (name : string) (value : option string)
    (entityNames excludedNames : list string).

Module JDLObject.
(** Modelled from the spec: JDLObject, the "root container owning, by
    unique name (case-sensitive), mappings of: applications, entities,
    enums, relationships (ordered sequence, no uniqueness constraint),
    and options (ordered sequence)". *)
Record t : Type := mk {
  applications : ObjMap JDLApplication.t;
  entities : ObjMap JDLEntity.t;
  enums : ObjMap JDLEnum.t;
  relationships : list JDLRelationship.t;
  options : list JDLOption
}.
(** Modelled from the spec: [new JDLObject()], the empty container. *)
Definition new : t := mk [] [] [] [] [].
(** Modelled from the spec: the [add...] methods file an application,
    an entity or an enum under its name, where it replaces what was
    filed under that name before, and put a relationship or an option at
    the end of its sequence. *)
Definition addApplication (o : t) (a : JDLApplication.t) : t :=
  mk (obj_set (applications o) (JDLApplication.name a) a) (entities o)
     (enums o) (relationships o) (options o).
Definition addEntity (o : t) (e : JDLEntity.t) : t :=
  mk (applications o) (obj_set (entities o) (JDLEntity.name e) e) (enums o)
     (relationships o) (options o).
Definition addEnum (o : t) (e : JDLEnum.t) : t :=
  mk (applications o) (entities o) (obj_set (enums o) (JDLEnum.name e) e)
     (relationships o) (options o).
Definition addRelationship (o : t) (r : JDLRelationship.t) : t :=
  mk (applications o) (entities o) (enums o) (relationships o ++ [r])
     (options o).
Definition addOption (o : t) (x : JDLOption) : t :=
  mk (applications o) (entities o) (enums o) (relationships o)
     (options o ++ [x]).
End JDLObject.

Module ApplicationTypes.
(** Modelled from the spec: the application type "microservice" of
    [lib/core/jhipster/application_types]. *)
Definition MICROSERVICE : string := "microservice".
End ApplicationTypes.

Module UnaryOptions.
(** Modelled from the spec: the unary options skip-client, skip-server,
    no-fluent-method and filter of [lib/core/jhipster/unary_options],
    under the names the language gives them. *)
Definition SKIP_CLIENT : string := "skipClient".
Definition SKIP_SERVER : string := "skipServer".
Definition NO_FLUENT_METHOD : string := "noFluentMethod".
Definition FILTER : string := "filter".
End UnaryOptions.

Module BinaryOptions.
(** Modelled from the spec: the binary options microservice and
    clientRootFolder of [lib/core/jhipster/binary_options]; the whole
    table [BinaryOptions.Options] is a parameter of the parser below. *)
Definition MICROSERVICE : string := "microservice".
Definition CLIENT_ROOT_FOLDER : string := "clientRootFolder".
End BinaryOptions.

(** The module-level variables of the parser. [configuration] is kept by
    its properties, the document being the one found present on entry;
    [warnings] is what was handed to [winston.warn]. *)
Module Env.
Record t : Type := mk {
  document : Document.t;
  applicationType : option string;
  applicationName : option string;
  generatorVersion : option string;
  jdlObject : JDLObject.t;
  applicationsPerEntityName : ObjMap (list JDLApplication.t);
  warnings : list string
}.
Definition with_document (e : t) (d : Document.t) : t :=
  mk d (applicationType e) (applicationName e) (generatorVersion e)
     (jdlObject e) (applicationsPerEntityName e) (warnings e).
Definition with_jdlObject (e : t) (o : JDLObject.t) : t :=
  mk (document e) (applicationType e) (applicationName e)
     (generatorVersion e) o (applicationsPerEntityName e) (warnings e).
Definition with_applicationsPerEntityName (e : t)
  (m : ObjMap (list JDLApplication.t)) : t :=
  mk (document e) (applicationType e) (applicationName e)
     (generatorVersion e) (jdlObject e) m (warnings e).
Definition warn (e : t) (w : string) : t :=
  mk (document e) (applicationType e) (applicationName e)
     (generatorVersion e) (jdlObject e) (applicationsPerEntityName e)
     (warnings e ++ [w]).
End Env.

Inductive ParseError : Type :=
| MissingInputError (message : string).

(** ** lib/parser/document_parser.js *)

Section document_parser.

(** What the parser takes from files that are not modelled:
    [formatComment] of [lib/utils/format_utils], lodash's [_.camelCase],
    and the values of the table [BinaryOptions.Options] in the order of
    its keys. *)
Variable formatComment : option string -> option string.
Variable camelCase : string -> string.
Variable Options : list string.

Definition USER : string := "User".

(** [o[k]] where [k] may be undefined: the key is then the string
    "undefined". *)
Definition property (k : option string) : string :=
  match k with
  | Some s => s
  | None => "undefined"
  end.

Definition init (passedConfiguration : Configuration.t)
  (document : Document.t) : Env.t :=
  Env.mk document
    (Configuration.applicationType passedConfiguration)
    (Configuration.applicationName passedConfiguration)
    (Configuration.generatorVersion passedConfiguration)
    JDLObject.new [] [].

Definition getApplicationEntities (env : Env.t)
  (application : DocApplication.t) : list string :=
  let entities := DocApplication.entities application in
  let applicationEntities :=
    if includes (EntityList.entityList entities) "*"
    then map DocEntity.name (Document.entities (Env.document env))
    else EntityList.entityList entities in
  if negb (Nat.eqb (List.length (EntityList.excluded entities)) 0)
  then filter (fun entity => negb (includes (EntityList.excluded entities)
                                             entity))
              applicationEntities
  else applicationEntities.

Definition fillApplicationsPerEntityName (env : Env.t)
  (application : JDLApplication.t) : Env.t :=
  fold_left
    (fun env entity =>
       let index := Env.applicationsPerEntityName env in
       let owners := match obj_get index entity with
                     | Some l => l
                     | None => []
                     end in
       Env.with_applicationsPerEntityName env
         (obj_set index entity (owners ++ [application])%list))
    (JDLApplication.entities application) env.

(** The body of the loop of [fillApplications]. *)
Definition fillApplication (env : Env.t) (application : DocApplication.t)
  : Env.t * DocApplication.t :=
  let application :=
    match Env.generatorVersion env with
    | Some (String c r) =>
        DocApplication.mk
          (obj_set (DocApplication.config application) "jhipsterVersion"
                   (String c r))
          (DocApplication.entities application)
    | _ => application
    end in
  let jdlApplication :=
    JDLApplication.new (DocApplication.config application)
                       (getApplicationEntities env application) in
  let env :=
    Env.with_jdlObject env
      (JDLObject.addApplication (Env.jdlObject env) jdlApplication) in
  (fillApplicationsPerEntityName env jdlApplication, application).

Definition fillApplications (env : Env.t) : Env.t :=
  let '(env, applications) :=
    forEach_mut fillApplication env
                (Document.applications (Env.document env)) in
  Env.with_document env
    (Document.with_applications (Env.document env) applications).

Definition fillEnums (env : Env.t) : Env.t :=
  fold_left
    (fun env enumObj =>
       Env.with_jdlObject env
         (JDLObject.addEnum (Env.jdlObject env)
            (JDLEnum.mk (DocEnum.name enumObj) (DocEnum.values enumObj)
                        (formatComment (DocEnum.javadoc enumObj)))))
    (Document.enums (Env.document env)) env.

(** The body of the loop of [getValidations]. *)
Definition getValidation (env : Env.t) (validations : ObjMap JDLValidation.t)
  (validation : DocValidation.t)
  : ObjMap JDLValidation.t * DocValidation.t :=
  let validation :=
    if DocValidation.constant validation
    then DocValidation.mk (DocValidation.key validation)
           (obj_get (Document.constants (Env.document env))
                    (property (DocValidation.value validation)))
           (DocValidation.constant validation)
    else validation in
  (obj_set validations (DocValidation.key validation)
     (JDLValidation.mk (DocValidation.key validation)
                       (DocValidation.value validation)),
   validation).

Definition getValidations (env : Env.t) (field : DocField.t)
  : ObjMap JDLValidation.t * list DocValidation.t :=
  forEach_mut (getValidation env) [] (DocField.validations field).

(** The body of the loop of [getFields]. *)
Definition getField (env : Env.t) (fields : ObjMap JDLField.t)
  (field : DocField.t) : ObjMap JDLField.t * DocField.t :=
  let fieldName := lowerFirst (DocField.name field) in
  if String.eqb (toLowerCase fieldName) "id" then (fields, field)
  else
    let '(validations, written) := getValidations env field in
    let fieldObject :=
      JDLField.mk fieldName (DocField.type field) validations
        (if truthy (DocField.javadoc field)
         then formatComment (DocField.javadoc field) else None) in
    (obj_set fields fieldName fieldObject,
     DocField.mk (DocField.name field) (DocField.type field)
                 (DocField.javadoc field) written).

Definition getFields (env : Env.t) (entity : DocEntity.t)
  : ObjMap JDLField.t * list DocField.t :=
  forEach_mut (getField env) [] (DocEntity.body entity).

(** [new JDLEntity({...})] in [fillClassAndItsFields]. *)
Definition newJDLEntity (env : Env.t) (entity : DocEntity.t) : JDLEntity.t :=
  JDLEntity.mk (DocEntity.name entity)
    (js_or (DocEntity.tableName entity) (DocEntity.name entity))
    (fst (getFields env entity))
    (formatComment (DocEntity.javadoc entity)).

Definition fillClassAndItsFields (env : Env.t) (entity : DocEntity.t)
  : Env.t * DocEntity.t :=
  (Env.with_jdlObject env
     (JDLObject.addEntity (Env.jdlObject env) (newJDLEntity env entity)),
   DocEntity.mk (DocEntity.name entity)
     (Some (js_or (DocEntity.tableName entity) (DocEntity.name entity)))
     (DocEntity.javadoc entity) (snd (getFields env entity))).

Definition getUserRelationships (env : Env.t) : list DocRelationship.t :=
  filter (fun val =>
            String.eqb (toLowerCase (DocSide.name (DocRelationship.to val)))
                       (toLowerCase USER))
         (Document.relationships (Env.document env)).

Definition addUserEntity (env : Env.t) : Env.t :=
  Env.with_jdlObject env
    (JDLObject.addEntity (Env.jdlObject env)
       (JDLEntity.mk USER "jhi_user" [] None)).

Definition addUserEntityIfNeedBe (env : Env.t) : Env.t :=
  let relationshipsToTheUserEntity := getUserRelationships env in
  if negb (Nat.eqb (List.length relationshipsToTheUserEntity) 0)
     && negb (obj_has (JDLObject.entities (Env.jdlObject env)) USER)
  then addUserEntity env
  else env.

Definition fillClassesAndFields (env : Env.t) : Env.t :=
  let '(env, entities) :=
    forEach_mut fillClassAndItsFields env
                (Document.entities (Env.document env)) in
  addUserEntityIfNeedBe
    (Env.with_document env
       (Document.with_entities (Env.document env) entities)).

(** The default of [fillAssociations] for the injected field. *)
Definition defaultInjectedField (relationship : DocRelationship.t)
  : DocRelationship.t :=
  let from := DocRelationship.from relationship in
  let to := DocRelationship.to relationship in
  if negb (truthy (DocSide.injectedfield from))
     && negb (truthy (DocSide.injectedfield to))
  then DocRelationship.mk (DocRelationship.cardinality relationship)
         (DocSide.mk (DocSide.name from)
            (Some (lowerFirst (DocSide.name from)))
            (DocSide.required from) (DocSide.javadoc from))
         to
  else relationship.

(** [new JDLRelationship({...})] in [fillAssociations], [entities] being
    [jdlObject.entities]. *)
Definition newJDLRelationship (entities : ObjMap JDLEntity.t)
  (relationship : DocRelationship.t) : JDLRelationship.t :=
  let from := DocRelationship.from relationship in
  let to := DocRelationship.to relationship in
  JDLRelationship.mk
    (obj_get entities (DocSide.name from))
    (obj_get entities (DocSide.name to))
    (upperFirst (camelCase (DocRelationship.cardinality relationship)))
    (DocSide.injectedfield from)
    (DocSide.injectedfield to)
    (DocSide.required from)
    (DocSide.required to)
    (formatComment (DocSide.javadoc from))
    (formatComment (DocSide.javadoc to)).

(** The body of the loop of [fillAssociations]. *)
Definition fillAssociation (env : Env.t) (relationship : DocRelationship.t)
  : Env.t * DocRelationship.t :=
  let relationship := defaultInjectedField relationship in
  (Env.with_jdlObject env
     (JDLObject.addRelationship (Env.jdlObject env)
        (newJDLRelationship (JDLObject.entities (Env.jdlObject env))
                            relationship)),
   relationship).

Definition fillAssociations (env : Env.t) : Env.t :=
  let '(env, relationships) :=
    forEach_mut fillAssociation env
                (Document.relationships (Env.document env)) in
  Env.with_document env
    (Document.with_relationships (Env.document env) relationships).

Definition addUnaryOption (name : string) (o : OptionList.t) (env : Env.t)
  : Env.t :=
  if negb (Nat.eqb (List.length (OptionList.list o)) 0)
  then Env.with_jdlObject env
         (JDLObject.addOption (Env.jdlObject env)
            (JDLUnaryOption name (OptionList.list o) (OptionList.excluded o)))
  else env.

Definition fillUnaryOptions (env : Env.t) : Env.t :=
  let document := Env.document env in
  addUnaryOption UnaryOptions.FILTER (Document.filter document)
    (addUnaryOption UnaryOptions.NO_FLUENT_METHOD
       (Document.noFluentMethod document)
       (addUnaryOption UnaryOptions.SKIP_SERVER (Document.noServer document)
          (addUnaryOption UnaryOptions.SKIP_CLIENT
             (Document.noClient document) env))).

(** [document[key][value]] is the entry the loop is at, so it is
    there. *)
Definition addBinaryOption (env : Env.t) (key value : string) : Env.t :=
  match obj_get (Document.at_key (Env.document env) key) value with
  | Some o =>
      Env.with_jdlObject env
        (JDLObject.addOption (Env.jdlObject env)
           (JDLBinaryOption key (Some value) (OptionList.list o)
                            (OptionList.excluded o)))
  | None => env
  end.

Definition fillBinaryOptions (env : Env.t) : Env.t :=
  fold_left
    (fun env optionValue =>
       fold_left
         (fun env documentOptionKey =>
            if option_eqb (Env.applicationType env)
                          ApplicationTypes.MICROSERVICE
               && String.eqb optionValue BinaryOptions.CLIENT_ROOT_FOLDER
            then Env.warn env
                   "Using the 'clientRootFolder' option inside a microservice is useless. It will be ignored."
            else addBinaryOption env optionValue documentOptionKey)
         (obj_keys (Document.at_key (Env.document env) optionValue)) env)
    Options env.

Definition globallyAddMicroserviceOption (env : Env.t)
  (applicationName : option string) : Env.t :=
  Env.with_jdlObject env
    (JDLObject.addOption (Env.jdlObject env)
       (JDLBinaryOption BinaryOptions.MICROSERVICE applicationName
          (map DocEntity.name (Document.entities (Env.document env))) [])).

Definition fillOptions (env : Env.t) : Env.t :=
  let env := fillBinaryOptions (fillUnaryOptions env) in
  if option_eqb (Env.applicationType env) ApplicationTypes.MICROSERVICE
     && Nat.eqb (List.length
                   (obj_keys (Document.microservice (Env.document env)))) 0
  then globallyAddMicroserviceOption env (Env.applicationName env)
  else env.

(** The exported function. The first component is the module-level
    state it leaves, [previous] being the state it finds; the second is
    the exception thrown or the value returned. *)
Definition parseFromConfigurationObject (previous : option Env.t)
  (configuration : Configuration.t)
  : option Env.t * (ParseError + JDLObject.t) :=
  match Configuration.document configuration with
  | None =>
      (previous,
       inl (MissingInputError "The parsed JDL content must be passed."))
  | Some document =>
      let env := init configuration document in
      let env := fillApplications env in
      let env := fillEnums env in
      let env := fillClassesAndFields env in
      let env := fillAssociations env in
      let env := fillOptions env in
      (Some env, inr (Env.jdlObject env))
  end.


(** ** Vocabulary of the statements *)

(** What a loop reads of the environment and does not write: the document
    and the three properties of the configuration. *)
Definition inputs (e : Env.t)
  : Document.t * option string * option string * option string :=
  (Env.document e, Env.applicationType e, Env.applicationName e,
   Env.generatorVersion e).

(** The entities of the graph once the declared entities are installed. *)
Definition declared_entities (env : Env.t) : ObjMap JDLEntity.t :=
  fold_left (fun m a => obj_set m (DocEntity.name a) (newJDLEntity env a))
            (Document.entities (Env.document env))
            (JDLObject.entities (Env.jdlObject env)).

Definition userEntity : JDLEntity.t := JDLEntity.mk USER "jhi_user" [] None.

(** The test of [getUserRelationships]. *)
Definition to_user (relationship : DocRelationship.t) : bool :=
  String.eqb (toLowerCase (DocSide.name (DocRelationship.to relationship)))
             (toLowerCase USER).

(** The entities of the graph: the declared ones, and [User] after them
    when a relationship asks for it and none is declared. *)
Definition graph_entities (configuration : Configuration.t)
  (document : Document.t) : ObjMap JDLEntity.t :=
  let declared :=
    fold_left
      (fun m a => obj_set m (DocEntity.name a)
                    (newJDLEntity (init configuration document) a))
      (Document.entities document) [] in
  if negb (Nat.eqb (List.length (filter to_user
                                        (Document.relationships document))) 0)
     && negb (obj_has declared USER)
  then obj_set declared USER userEntity
  else declared.

(** The applications that [fillApplications] builds, one for each
    application block of the document, in the order of the blocks. *)
Definition assembled_applications (configuration : Configuration.t)
  (document : Document.t) : list JDLApplication.t :=
  map (fun a =>
         JDLApplication.new
           (DocApplication.config
              (snd (fillApplication (init configuration document) a)))
           (getApplicationEntities (init configuration document) a))
      (Document.applications document).

(** Applications filed under their names one after the other, a later
    one taking the place of an earlier one of the same name. *)
Definition by_name (l : list JDLApplication.t)
  (m : ObjMap JDLApplication.t) : ObjMap JDLApplication.t :=
  fold_left (fun m a => obj_set m (JDLApplication.name a) a) l m.

(** The state in which [fillAssociations] finds the parser. *)
Definition before_associations (configuration : Configuration.t)
  (document : Document.t) : Env.t :=
  fillClassesAndFields
    (fillEnums (fillApplications (init configuration document))).

(** A binary option of the graph that is an entry of the document: its
    value is a key of the map the document holds under the name of the
    option, and its lists are the lists of that entry. *)
Definition from_document (d : Document.t) (o : JDLOption) : Prop :=
  match o with
  | JDLUnaryOption _ _ _ => True
  | JDLBinaryOption name value entityNames excludedNames =>
      exists key entry,
        value = Some key
        /\ obj_get (Document.at_key d name) key = Some entry
        /\ entityNames = OptionList.list entry
        /\ excludedNames = OptionList.excluded entry
  end.

Definition isBinaryOption (name : string) (o : JDLOption) : bool :=
  match o with
  | JDLBinaryOption n _ _ _ => String.eqb n name
  | JDLUnaryOption _ _ _ => false
  end.

(** What the options step leaves alone, and what it keeps true of the
    options. *)
Definition options_inv (env s : Env.t) : Prop :=
  (inputs s,
   JDLObject.applications (Env.jdlObject s),
   JDLObject.entities (Env.jdlObject s),
   JDLObject.enums (Env.jdlObject s),
   JDLObject.relationships (Env.jdlObject s))
  = (inputs env,
     JDLObject.applications (Env.jdlObject env),
     JDLObject.entities (Env.jdlObject env),
     JDLObject.enums (Env.jdlObject env),
     JDLObject.relationships (Env.jdlObject env))
  /\ Forall (from_document (Env.document env))
            (JDLObject.options (Env.jdlObject s)).


(** ** Sample inputs

    Documents of the examples of the specification, and stand-ins for
    what the parser takes from elsewhere: comments left as they are,
    cardinalities left as they are, and the binary options by name. *)

Definition plain_comment (comment : option string) : option string := comment.
Definition plain_case (s : string) : string := s.
Definition binary_options : list string :=
  ["dto"; "service"; "pagination"; "microservice"; "searchEngine";
   "angularSuffix"; "clientRootFolder"].

Definition no_entities : OptionList.t := OptionList.mk [] [].

Definition sample_document (applications : list DocApplication.t)
  (entities : list DocEntity.t) (relationships : list DocRelationship.t)
  (constants : ObjMap string) : Document.t :=
  Document.mk applications [] entities relationships constants
    no_entities no_entities no_entities no_entities [] [].

Definition sample_entity (name : string) (body : list DocField.t)
  : DocEntity.t := DocEntity.mk name None None body.

Definition sample_relationship (from to : string) : DocRelationship.t :=
  DocRelationship.mk "one-to-many" (DocSide.mk from None None None)
                     (DocSide.mk to None None None).

Definition sample_configuration (document : Document.t)
  (applicationType applicationName generatorVersion : option string)
  : Configuration.t :=
  Configuration.mk (Some document) applicationType applicationName
                   generatorVersion.

(** A relationship from Owner to Car with no injected field. *)
Definition owner_car : Document.t :=
  sample_document []
    [sample_entity "Owner" []; sample_entity "Car" []]
    [sample_relationship "Owner" "Car"] [].

(** A relationship from A to User, and one from A to user. *)
Definition a_to_User : Document.t :=
  sample_document [] [sample_entity "A" []] [sample_relationship "A" "User"] [].
Definition a_to_user : Document.t :=
  sample_document [] [sample_entity "A" []] [sample_relationship "A" "user"] [].

(** An application of all the entities but Foo. *)
Definition all_but_Foo : Document.t :=
  sample_document
    [DocApplication.mk [("baseName", "shop")] (EntityList.mk ["*"] ["Foo"])]
    [sample_entity "Foo" []; sample_entity "Bar" []; sample_entity "Baz" []]
    [] [].

(** A field whose maximal length is the constant MAXLEN. *)
Definition maxlen_validation : DocValidation.t :=
  DocValidation.mk "maxlength" (Some "MAXLEN") true.
Definition maxlen_field : DocField.t :=
  DocField.mk "Email" "String" None [maxlen_validation].
Definition maxlen_document : Document.t :=
  sample_document [] [sample_entity "Customer" [maxlen_field]] []
                  [("MAXLEN", "50")].



(** The entities Invoice and Line, and no microservice entry. *)
Definition invoice_line : Document.t :=
  sample_document [] [sample_entity "Invoice" []; sample_entity "Line" []]
                  [] [].

(** An application block, an entity and a relationship to be written. *)
Definition to_be_written : Document.t :=
  sample_document
    [DocApplication.mk [("baseName", "shop")] (EntityList.mk ["Owner"] [])]
    [sample_entity "Owner" []; sample_entity "Car" []]
    [sample_relationship "Owner" "Car"] [].

(** ** Vocabulary of the further statements *)

(** The unary option that [fillUnaryOptions] adds for one key of the
    document, if it adds one. *)
Definition unary_option (name : string) (o : OptionList.t) : list JDLOption :=
  if negb (Nat.eqb (List.length (OptionList.list o)) 0)
  then [JDLUnaryOption name (OptionList.list o) (OptionList.excluded o)]
  else [].

Definition document_unary_options (d : Document.t) : list JDLOption :=
  (unary_option UnaryOptions.SKIP_CLIENT (Document.noClient d)
   ++ unary_option UnaryOptions.SKIP_SERVER (Document.noServer d)
   ++ unary_option UnaryOptions.NO_FLUENT_METHOD (Document.noFluentMethod d)
   ++ unary_option UnaryOptions.FILTER (Document.filter d))%list.

(** The test of [fillBinaryOptions] that leaves an entry out. *)
Definition ignored (applicationType : option string) (name : string) : bool :=
  option_eqb applicationType ApplicationTypes.MICROSERVICE
  && String.eqb name BinaryOptions.CLIENT_ROOT_FOLDER.

(** The binary option for one entry of the document. *)
Definition entry_option (d : Document.t) (name key : string)
  : list JDLOption :=
  match obj_get (Document.at_key d name) key with
  | Some o =>
      [JDLBinaryOption name (Some key) (OptionList.list o)
                       (OptionList.excluded o)]
  | None => []
  end.

Definition clientRootFolder_warning : string :=
  "Using the 'clientRootFolder' option inside a microservice is useless. It will be ignored.".

Definition isUnaryOption (o : JDLOption) : bool :=
  match o with
  | JDLUnaryOption _ _ _ => true
  | JDLBinaryOption _ _ _ _ => false
  end.

(** The applications of a list that own an entity name. *)
Definition owners (name : string) (l : list JDLApplication.t)
  : list JDLApplication.t :=
  filter (fun a => includes (JDLApplication.entities a) name) l.

(** [o[k]] for an index whose entries are arrays that are never empty. *)
Definition some_owners (l : list JDLApplication.t)
  : option (list JDLApplication.t) :=
  match l with
  | [] => None
  | _ => Some l
  end.

(** What the options step neither reads nor writes, with what it reads. *)
Definition but_options (s : Env.t) :=
  (inputs s,
   JDLObject.applications (Env.jdlObject s),
   JDLObject.entities (Env.jdlObject s),
   JDLObject.enums (Env.jdlObject s),
   JDLObject.relationships (Env.jdlObject s),
   Env.applicationsPerEntityName s).

(** The binary options and the warnings that [fillBinaryOptions] makes of
    a document. *)
Definition document_binary_options (applicationType : option string)
  (d : Document.t) : list JDLOption :=
  flat_map
    (fun name =>
       if ignored applicationType name then []
       else flat_map (entry_option d name) (obj_keys (Document.at_key d name)))
    Options.

Definition document_warnings (applicationType : option string)
  (d : Document.t) : list string :=
  flat_map
    (fun name =>
       if ignored applicationType name
       then map (fun _ => clientRootFolder_warning)
                (obj_keys (Document.at_key d name))
       else [])
    Options.

(** The option that [globallyAddMicroserviceOption] adds, when
    [fillOptions] calls it. *)
Definition global_option (applicationType applicationName : option string)
  (d : Document.t) : list JDLOption :=
  if option_eqb applicationType ApplicationTypes.MICROSERVICE
     && Nat.eqb (List.length (obj_keys (Document.microservice d))) 0
  then [JDLBinaryOption BinaryOptions.MICROSERVICE applicationName
          (map DocEntity.name (Document.entities d)) []]
  else [].

(** [new JDLEnum({...})] in [fillEnums]. *)
Definition newJDLEnum (enumObj : DocEnum.t) : JDLEnum.t :=
  JDLEnum.mk (DocEnum.name enumObj) (DocEnum.values enumObj)
             (formatComment (DocEnum.javadoc enumObj)).

(** The index [applicationsPerEntityName] holds, under every entity name,
    the applications of the list [built] that own it, in their order. *)
Definition index_agrees (built : list JDLApplication.t) (s : Env.t) : Prop :=
  forall name,
    obj_get (Env.applicationsPerEntityName s) name
    = some_owners (owners name built).

(** The configuration object after a call: the same properties, and the
    document as the parser left it. *)
Definition configuration_after (configuration : Configuration.t)
  (env : Env.t) : Configuration.t :=
  Configuration.mk (Some (Env.document env))
    (Configuration.applicationType configuration)
    (Configuration.applicationName configuration)
    (Configuration.generatorVersion configuration).

(** No validation of the document is flagged as a constant. *)
Definition no_constant (d : Document.t) : Prop :=
  forall e f v,
    In e (Document.entities d) -> In f (DocEntity.body e) ->
    In v (DocField.validations f) -> DocValidation.constant v = false.

(** A document with an application block, an enum, a named table, a
    validated field, a relationship with named injected fields and
    options of both kinds. *)
Definition shop : Document.t :=
  Document.mk
    [DocApplication.mk [("baseName", "shop")]
                       (EntityList.mk ["Owner"; "Car"] [])]
    [DocEnum.mk "Colour" ["RED"; "BLUE"] None]
    [DocEntity.mk "Owner" (Some "owners") None
       [DocField.mk "Name" "String" None
          [DocValidation.mk "required" None false]];
     sample_entity "Car" []]
    [DocRelationship.mk "one-to-many"
       (DocSide.mk "Owner" (Some "cars") None None)
       (DocSide.mk "Car" (Some "owner") None None)]
    []
    (OptionList.mk [] ["Owner"]) no_entities no_entities no_entities
    []
    [("dto", [("mapstruct", OptionList.mk [] ["Owner"])]);
     ("clientRootFolder", [("shop", OptionList.mk [] ["Car"])])].
(** * Properties *)

(** ** Objects used as maps *)

Lemma obj_get_set_same {V : Type} (o : ObjMap V) (k : string) (v : V) :
  obj_get (obj_set o k v) k = Some v.
Proof.
  induction o as [|[k' v'] r IH]; simpl.
  - now rewrite String.eqb_refl.
  - destruct (String.eqb k' k) eqn:E; simpl; rewrite E; auto.
Qed.

Lemma obj_get_set_other {V : Type} (o : ObjMap V) (k k' : string) (v : V) :
  k <> k' -> obj_get (obj_set o k v) k' = obj_get o k'.
Proof.
  intros Hne. induction o as [|[k0 v0] r IH]; simpl.
  - destruct (String.eqb_spec k k'); congruence.
  - destruct (String.eqb_spec k0 k) as [->|Hk]; simpl.
    + destruct (String.eqb_spec k k'); congruence.
    + destruct (String.eqb_spec k0 k'); auto.
Qed.

Lemma obj_get_keys {V : Type} (o : ObjMap V) (k : string) :
  obj_get o k = None <-> ~ In k (obj_keys o).
Proof.
  induction o as [|[k0 v0] r IH]; simpl.
  - tauto.
  - destruct (String.eqb_spec k0 k) as [->|Hk].
    + split; [discriminate | tauto].
    + rewrite IH. tauto.
Qed.


Lemma obj_keys_set {V : Type} (o : ObjMap V) (k k' : string) (v : V) :
  In k' (obj_keys (obj_set o k v)) <-> k' = k \/ In k' (obj_keys o).
Proof.
  induction o as [|[k0 v0] r IH]; simpl.
  - intuition.
  - destruct (String.eqb_spec k0 k) as [->|Hk]; simpl.
    + intuition.
    + rewrite IH. intuition.
Qed.

Lemma includes_In (l : list string) (x : string) :
  includes l x = true <-> In x l.
Proof.
  unfold includes. rewrite existsb_exists. split.
  - intros [y [Hy E]]. apply String.eqb_eq in E. now subst.
  - intros H. exists x. split; auto. apply String.eqb_refl.
Qed.

Lemma includes_not_In (l : list string) (x : string) :
  includes l x = false <-> ~ In x l.
Proof.
  rewrite <- includes_In. destruct (includes l x); split; congruence.
Qed.

Lemma distinct_In (l seen : list string) (x : string) :
  In x (distinct seen l) <-> In x l /\ ~ In x seen.
Proof.
  revert seen. induction l as [|y r IH]; intros seen; simpl.
  - tauto.
  - destruct (includes seen y) eqn:E.
    + apply includes_In in E. rewrite IH. split.
      * tauto.
      * intros [[->|H] Hs]; tauto.
    + apply includes_not_In in E. simpl. rewrite IH. simpl.
      destruct (string_dec y x) as [->|Hne]; tauto.
Qed.

Lemma distinct_NoDup (l seen : list string) : NoDup (distinct seen l).
Proof.
  revert seen. induction l as [|y r IH]; intros seen; simpl.
  - constructor.
  - destruct (includes seen y); auto.
    constructor; auto. rewrite distinct_In. simpl. tauto.
Qed.

(** ** Loops *)

Lemma fold_left_keeps {A S B : Type} (proj : S -> B) (step : S -> A -> S) :
  (forall s a, proj (step s a) = proj s) ->
  forall l s, proj (fold_left step l s) = proj s.
Proof.
  intros H l. induction l as [|a r IH]; intros s; simpl; auto.
  now rewrite IH.
Qed.

Lemma forEach_mut_keeps {A S B : Type} (proj : S -> B)
  (body : S -> A -> S * A) :
  (forall s a, proj (fst (body s a)) = proj s) ->
  forall l s, proj (fst (forEach_mut body s l)) = proj s.
Proof.
  intros H l. induction l as [|a r IH]; intros s; simpl; auto.
  specialize (H s a). destruct (body s a) as [s1 a'].
  specialize (IH s1). destruct (forEach_mut body s1 r) as [s2 r'].
  simpl in *. congruence.
Qed.

Lemma forEach_mut_fold {A S B : Type} (proj : S -> B) (step : B -> A -> B)
  (body : S -> A -> S * A) (I : S -> Prop) :
  (forall s a, I s ->
     proj (fst (body s a)) = step (proj s) a /\ I (fst (body s a))) ->
  forall l s, I s ->
    proj (fst (forEach_mut body s l)) = fold_left step l (proj s).
Proof.
  intros H l. induction l as [|a r IH]; intros s Hs; simpl; auto.
  destruct (H s a Hs) as [H1 H2]. destruct (body s a) as [s1 a'].
  specialize (IH s1 H2). destruct (forEach_mut body s1 r) as [s2 r'].
  simpl in *. congruence.
Qed.

Lemma forEach_mut_map {A S : Type} (out : A -> A) (body : S -> A -> S * A)
  (I : S -> Prop) :
  (forall s a, I s -> snd (body s a) = out a /\ I (fst (body s a))) ->
  forall l s, I s -> snd (forEach_mut body s l) = map out l.
Proof.
  intros H l. induction l as [|a r IH]; intros s Hs; simpl; auto.
  destruct (H s a Hs) as [H1 H2]. destruct (body s a) as [s1 a'].
  specialize (IH s1 H2). destruct (forEach_mut body s1 r) as [s2 r'].
  simpl in *. congruence.
Qed.


Lemma forEach_mut_ext {A S : Type} (f g : S -> A -> S * A) :
  (forall s a, f s a = g s a) ->
  forall l s, forEach_mut f s l = forEach_mut g s l.
Proof.
  intros H l. induction l as [|a r IH]; intros s; simpl; auto.
  rewrite H. destruct (g s a) as [s1 a']. now rewrite IH.
Qed.

Lemma fold_left_inv {A S : Type} (P : S -> Prop) (step : S -> A -> S) :
  (forall s a, P s -> P (step s a)) ->
  forall l s, P s -> P (fold_left step l s).
Proof.
  intros H l. induction l as [|a r IH]; intros s Hs; simpl; auto.
Qed.

Lemma fold_left_ext {A S : Type} (f g : S -> A -> S) :
  (forall s a, f s a = g s a) ->
  forall l s, fold_left f l s = fold_left g l s.
Proof.
  intros H l. induction l as [|a r IH]; intros s; simpl; auto.
  now rewrite H, IH.
Qed.

Lemma forEach_mut_app {A S : Type} (body : S -> A -> S * A) l1 l2 s :
  fst (forEach_mut body s (l1 ++ l2))
  = fst (forEach_mut body (fst (forEach_mut body s l1)) l2).
Proof.
  revert s. induction l1 as [|a r IH]; intros s; simpl; auto.
  destruct (body s a) as [s1 a']. specialize (IH s1).
  destruct (forEach_mut body s1 (r ++ l2)) as [s2 r2].
  destruct (forEach_mut body s1 r) as [s3 r3]. simpl in *. exact IH.
Qed.

Lemma fold_obj_set_keys {A V : Type} (key : A -> string) (val : A -> V) l m k :
  In k (obj_keys (fold_left (fun m a => obj_set m (key a) (val a)) l m))
  <-> In k (map key l) \/ In k (obj_keys m).
Proof.
  revert m. induction l as [|a r IH]; intros m; simpl.
  - tauto.
  - rewrite IH, obj_keys_set. intuition.
Qed.

Lemma forEach_mut_cons {A S : Type} (body : S -> A -> S * A) a l s :
  fst (forEach_mut body s (a :: l))
  = fst (forEach_mut body (fst (body s a)) l).
Proof.
  simpl. destruct (body s a) as [s1 a']. simpl.
  now destruct (forEach_mut body s1 l).
Qed.

Lemma fold_obj_set_get {A V : Type} (key : A -> string) (val : A -> V)
  l m k v :
  obj_get (fold_left (fun m a => obj_set m (key a) (val a)) l m) k = Some v ->
  obj_get m k = Some v \/ exists a, In a l /\ key a = k /\ v = val a.
Proof.
  revert m. induction l as [|a r IH]; intros m H; simpl in *; auto.
  apply IH in H. destruct H as [H|(b & Hb & E)].
  - destruct (string_dec (key a) k) as [<-|Hne].
    + rewrite obj_get_set_same in H. injection H as <-.
      right. exists a. auto.
    + rewrite obj_get_set_other in H; auto.
  - right. exists b. auto.
Qed.

Lemma obj_get_Some_keys {V : Type} (m : ObjMap V) k v :
  obj_get m k = Some v -> In k (obj_keys m).
Proof.
  intros H. destruct (in_dec string_dec k (obj_keys m)) as [Hin|Hn]; auto.
  apply obj_get_keys in Hn. congruence.
Qed.

Lemma fold_obj_set_other {A V : Type} (key : A -> string) (val : A -> V)
  l m k :
  (forall a, In a l -> key a <> k) ->
  obj_get (fold_left (fun m a => obj_set m (key a) (val a)) l m) k
  = obj_get m k.
Proof.
  revert m. induction l as [|a r IH]; intros m H; auto.
  cbn [fold_left]. rewrite IH.
  - apply obj_get_set_other. apply H. now left.
  - intros b Hb. apply H. now right.
Qed.

(** In a loop of assignments [m[key(a)] = val(a)], the last element with
    a key decides what the map holds under it. *)
Lemma fold_obj_set_last {A V : Type} (key : A -> string) (val : A -> V)
  before a after m :
  (forall b, In b after -> key b <> key a) ->
  obj_get (fold_left (fun m a => obj_set m (key a) (val a))
                     (before ++ a :: after) m) (key a)
  = Some (val a).
Proof.
  intros H. rewrite fold_left_app. cbn [fold_left].
  rewrite fold_obj_set_other by exact H. apply obj_get_set_same.
Qed.


(** ** The steps of the parser, one by one *)

Lemma inputs_eq (e s : Env.t) :
  inputs s = inputs e ->
  Env.document s = Env.document e
  /\ Env.applicationType s = Env.applicationType e
  /\ Env.applicationName s = Env.applicationName e
  /\ Env.generatorVersion s = Env.generatorVersion e.
Proof. unfold inputs. intros H. injection H as -> -> -> ->. auto. Qed.

Lemma fillApplicationsPerEntityName_keeps env application :
  (inputs (fillApplicationsPerEntityName env application),
   Env.jdlObject (fillApplicationsPerEntityName env application),
   Env.warnings (fillApplicationsPerEntityName env application))
  = (inputs env, Env.jdlObject env, Env.warnings env).
Proof.
  unfold fillApplicationsPerEntityName.
  apply (fold_left_keeps
           (fun s => (inputs s, Env.jdlObject s, Env.warnings s))).
  intros s a. now destruct s.
Qed.

Lemma fillApplication_entities env application :
  DocApplication.entities (snd (fillApplication env application))
  = DocApplication.entities application.
Proof.
  unfold fillApplication. simpl.
  destruct (Env.generatorVersion env) as [[|c r]|]; reflexivity.
Qed.

(** One turn of the loop of [fillApplications] installs an application
    and leaves the rest of the graph, and what the loop reads, alone. *)
Lemma fillApplication_fst env application :
  Env.jdlObject (fst (fillApplication env application))
  = JDLObject.addApplication (Env.jdlObject env)
      (JDLApplication.new
         (DocApplication.config (snd (fillApplication env application)))
         (getApplicationEntities env application))
  /\ Env.warnings (fst (fillApplication env application)) = Env.warnings env
  /\ inputs (fst (fillApplication env application)) = inputs env.
Proof.
  unfold fillApplication; simpl.
  match goal with
  | |- context [fillApplicationsPerEntityName ?e ?a] =>
      pose proof (fillApplicationsPerEntityName_keeps e a) as H
  end.
  pose proof (f_equal (fun t => snd (fst t)) H) as HJ.
  pose proof (f_equal (fun t => fst (fst t)) H) as HI.
  pose proof (f_equal snd H) as HW. simpl in HJ, HI, HW.
  rewrite HJ, HI, HW.
  split; [|split]; try (destruct env; reflexivity).
  simpl. f_equal. f_equal. unfold getApplicationEntities.
  destruct (Env.generatorVersion env) as [[|c r]|]; reflexivity.
Qed.

Lemma fillApplication_reads e s application :
  inputs s = inputs e ->
  snd (fillApplication s application) = snd (fillApplication e application)
  /\ getApplicationEntities s application
     = getApplicationEntities e application.
Proof.
  intros H. apply inputs_eq in H. destruct H as (H1 & H2 & H3 & H4).
  unfold fillApplication, getApplicationEntities.
  simpl. now rewrite H1, H4.
Qed.

Lemma fold_addApplication (f : DocApplication.t -> JDLApplication.t) l o :
  fold_left (fun o a => JDLObject.addApplication o (f a)) l o
  = JDLObject.mk (by_name (map f l) (JDLObject.applications o))
      (JDLObject.entities o) (JDLObject.enums o) (JDLObject.relationships o)
      (JDLObject.options o).
Proof.
  revert o. induction l as [|a r IH]; intros o; simpl.
  - now destruct o.
  - now rewrite IH.
Qed.

Lemma fillApplications_spec env :
  Env.jdlObject (fillApplications env)
  = JDLObject.mk
      (by_name
         (map (fun a => JDLApplication.new
                          (DocApplication.config (snd (fillApplication env a)))
                          (getApplicationEntities env a))
              (Document.applications (Env.document env)))
         (JDLObject.applications (Env.jdlObject env)))
      (JDLObject.entities (Env.jdlObject env))
      (JDLObject.enums (Env.jdlObject env))
      (JDLObject.relationships (Env.jdlObject env))
      (JDLObject.options (Env.jdlObject env))
  /\ Env.document (fillApplications env)
     = Document.with_applications (Env.document env)
         (map (fun a => snd (fillApplication env a))
              (Document.applications (Env.document env)))
  /\ Env.applicationType (fillApplications env) = Env.applicationType env
  /\ Env.applicationName (fillApplications env) = Env.applicationName env
  /\ Env.generatorVersion (fillApplications env) = Env.generatorVersion env
  /\ Env.warnings (fillApplications env) = Env.warnings env.
Proof.
  unfold fillApplications.
  set (l := Document.applications (Env.document env)).
  set (I := fun s => inputs s = inputs env).
  assert (Hinv : forall s a, I s -> I (fst (fillApplication s a))).
  { unfold I. intros s a Hs.
    destruct (fillApplication_fst s a) as (_ & _ & H). congruence. }
  pose proof (forEach_mut_fold Env.jdlObject
    (fun o a => JDLObject.addApplication o
       (JDLApplication.new
          (DocApplication.config (snd (fillApplication env a)))
          (getApplicationEntities env a)))
    fillApplication I) as HJ.
  pose proof (forEach_mut_map (fun a => snd (fillApplication env a))
    fillApplication I) as HD.
  pose proof (forEach_mut_keeps inputs fillApplication) as HI.
  pose proof (forEach_mut_keeps Env.warnings fillApplication) as HW.
  specialize (HJ ltac:(intros s a Hs; split; [|now apply Hinv];
    destruct (fillApplication_fst s a) as (-> & _);
    destruct (fillApplication_reads env s a Hs) as (-> & ->); reflexivity)
    l env eq_refl).
  specialize (HD ltac:(intros s a Hs; split; [|now apply Hinv];
    apply (fillApplication_reads env s a Hs)) l env eq_refl).
  specialize (HW ltac:(intros s a; apply fillApplication_fst) l env).
  specialize (HI ltac:(intros s a; apply fillApplication_fst) l env).
  apply inputs_eq in HI.
  destruct (forEach_mut fillApplication env l) as [s apps]. simpl in *.
  destruct HI as (I1 & I2 & I3 & I4).
  rewrite fold_addApplication in HJ.
  destruct s; simpl in *; subst. repeat split; auto.
Qed.

(** [fillEnums] writes the enums of the graph and nothing else. *)
Lemma fillEnums_keeps env :
  inputs (fillEnums env) = inputs env
  /\ Env.warnings (fillEnums env) = Env.warnings env
  /\ JDLObject.applications (Env.jdlObject (fillEnums env))
     = JDLObject.applications (Env.jdlObject env)
  /\ JDLObject.entities (Env.jdlObject (fillEnums env))
     = JDLObject.entities (Env.jdlObject env)
  /\ JDLObject.relationships (Env.jdlObject (fillEnums env))
     = JDLObject.relationships (Env.jdlObject env)
  /\ JDLObject.options (Env.jdlObject (fillEnums env))
     = JDLObject.options (Env.jdlObject env).
Proof.
  unfold fillEnums.
  repeat split;
    match goal with
    | |- ?f (fold_left _ _ _) = _ =>
        apply (fold_left_keeps f); intros s a; now destruct s
    | |- ?f (?g (fold_left _ _ _)) = _ =>
        apply (fold_left_keeps (fun s => f (g s))); intros s a; now destruct s
    end.
Qed.

(** What [getFields] reads of the environment is the table of constants. *)
Lemma getFields_reads e s entity :
  Document.constants (Env.document s) = Document.constants (Env.document e) ->
  getFields s entity = getFields e entity.
Proof.
  intros H. unfold getFields. apply forEach_mut_ext. intros fields field.
  unfold getField. destruct (String.eqb _ "id"); auto.
  replace (getValidations s field) with (getValidations e field); auto.
  unfold getValidations. apply forEach_mut_ext. intros m v.
  unfold getValidation. now rewrite H.
Qed.

Lemma fillClassAndItsFields_reads e s entity :
  inputs s = inputs e ->
  snd (fillClassAndItsFields s entity) = snd (fillClassAndItsFields e entity)
  /\ newJDLEntity s entity = newJDLEntity e entity.
Proof.
  intros H. apply inputs_eq in H. destruct H as (H & _).
  unfold fillClassAndItsFields, newJDLEntity. simpl.
  rewrite (getFields_reads e s); auto. now rewrite H.
Qed.

Lemma fold_addEntity (f : DocEntity.t -> JDLEntity.t) l o :
  fold_left (fun o a => JDLObject.addEntity o (f a)) l o
  = JDLObject.mk (JDLObject.applications o)
      (fold_left (fun m a => obj_set m (JDLEntity.name (f a)) (f a)) l
                 (JDLObject.entities o))
      (JDLObject.enums o) (JDLObject.relationships o) (JDLObject.options o).
Proof.
  revert o. induction l as [|a r IH]; intros o; simpl.
  - now destruct o.
  - now rewrite IH.
Qed.

Lemma fillClassesAndFields_spec env :
  Env.jdlObject (fillClassesAndFields env)
  = JDLObject.mk
      (JDLObject.applications (Env.jdlObject env))
      (if negb (Nat.eqb (List.length (getUserRelationships env)) 0)
          && negb (obj_has (declared_entities env) USER)
       then obj_set (declared_entities env) USER userEntity
       else declared_entities env)
      (JDLObject.enums (Env.jdlObject env))
      (JDLObject.relationships (Env.jdlObject env))
      (JDLObject.options (Env.jdlObject env))
  /\ Env.document (fillClassesAndFields env)
     = Document.with_entities (Env.document env)
         (map (fun a => snd (fillClassAndItsFields env a))
              (Document.entities (Env.document env)))
  /\ Env.applicationType (fillClassesAndFields env) = Env.applicationType env
  /\ Env.applicationName (fillClassesAndFields env) = Env.applicationName env
  /\ Env.generatorVersion (fillClassesAndFields env)
     = Env.generatorVersion env
  /\ Env.warnings (fillClassesAndFields env) = Env.warnings env.
Proof.
  unfold fillClassesAndFields, declared_entities.
  set (l := Document.entities (Env.document env)).
  set (I := fun s => inputs s = inputs env).
  assert (Hinv : forall s a, I s -> I (fst (fillClassAndItsFields s a))).
  { unfold I. intros s a Hs. rewrite <- Hs. now destruct s. }
  pose proof (forEach_mut_fold Env.jdlObject
    (fun o a => JDLObject.addEntity o (newJDLEntity env a))
    fillClassAndItsFields I) as HJ.
  pose proof (forEach_mut_map (fun a => snd (fillClassAndItsFields env a))
    fillClassAndItsFields I) as HD.
  pose proof (forEach_mut_keeps inputs fillClassAndItsFields) as HI.
  pose proof (forEach_mut_keeps Env.warnings fillClassAndItsFields) as HW.
  specialize (HJ ltac:(intros s a Hs; split; [|now apply Hinv];
    destruct (fillClassAndItsFields_reads env s a Hs) as (_ & <-);
    now destruct s) l env eq_refl).
  specialize (HD ltac:(intros s a Hs; split; [|now apply Hinv];
    apply (fillClassAndItsFields_reads env s a Hs)) l env eq_refl).
  specialize (HW ltac:(intros s a; now destruct s) l env).
  specialize (HI ltac:(intros s a; now destruct s) l env).
  apply inputs_eq in HI.
  destruct (forEach_mut fillClassAndItsFields env l) as [s ents].
  simpl in *. destruct HI as (I1 & I2 & I3 & I4).
  rewrite fold_addEntity in HJ.
  unfold addUserEntityIfNeedBe, getUserRelationships, addUserEntity.
  destruct s; simpl in *; subst. simpl.
  match goal with
  | |- context [if ?b then _ else _] => destruct b
  end; simpl; repeat split; auto.
Qed.

Lemma fold_addRelationship (f : DocRelationship.t -> JDLRelationship.t) l o :
  fold_left (fun o a => JDLObject.addRelationship o (f a)) l o
  = JDLObject.mk (JDLObject.applications o) (JDLObject.entities o)
      (JDLObject.enums o) (JDLObject.relationships o ++ map f l)
      (JDLObject.options o).
Proof.
  revert o. induction l as [|a r IH]; intros o; simpl.
  - rewrite app_nil_r. now destruct o.
  - rewrite IH. simpl. now rewrite <- app_assoc.
Qed.

Lemma fillAssociations_spec env :
  Env.jdlObject (fillAssociations env)
  = JDLObject.mk
      (JDLObject.applications (Env.jdlObject env))
      (JDLObject.entities (Env.jdlObject env))
      (JDLObject.enums (Env.jdlObject env))
      (JDLObject.relationships (Env.jdlObject env)
       ++ map (fun r => newJDLRelationship
                          (JDLObject.entities (Env.jdlObject env))
                          (defaultInjectedField r))
              (Document.relationships (Env.document env)))
      (JDLObject.options (Env.jdlObject env))
  /\ Env.document (fillAssociations env)
     = Document.with_relationships (Env.document env)
         (map defaultInjectedField
              (Document.relationships (Env.document env)))
  /\ Env.applicationType (fillAssociations env) = Env.applicationType env
  /\ Env.applicationName (fillAssociations env) = Env.applicationName env
  /\ Env.generatorVersion (fillAssociations env) = Env.generatorVersion env
  /\ Env.warnings (fillAssociations env) = Env.warnings env.
Proof.
  unfold fillAssociations.
  set (l := Document.relationships (Env.document env)).
  set (I := fun s => JDLObject.entities (Env.jdlObject s)
                     = JDLObject.entities (Env.jdlObject env)).
  assert (Hinv : forall s a, I s -> I (fst (fillAssociation s a))).
  { unfold I. intros s a Hs. rewrite <- Hs. now destruct s. }
  pose proof (forEach_mut_fold Env.jdlObject
    (fun o a => JDLObject.addRelationship o
                  (newJDLRelationship (JDLObject.entities (Env.jdlObject env))
                                      (defaultInjectedField a)))
    fillAssociation I) as HJ.
  pose proof (forEach_mut_map defaultInjectedField fillAssociation I) as HD.
  pose proof (forEach_mut_keeps inputs fillAssociation) as HI.
  pose proof (forEach_mut_keeps Env.warnings fillAssociation) as HW.
  specialize (HJ ltac:(intros s a Hs; split; [|now apply Hinv];
    unfold fillAssociation; simpl;
    unfold I in Hs; now rewrite Hs) l env eq_refl).
  specialize (HD ltac:(intros s a Hs; split; [|now apply Hinv];
    reflexivity) l env eq_refl).
  specialize (HW ltac:(intros s a; now destruct s) l env).
  specialize (HI ltac:(intros s a; now destruct s) l env).
  apply inputs_eq in HI.
  destruct (forEach_mut fillAssociation env l) as [s rels].
  simpl in *. destruct HI as (I1 & I2 & I3 & I4).
  rewrite fold_addRelationship in HJ.
  destruct s; simpl in *; subst. repeat split; auto.
Qed.

Lemma options_inv_document env s :
  options_inv env s -> Env.document s = Env.document env.
Proof. intros [H _]. unfold inputs in H. congruence. Qed.

Lemma addUnaryOption_inv env name o s :
  options_inv env s -> options_inv env (addUnaryOption name o s).
Proof.
  intros [H1 H2]. unfold addUnaryOption.
  destruct (negb _); [|now split]. split.
  - rewrite <- H1. now destruct s.
  - destruct s; simpl in *. apply Forall_app. split; auto.
    constructor; simpl; auto.
Qed.

Lemma fillUnaryOptions_inv env s :
  options_inv env s -> options_inv env (fillUnaryOptions s).
Proof.
  intros H. unfold fillUnaryOptions. now repeat apply addUnaryOption_inv.
Qed.

Lemma addBinaryOption_inv env s key value :
  options_inv env s -> options_inv env (addBinaryOption s key value).
Proof.
  intros H. pose proof (options_inv_document env s H) as Hd.
  destruct H as [H1 H2]. unfold addBinaryOption.
  destruct (obj_get _ value) as [entry|] eqn:E; [|now split]. split.
  - rewrite <- H1. now destruct s.
  - destruct s; simpl in *. apply Forall_app. split; auto.
    constructor; auto. simpl. exists value, entry. subst. auto.
Qed.

Lemma fillBinaryOptions_inv env s :
  options_inv env s -> options_inv env (fillBinaryOptions s).
Proof.
  unfold fillBinaryOptions. apply fold_left_inv. clear s.
  intros s optionValue Hs.
  generalize (obj_keys (Document.at_key (Env.document s) optionValue)).
  intros keys. revert Hs. apply fold_left_inv. clear s.
  intros s key Hs. destruct (_ && _).
  - destruct Hs as [H1 H2]. split.
    + rewrite <- H1. now destruct s.
    + now destruct s.
  - now apply addBinaryOption_inv.
Qed.

(** The options step: the options of the document, then the global
    microservice option when it is due. *)
Lemma fillOptions_spec env :
  Forall (from_document (Env.document env))
         (JDLObject.options (Env.jdlObject env)) ->
  exists options,
    Forall (from_document (Env.document env)) options
    /\ JDLObject.options (Env.jdlObject (fillOptions env))
       = (options
          ++ if option_eqb (Env.applicationType env)
                           ApplicationTypes.MICROSERVICE
                && Nat.eqb (List.length (obj_keys (Document.microservice
                                                    (Env.document env)))) 0
             then [JDLBinaryOption BinaryOptions.MICROSERVICE
                     (Env.applicationName env)
                     (map DocEntity.name
                          (Document.entities (Env.document env))) []]
             else [])%list
    /\ Env.document (fillOptions env) = Env.document env
    /\ JDLObject.applications (Env.jdlObject (fillOptions env))
       = JDLObject.applications (Env.jdlObject env)
    /\ JDLObject.entities (Env.jdlObject (fillOptions env))
       = JDLObject.entities (Env.jdlObject env)
    /\ JDLObject.relationships (Env.jdlObject (fillOptions env))
       = JDLObject.relationships (Env.jdlObject env).
Proof.
  intros H0.
  assert (H : options_inv env (fillBinaryOptions (fillUnaryOptions env))).
  { apply fillBinaryOptions_inv, fillUnaryOptions_inv. now split. }
  unfold fillOptions.
  set (s := fillBinaryOptions (fillUnaryOptions env)) in *.
  destruct H as [H1 H2]. unfold inputs in H1.
  injection H1 as E1 E2 E3 E4 E5 E6 E7 E8.
  exists (JDLObject.options (Env.jdlObject s)).
  rewrite E1, E2, E3. split; auto.
  destruct (_ && _).
  - unfold globallyAddMicroserviceOption. destruct s; simpl in *.
    subst. auto.
  - rewrite app_nil_r. auto.
Qed.

(** ** The whole of [parseFromConfigurationObject] *)

Lemma before_associations_spec configuration document :
  let env0 := init configuration document in
  let env3 := before_associations configuration document in
  JDLObject.applications (Env.jdlObject env3)
  = by_name (assembled_applications configuration document) []
  /\ JDLObject.entities (Env.jdlObject env3)
     = graph_entities configuration document
  /\ JDLObject.relationships (Env.jdlObject env3) = []
  /\ JDLObject.options (Env.jdlObject env3) = []
  /\ Env.document env3
     = Document.with_entities
         (Document.with_applications document
            (map (fun a => snd (fillApplication env0 a))
                 (Document.applications document)))
         (map (fun a => snd (fillClassAndItsFields env0 a))
              (Document.entities document))
  /\ Env.applicationType env3 = Configuration.applicationType configuration
  /\ Env.applicationName env3 = Configuration.applicationName configuration.
Proof.
  intros env0 env3. unfold env3, before_associations. fold env0.
  destruct (fillApplications_spec env0) as (A1 & A2 & A3 & A4 & A5 & A6).
  destruct (fillEnums_keeps (fillApplications env0))
    as (B0 & B1 & B2 & B3 & B4 & B5).
  pose proof B0 as B. apply inputs_eq in B. destruct B as (D1 & D2 & D3 & D4).
  set (env1 := fillApplications env0) in *.
  set (env2 := fillEnums env1) in *.
  assert (H02 : Document.entities (Env.document env2)
                = Document.entities document).
  { rewrite D1, A2. reflexivity. }
  assert (HI : forall a,
             snd (fillClassAndItsFields env2 a)
             = snd (fillClassAndItsFields env0 a)
             /\ newJDLEntity env2 a = newJDLEntity env0 a).
  { intros a. unfold fillClassAndItsFields, newJDLEntity. simpl.
    rewrite (getFields_reads env0 env2); auto. rewrite D1, A2. reflexivity. }
  destruct (fillClassesAndFields_spec env2) as (C1 & C2 & C3 & C4 & C5 & C6).
  rewrite C1, C2, C3, C4. simpl.
  rewrite B2, B4, B5, D1, D2, D3, A1, A2, A3, A4. simpl.
  repeat split.
  - unfold graph_entities, declared_entities, getUserRelationships.
    fold env0. rewrite B3, D1, A1, A2. simpl.
    rewrite (fold_left_ext _
      (fun m a => obj_set m (DocEntity.name a) (newJDLEntity env0 a)));
      [reflexivity|].
    intros m a. now destruct (HI a) as (_ & ->).
  - f_equal. apply map_ext. intros a. apply HI.
Qed.

Lemma written_entity_names env l :
  map DocEntity.name (map (fun a => snd (fillClassAndItsFields env a)) l)
  = map DocEntity.name l.
Proof. rewrite map_map. now apply map_ext. Qed.

(** The result for a configuration that holds a document: the state left,
    the graph returned, and the document as the parser leaves it. *)
Lemma parse_spec previous configuration document :
  Configuration.document configuration = Some document ->
  let env0 := init configuration document in
  exists env options,
    parseFromConfigurationObject previous configuration
    = (Some env, inr (Env.jdlObject env))
    /\ JDLObject.applications (Env.jdlObject env)
       = by_name (assembled_applications configuration document) []
    /\ JDLObject.entities (Env.jdlObject env)
       = graph_entities configuration document
    /\ JDLObject.relationships (Env.jdlObject env)
       = map (fun r => newJDLRelationship
                         (graph_entities configuration document)
                         (defaultInjectedField r))
             (Document.relationships document)
    /\ Forall (from_document document) options
    /\ JDLObject.options (Env.jdlObject env)
       = (options
          ++ if option_eqb (Configuration.applicationType configuration)
                           ApplicationTypes.MICROSERVICE
                && Nat.eqb (List.length
                              (obj_keys (Document.microservice document))) 0
             then [JDLBinaryOption BinaryOptions.MICROSERVICE
                     (Configuration.applicationName configuration)
                     (map DocEntity.name (Document.entities document)) []]
             else [])%list
    /\ Env.document env
       = Document.with_relationships
           (Document.with_entities
              (Document.with_applications document
                 (map (fun a => snd (fillApplication env0 a))
                      (Document.applications document)))
              (map (fun a => snd (fillClassAndItsFields env0 a))
                   (Document.entities document)))
           (map defaultInjectedField (Document.relationships document)).
Proof.
  intros Hdoc env0.
  unfold parseFromConfigurationObject. rewrite Hdoc.
  fold env0. change (fillClassesAndFields (fillEnums (fillApplications env0)))
    with (before_associations configuration document).
  destruct (before_associations_spec configuration document)
    as (A1 & A2 & A3 & A4 & A5 & A6 & A7). fold env0 in A1, A5.
  set (env3 := before_associations configuration document) in *.
  destruct (fillAssociations_spec env3) as (B1 & B2 & B3 & B4 & B5 & B6).
  rewrite A1, A2, A3, A4, A5 in B1. simpl in B1.
  rewrite A5 in B2. simpl in B2. rewrite A6 in B3. rewrite A7 in B4.
  set (env4 := fillAssociations env3) in *.
  destruct (fillOptions_spec env4) as (options & C1 & C2 & C3 & C4 & C5 & C6).
  { rewrite B1. constructor. }
  assert (HN : map DocEntity.name (Document.entities (Env.document env4))
               = map DocEntity.name (Document.entities document)).
  { rewrite B2. unfold Document.with_relationships, Document.with_entities.
    cbn [Document.entities]. apply written_entity_names. }
  exists (fillOptions env4), options.
  rewrite C2, C3, C4, C5, C6, HN, B1, B2, B3, B4. simpl.
  repeat split; auto.
  rewrite B2 in C1. exact C1.
Qed.

(** ** The claims about the parser *)

(** C7. [parseFromConfigurationObject] throws the missing-input error
    exactly when the configuration holds no document. It throws before
    [init] runs: the module-level state is the one it found, and no graph
    is returned. With a document it does not throw, and returns the graph
    its state holds. *)
Theorem C7_missing_input_iff_no_document previous configuration :
  ((exists message,
       snd (parseFromConfigurationObject previous configuration)
       = inl (MissingInputError message))
   <-> Configuration.document configuration = None)
  /\ (Configuration.document configuration = None ->
      parseFromConfigurationObject previous configuration
      = (previous,
         inl (MissingInputError "The parsed JDL content must be passed.")))
  /\ (forall document,
        Configuration.document configuration = Some document ->
        exists env,
          parseFromConfigurationObject previous configuration
          = (Some env, inr (Env.jdlObject env))).
Proof.
  unfold parseFromConfigurationObject.
  destruct (Configuration.document configuration) as [document|]; simpl.
  - split; [|split].
    + split; [intros [m H]|]; discriminate.
    + discriminate.
    + intros d _. eexists. reflexivity.
  - split; [|split].
    + split; auto. intros _. eexists. reflexivity.
    + reflexivity.
    + discriminate.
Qed.

Lemma Forall2_map_right {A B : Type} (R : A -> B -> Prop) (f : A -> B) l :
  (forall a, In a l -> R a (f a)) -> Forall2 R l (map f l).
Proof.
  induction l as [|a r IH]; intros H; simpl; constructor.
  - apply H. now left.
  - apply IH. intros b Hb. apply H. now right.
Qed.




Lemma no_keys_nil {V : Type} (m : ObjMap V) :
  Nat.eqb (List.length (obj_keys m)) 0 = true <-> m = [].
Proof. destruct m; simpl; split; congruence. Qed.

Lemma option_eqb_eq (a : option string) (s : string) :
  option_eqb a s = true <-> a = Some s.
Proof.
  destruct a as [x|]; simpl.
  - rewrite String.eqb_eq. split; congruence.
  - split; discriminate.
Qed.

Lemma from_document_not_binary d name options :
  Document.at_key d name = [] ->
  Forall (from_document d) options ->
  filter (isBinaryOption name) options = [].
Proof.
  intros Hd H. induction H as [|o r Ho Hr IH]; simpl; auto.
  destruct o as [n l x|n v l x]; simpl; auto.
  destruct (String.eqb_spec n name) as [->|]; auto.
  destruct Ho as (key & entry & _ & Hg & _). rewrite Hd in Hg. discriminate.
Qed.

(** C6. For the application type "microservice" and a document whose
    microservice map is empty, the graph holds one binary microservice
    option: its value is the application name given and its entities are
    all the entity names the document declares. In the other cases
    nothing is added to the options of the document: every binary option
    of the graph is an entry of the document, and with an empty
    microservice map there is no binary microservice option at all. *)
Theorem C6_global_microservice_option previous configuration document :
  Configuration.document configuration = Some document ->
  exists env graph,
    parseFromConfigurationObject previous configuration
    = (Some env, inr graph)
    /\ (Configuration.applicationType configuration
        = Some ApplicationTypes.MICROSERVICE ->
        Document.microservice document = [] ->
        filter (isBinaryOption BinaryOptions.MICROSERVICE)
               (JDLObject.options graph)
        = [JDLBinaryOption BinaryOptions.MICROSERVICE
             (Configuration.applicationName configuration)
             (map DocEntity.name (Document.entities document)) []])
    /\ (~ (Configuration.applicationType configuration
           = Some ApplicationTypes.MICROSERVICE
           /\ Document.microservice document = []) ->
        Forall (from_document document) (JDLObject.options graph))
    /\ (Configuration.applicationType configuration
        <> Some ApplicationTypes.MICROSERVICE ->
        Document.microservice document = [] ->
        filter (isBinaryOption BinaryOptions.MICROSERVICE)
               (JDLObject.options graph) = []).
Proof.
  intros Hdoc.
  destruct (parse_spec previous configuration document Hdoc)
    as (env & options & H & _ & _ & _ & HF & HO & _).
  exists env, (Env.jdlObject env). split; auto. rewrite HO.
  split; [|split].
  - intros Ht Hm. rewrite Ht, Hm. simpl. rewrite filter_app. simpl.
    rewrite (from_document_not_binary document); auto.
  - intros Hn.
    destruct (option_eqb _ _ && _) eqn:E.
    + exfalso. apply Hn. apply andb_true_iff in E. destruct E as [E1 E2].
      apply option_eqb_eq in E1. apply no_keys_nil in E2. auto.
    + now rewrite app_nil_r.
  - intros Hn Hm.
    destruct (option_eqb _ _) eqn:E.
    + apply option_eqb_eq in E. contradiction.
    + simpl. rewrite app_nil_r.
      apply (from_document_not_binary document); auto.
Qed.

Lemma defaultInjectedField_to relationship :
  DocRelationship.to (defaultInjectedField relationship)
  = DocRelationship.to relationship.
Proof. unfold defaultInjectedField. now destruct (_ && _). Qed.





Lemma getValidation_fst env acc validation :
  fst (getValidation env acc validation)
  = obj_set acc (DocValidation.key validation)
      (JDLValidation.mk (DocValidation.key validation)
         (if DocValidation.constant validation
          then obj_get (Document.constants (Env.document env))
                       (property (DocValidation.value validation))
          else DocValidation.value validation)).
Proof.
  unfold getValidation. now destruct (DocValidation.constant validation).
Qed.

Lemma getValidations_later env after acc k :
  (forall v, In v after -> DocValidation.key v <> k) ->
  obj_get (fst (forEach_mut (getValidation env) acc after)) k = obj_get acc k.
Proof.
  revert acc. induction after as [|v r IH]; intros acc H; auto.
  rewrite forEach_mut_cons, getValidation_fst, IH.
  - apply obj_get_set_other. apply H. now left.
  - intros w Hw. apply H. now right.
Qed.





(** What the default of [fillAssociations] writes: the name of the from
    side with its first letter in lower case. *)
Lemma defaultInjectedField_from entities relationship :
  truthy (DocSide.injectedfield (DocRelationship.from relationship)) = false ->
  truthy (DocSide.injectedfield (DocRelationship.to relationship)) = false ->
  JDLRelationship.injectedFieldInFrom
    (newJDLRelationship entities (defaultInjectedField relationship))
  = Some (lowerFirst (DocSide.name (DocRelationship.from relationship)))
  /\ JDLRelationship.injectedFieldInTo
       (newJDLRelationship entities (defaultInjectedField relationship))
     = DocSide.injectedfield (DocRelationship.to relationship)
  /\ DocSide.injectedfield
       (DocRelationship.from (defaultInjectedField relationship))
     = Some (lowerFirst (DocSide.name (DocRelationship.from relationship))).
Proof.
  intros H1 H2. unfold newJDLRelationship, defaultInjectedField.
  rewrite H1, H2. simpl. auto.
Qed.

(** C10. The parser writes into the document it is given. After a call,
    the document that the module holds, which is the caller's, has the
    generator version, when one is given, under [jhipsterVersion] in the
    config of every application block, the name of the entity as table
    name of every declared entity that had none, and an injected field on
    the from side of every relationship that had none on either side. *)
Theorem C10_document_is_written previous configuration document :
  Configuration.document configuration = Some document ->
  exists env graph,
    parseFromConfigurationObject previous configuration
    = (Some env, inr graph)
    /\ Forall2
         (fun application written =>
            DocApplication.entities written
            = DocApplication.entities application
            /\ forall v,
                 Configuration.generatorVersion configuration = Some v ->
                 v <> "" ->
                 DocApplication.config written
                 = obj_set (DocApplication.config application)
                           "jhipsterVersion" v)
         (Document.applications document)
         (Document.applications (Env.document env))
    /\ Forall2
         (fun entity written =>
            DocEntity.name written = DocEntity.name entity
            /\ (truthy (DocEntity.tableName entity) = false ->
                DocEntity.tableName written = Some (DocEntity.name entity)))
         (Document.entities document)
         (Document.entities (Env.document env))
    /\ Forall2
         (fun relationship written =>
            truthy (DocSide.injectedfield (DocRelationship.from relationship))
            = false ->
            truthy (DocSide.injectedfield (DocRelationship.to relationship))
            = false ->
            exists v,
              DocSide.injectedfield (DocRelationship.from written) = Some v)
         (Document.relationships document)
         (Document.relationships (Env.document env)).
Proof.
  intros Hdoc.
  destruct (parse_spec previous configuration document Hdoc)
    as (env & options & H & _ & _ & _ & _ & _ & HD).
  exists env, (Env.jdlObject env). split; auto. rewrite HD.
  unfold Document.with_relationships, Document.with_entities,
    Document.with_applications.
  cbn [Document.applications Document.entities Document.relationships].
  split; [|split]; apply Forall2_map_right.
  - intros a _. split; [apply fillApplication_entities|].
    intros v Hv Hne. unfold fillApplication, init. simpl. rewrite Hv.
    destruct v; [contradiction|reflexivity].
  - intros e _. simpl. split; auto.
    unfold js_or. now destruct (DocEntity.tableName e) as [[|c r]|].
  - intros r _ H1 H2. eexists.
    apply (defaultInjectedField_from [] r H1 H2).
Qed.

(** ** The steps of the parser, in full *)

Lemma but_options_inputs s e :
  but_options s = but_options e ->
  Env.document s = Env.document e
  /\ Env.applicationType s = Env.applicationType e
  /\ Env.applicationName s = Env.applicationName e.
Proof.
  intros H. assert (I : inputs s = inputs e).
  { unfold but_options in H. congruence. }
  apply inputs_eq in I. tauto.
Qed.

Lemma addUnaryOption_exact name o s :
  but_options (addUnaryOption name o s) = but_options s
  /\ JDLObject.options (Env.jdlObject (addUnaryOption name o s))
     = (JDLObject.options (Env.jdlObject s) ++ unary_option name o)%list
  /\ Env.warnings (addUnaryOption name o s) = Env.warnings s.
Proof.
  unfold addUnaryOption, unary_option. destruct (negb _).
  - destruct s. repeat split.
  - rewrite app_nil_r. auto.
Qed.

Lemma fillUnaryOptions_exact s :
  but_options (fillUnaryOptions s) = but_options s
  /\ JDLObject.options (Env.jdlObject (fillUnaryOptions s))
     = (JDLObject.options (Env.jdlObject s)
        ++ document_unary_options (Env.document s))%list
  /\ Env.warnings (fillUnaryOptions s) = Env.warnings s.
Proof.
  unfold fillUnaryOptions, document_unary_options.
  repeat match goal with
         | |- context [addUnaryOption ?n ?o ?e] =>
             let A := fresh in let B := fresh in let C := fresh in
             destruct (addUnaryOption_exact n o e) as (A & B & C);
             rewrite ?A, ?B, ?C; clear A B C
         end.
  rewrite <- !app_assoc. auto.
Qed.

Lemma addBinaryOption_exact s name key :
  but_options (addBinaryOption s name key) = but_options s
  /\ JDLObject.options (Env.jdlObject (addBinaryOption s name key))
     = (JDLObject.options (Env.jdlObject s)
        ++ entry_option (Env.document s) name key)%list
  /\ Env.warnings (addBinaryOption s name key) = Env.warnings s.
Proof.
  unfold addBinaryOption, entry_option. destruct (obj_get _ key).
  - destruct s. repeat split.
  - rewrite app_nil_r. auto.
Qed.

Lemma fillBinaryOptions_keys env name keys s :
  but_options s = but_options env ->
  let s' :=
    fold_left
      (fun env key =>
         if option_eqb (Env.applicationType env) ApplicationTypes.MICROSERVICE
            && String.eqb name BinaryOptions.CLIENT_ROOT_FOLDER
         then Env.warn env clientRootFolder_warning
         else addBinaryOption env name key)
      keys s in
  but_options s' = but_options env
  /\ JDLObject.options (Env.jdlObject s')
     = (JDLObject.options (Env.jdlObject s)
        ++ if ignored (Env.applicationType env) name then []
           else flat_map (entry_option (Env.document env) name) keys)%list
  /\ Env.warnings s'
     = (Env.warnings s
        ++ if ignored (Env.applicationType env) name
           then map (fun _ => clientRootFolder_warning) keys
           else [])%list.
Proof.
  cbv zeta. revert s. induction keys as [|key r IH]; intros s Hs.
  - simpl. destruct (ignored _ name); rewrite !app_nil_r; auto.
  - cbn [fold_left].
    destruct (but_options_inputs _ _ Hs) as (Hd & Ht & _). rewrite Ht.
    fold (ignored (Env.applicationType env) name).
    destruct (ignored (Env.applicationType env) name) eqn:E.
    + destruct (IH (Env.warn s clientRootFolder_warning)) as (A & B & C).
      { rewrite <- Hs. now destruct s. }
      rewrite A, B, C. repeat split; destruct s; simpl;
        rewrite <- ?app_assoc; reflexivity.
    + destruct (addBinaryOption_exact s name key) as (A0 & B0 & C0).
      destruct (IH (addBinaryOption s name key)) as (A & B & C).
      { congruence. }
      rewrite A, B, C, B0, C0, Hd. repeat split.
      simpl. now rewrite <- app_assoc.
Qed.

Lemma fillBinaryOptions_exact env :
  but_options (fillBinaryOptions env) = but_options env
  /\ JDLObject.options (Env.jdlObject (fillBinaryOptions env))
     = (JDLObject.options (Env.jdlObject env)
        ++ document_binary_options (Env.applicationType env)
                                   (Env.document env))%list
  /\ Env.warnings (fillBinaryOptions env)
     = (Env.warnings env
        ++ document_warnings (Env.applicationType env)
                             (Env.document env))%list.
Proof.
  unfold fillBinaryOptions, document_binary_options, document_warnings.
  assert (G : forall names s,
    but_options s = but_options env ->
    let s' :=
      fold_left
        (fun env optionValue =>
           fold_left
             (fun env documentOptionKey =>
                if option_eqb (Env.applicationType env)
                              ApplicationTypes.MICROSERVICE
                   && String.eqb optionValue BinaryOptions.CLIENT_ROOT_FOLDER
                then Env.warn env clientRootFolder_warning
                else addBinaryOption env optionValue documentOptionKey)
             (obj_keys (Document.at_key (Env.document env) optionValue)) env)
        names s in
    but_options s' = but_options env
    /\ JDLObject.options (Env.jdlObject s')
       = (JDLObject.options (Env.jdlObject s)
          ++ flat_map
               (fun name =>
                  if ignored (Env.applicationType env) name then []
                  else flat_map (entry_option (Env.document env) name)
                         (obj_keys (Document.at_key (Env.document env) name)))
               names)%list
    /\ Env.warnings s'
       = (Env.warnings s
          ++ flat_map
               (fun name =>
                  if ignored (Env.applicationType env) name
                  then map (fun _ => clientRootFolder_warning)
                         (obj_keys (Document.at_key (Env.document env) name))
                  else [])
               names)%list).
  { induction names as [|name r IH]; intros s Hs; cbv zeta.
    - simpl. rewrite !app_nil_r. auto.
    - cbn [fold_left flat_map].
      destruct (but_options_inputs _ _ Hs) as (Hd & _). rewrite Hd.
      destruct (fillBinaryOptions_keys env name
                  (obj_keys (Document.at_key (Env.document env) name)) s Hs)
        as (A0 & B0 & C0).
      match goal with
      | |- context [fold_left _ r ?x] =>
          destruct (IH x A0) as (A & B & C)
      end.
      rewrite A, B, C, B0, C0, <- !app_assoc. auto. }
  apply (G Options env eq_refl).
Qed.

(** The options step in full: what it adds to the options and to the
    warnings, and that it touches nothing else. *)
Lemma fillOptions_exact env :
  but_options (fillOptions env) = but_options env
  /\ JDLObject.options (Env.jdlObject (fillOptions env))
     = (JDLObject.options (Env.jdlObject env)
        ++ document_unary_options (Env.document env)
        ++ document_binary_options (Env.applicationType env)
                                   (Env.document env)
        ++ global_option (Env.applicationType env) (Env.applicationName env)
                         (Env.document env))%list
  /\ Env.warnings (fillOptions env)
     = (Env.warnings env
        ++ document_warnings (Env.applicationType env)
                             (Env.document env))%list.
Proof.
  unfold fillOptions, global_option.
  destruct (fillUnaryOptions_exact env) as (A1 & B1 & C1).
  destruct (fillBinaryOptions_exact (fillUnaryOptions env)) as (A2 & B2 & C2).
  destruct (but_options_inputs _ _ A1) as (D1 & T1 & N1).
  rewrite D1, T1 in B2, C2. rewrite A1 in A2. rewrite B1 in B2.
  rewrite C1 in C2.
  set (s := fillBinaryOptions (fillUnaryOptions env)) in *.
  destruct (but_options_inputs _ _ A2) as (D2 & T2 & N2).
  rewrite D2, T2, N2.
  destruct (_ && _).
  - unfold globallyAddMicroserviceOption. split; [|split].
    + rewrite <- A2. now destruct s.
    + destruct s. simpl in *. rewrite B2, D2, <- !app_assoc. reflexivity.
    + destruct s. simpl in *. now subst.
  - rewrite !app_nil_r. rewrite <- app_assoc in B2. auto.
Qed.

Lemma forEach_mut_inv {A S : Type} (P : S -> Prop) (body : S -> A -> S * A) :
  (forall s a, P s -> P (fst (body s a))) ->
  forall l s, P s -> P (fst (forEach_mut body s l)).
Proof.
  intros H l. induction l as [|a r IH]; intros s Hs; auto.
  rewrite forEach_mut_cons. auto.
Qed.

Lemma fillApplicationsPerEntityName_index application l s name :
  NoDup l ->
  obj_get
    (Env.applicationsPerEntityName
       (fold_left
          (fun env entity =>
             let index := Env.applicationsPerEntityName env in
             let owners := match obj_get index entity with
                           | Some l => l
                           | None => []
                           end in
             Env.with_applicationsPerEntityName env
               (obj_set index entity (owners ++ [application])%list))
          l s))
    name
  = if includes l name
    then Some (match obj_get (Env.applicationsPerEntityName s) name with
               | Some l => l
               | None => []
               end ++ [application])%list
    else obj_get (Env.applicationsPerEntityName s) name.
Proof.
  intros Hl. revert s. induction Hl as [|x r Hx Hr IH]; intros s; auto.
  cbn [fold_left]. rewrite IH. cbv zeta.
  unfold includes. cbn [existsb]. fold (includes r name).
  destruct (String.eqb_spec name x) as [->|Hne].
  - apply includes_not_In in Hx. rewrite Hx. destruct s. simpl.
    apply obj_get_set_same.
  - simpl. destruct s. simpl. rewrite obj_get_set_other; auto.
Qed.

Lemma some_owners_app (l x : list JDLApplication.t) :
  x <> [] -> some_owners (l ++ x) = Some (match some_owners l with
                                          | Some l => l
                                          | None => []
                                          end ++ x)%list.
Proof.
  intros Hx. destruct l; simpl; auto. destruct x; simpl; congruence.
Qed.

Lemma forEach_mut_acc {A S : Type} (P : list A -> S -> Prop)
  (body : S -> A -> S * A) :
  (forall done s a, P done s -> P (done ++ [a])%list (fst (body s a))) ->
  forall l done s, P done s -> P (done ++ l)%list (fst (forEach_mut body s l)).
Proof.
  intros H l. induction l as [|a r IH]; intros done s Hs.
  - now rewrite app_nil_r.
  - rewrite forEach_mut_cons.
    replace (done ++ a :: r)%list with ((done ++ [a]) ++ r)%list
      by now rewrite <- app_assoc.
    apply IH. now apply H.
Qed.

Lemma fillApplication_eq s application :
  fst (fillApplication s application)
  = fillApplicationsPerEntityName
      (Env.with_jdlObject s
         (JDLObject.addApplication (Env.jdlObject s)
            (JDLApplication.new
               (DocApplication.config (snd (fillApplication s application)))
               (getApplicationEntities s application))))
      (JDLApplication.new
         (DocApplication.config (snd (fillApplication s application)))
         (getApplicationEntities s application)).
Proof.
  unfold fillApplication, getApplicationEntities. simpl.
  destruct (Env.generatorVersion s) as [[|c r]|]; reflexivity.
Qed.

(** One turn of the loop of [fillApplications] keeps the index true to
    the applications built so far. *)
Lemma fillApplication_index built s application :
  index_agrees built s ->
  index_agrees
    (built
     ++ [JDLApplication.new
           (DocApplication.config (snd (fillApplication s application)))
           (getApplicationEntities s application)])%list
    (fst (fillApplication s application)).
Proof.
  intros H name. rewrite fillApplication_eq.
  set (A := JDLApplication.new _ _).
  assert (HA : NoDup (JDLApplication.entities A)) by apply distinct_NoDup.
  clearbody A. unfold fillApplicationsPerEntityName.
  rewrite fillApplicationsPerEntityName_index by exact HA.
  destruct s as [d at_ an gv o apn w]. simpl in *.
  unfold index_agrees in H. simpl in H. rewrite H.
  unfold owners. rewrite filter_app. simpl.
  fold (owners name built).
  destruct (includes (JDLApplication.entities A) name).
  - rewrite some_owners_app; [reflexivity|discriminate].
  - now rewrite app_nil_r.
Qed.

Lemma fillApplications_index env :
  index_agrees [] env ->
  index_agrees
    (map (fun a => JDLApplication.new
                     (DocApplication.config (snd (fillApplication env a)))
                     (getApplicationEntities env a))
         (Document.applications (Env.document env)))
    (fillApplications env).
Proof.
  intros H. unfold fillApplications.
  set (f := fun a => JDLApplication.new
                       (DocApplication.config (snd (fillApplication env a)))
                       (getApplicationEntities env a)).
  pose proof (forEach_mut_acc
                (fun done s => inputs s = inputs env
                               /\ index_agrees (map f done) s)
                fillApplication) as G.
  specialize (G ltac:(intros done s a [Hi Hs]; split;
    [destruct (fillApplication_fst s a) as (_ & _ & K); congruence|];
    rewrite map_app; cbn [map]; unfold f;
    destruct (fillApplication_reads env s a Hi) as (<- & <-);
    now apply fillApplication_index)
    (Document.applications (Env.document env)) [] env (conj eq_refl H)).
  cbn [app] in G. destruct G as [_ G].
  destruct (forEach_mut fillApplication env _) as [s apps].
  simpl in G. intros name. specialize (G name). now destruct s.
Qed.

(** The steps after [fillApplications] leave the index alone. *)
Lemma fillEnums_index env :
  Env.applicationsPerEntityName (fillEnums env)
  = Env.applicationsPerEntityName env.
Proof.
  unfold fillEnums. apply (fold_left_keeps Env.applicationsPerEntityName).
  intros s a. now destruct s.
Qed.

Lemma fillClassesAndFields_index env :
  Env.applicationsPerEntityName (fillClassesAndFields env)
  = Env.applicationsPerEntityName env.
Proof.
  unfold fillClassesAndFields.
  pose proof (forEach_mut_keeps Env.applicationsPerEntityName
                fillClassAndItsFields ltac:(intros s a; now destruct s)
                (Document.entities (Env.document env)) env) as H.
  destruct (forEach_mut fillClassAndItsFields env _) as [s ents].
  simpl in H. unfold addUserEntityIfNeedBe, addUserEntity.
  destruct (_ && _); destruct s; exact H.
Qed.

Lemma fillAssociations_index env :
  Env.applicationsPerEntityName (fillAssociations env)
  = Env.applicationsPerEntityName env.
Proof.
  unfold fillAssociations.
  pose proof (forEach_mut_keeps Env.applicationsPerEntityName
                fillAssociation ltac:(intros s a; now destruct s)
                (Document.relationships (Env.document env)) env) as H.
  destruct (forEach_mut fillAssociation env _) as [s rels].
  simpl in H. destruct s; exact H.
Qed.

Lemma fold_addEnum (f : DocEnum.t -> JDLEnum.t) l o :
  fold_left (fun o a => JDLObject.addEnum o (f a)) l o
  = JDLObject.mk (JDLObject.applications o) (JDLObject.entities o)
      (fold_left (fun m a => obj_set m (JDLEnum.name (f a)) (f a)) l
                 (JDLObject.enums o))
      (JDLObject.relationships o) (JDLObject.options o).
Proof.
  revert o. induction l as [|a r IH]; intros o; simpl.
  - now destruct o.
  - now rewrite IH.
Qed.

Lemma fillEnums_enums env :
  JDLObject.enums (Env.jdlObject (fillEnums env))
  = fold_left (fun m a => obj_set m (DocEnum.name a) (newJDLEnum a))
              (Document.enums (Env.document env))
              (JDLObject.enums (Env.jdlObject env)).
Proof.
  unfold fillEnums.
  generalize (Document.enums (Env.document env)) as l.
  intros l. revert env. induction l as [|a r IH]; intros env; auto.
  cbn [fold_left]. rewrite IH. now destruct env.
Qed.

(** The rest of the result for a configuration that holds a document:
    the options, the warnings, the enums and the index. *)
Lemma parse_full previous configuration document :
  Configuration.document configuration = Some document ->
  exists env,
    parseFromConfigurationObject previous configuration
    = (Some env, inr (Env.jdlObject env))
    /\ JDLObject.options (Env.jdlObject env)
       = (document_unary_options document
          ++ document_binary_options
               (Configuration.applicationType configuration) document
          ++ global_option (Configuration.applicationType configuration)
               (Configuration.applicationName configuration) document)%list
    /\ Env.warnings env
       = document_warnings (Configuration.applicationType configuration)
                           document
    /\ JDLObject.enums (Env.jdlObject env)
       = fold_left (fun m a => obj_set m (DocEnum.name a) (newJDLEnum a))
                   (Document.enums document) []
    /\ index_agrees (assembled_applications configuration document) env.
Proof.
  intros Hdoc. unfold parseFromConfigurationObject. rewrite Hdoc.
  set (env0 := init configuration document).
  destruct (fillApplications_spec env0) as (A1 & A2 & A3 & A4 & A5 & A6).
  assert (AI : index_agrees (assembled_applications configuration document)
                            (fillApplications env0)).
  { apply (fillApplications_index env0). intros name. reflexivity. }
  set (env1 := fillApplications env0) in *.
  destruct (fillEnums_keeps env1) as (B0 & B1 & B2 & B3 & B4 & B5).
  apply inputs_eq in B0. destruct B0 as (BD & BT & BN & BG).
  pose proof (fillEnums_enums env1) as BE.
  pose proof (fillEnums_index env1) as BI.
  set (env2 := fillEnums env1) in *.
  destruct (fillClassesAndFields_spec env2) as (C1 & C2 & C3 & C4 & C5 & C6).
  pose proof (fillClassesAndFields_index env2) as CI.
  set (env3 := fillClassesAndFields env2) in *.
  destruct (fillAssociations_spec env3) as (D1 & D2 & D3 & D4 & D5 & D6).
  pose proof (fillAssociations_index env3) as DI.
  set (env4 := fillAssociations env3) in *.
  destruct (fillOptions_exact env4) as (E1 & E2 & E3).
  set (env5 := fillOptions env4) in *.
  exists env5. split; [reflexivity|].
  assert (HD : Env.document env4
               = Document.with_relationships
                   (Document.with_entities
                      (Document.with_applications document
                         (map (fun a => snd (fillApplication env0 a))
                              (Document.applications document)))
                      (map (fun a => snd (fillClassAndItsFields env2 a))
                           (Document.entities document)))
                   (map defaultInjectedField
                        (Document.relationships document))).
  { rewrite D2, C2, BD, A2. reflexivity. }
  assert (HT : Env.applicationType env4
               = Configuration.applicationType configuration).
  { rewrite D3, C3, BT, A3. reflexivity. }
  assert (HN : Env.applicationName env4
               = Configuration.applicationName configuration).
  { rewrite D4, C4, BN, A4. reflexivity. }
  assert (HO : JDLObject.options (Env.jdlObject env4) = []).
  { rewrite D1. cbn [JDLObject.options]. rewrite C1. cbn [JDLObject.options].
    rewrite B5, A1. reflexivity. }
  assert (HW : Env.warnings env4 = []).
  { rewrite D6, C6, B1, A6. reflexivity. }
  split; [|split; [|split]].
  - rewrite E2, HO, HT, HN, HD. cbn [app].
    unfold global_option, Document.with_relationships, Document.with_entities.
    cbn [Document.entities Document.microservice].
    rewrite written_entity_names. reflexivity.
  - rewrite E3, HW, HT, HD. reflexivity.
  - unfold but_options in E1.
    assert (E : JDLObject.enums (Env.jdlObject env5)
                = JDLObject.enums (Env.jdlObject env4)) by congruence.
    rewrite E, D1. cbn [JDLObject.enums]. rewrite C1. cbn [JDLObject.enums].
    rewrite BE, A1, A2. reflexivity.
  - intros name. unfold but_options in E1.
    assert (EI : Env.applicationsPerEntityName env5
                 = Env.applicationsPerEntityName env4) by congruence.
    rewrite EI, DI, CI, BI. apply AI.
Qed.

(** ** Further properties of the parser *)

Lemma forEach_mut_Forall2 {A S : Type} (R : A -> A -> Prop)
  (body : S -> A -> S * A) :
  (forall s a, R a (snd (body s a))) ->
  forall l s, Forall2 R l (snd (forEach_mut body s l)).
Proof.
  intros H l. induction l as [|a r IH]; intros s; simpl.
  - constructor.
  - specialize (H s a). destruct (body s a) as [s1 a'].
    specialize (IH s1). destruct (forEach_mut body s1 r) as [s2 r'].
    constructor; auto.
Qed.

Lemma filter_none {A : Type} (f : A -> bool) l :
  Forall (fun a => f a = false) l -> filter f l = [].
Proof.
  intros H. induction H as [|a r Ha Hr IH]; simpl; auto. now rewrite Ha.
Qed.

Lemma document_unary_options_unary d :
  Forall (fun o => isUnaryOption o = true) (document_unary_options d).
Proof.
  unfold document_unary_options, unary_option.
  repeat (apply Forall_app; split);
    match goal with
    | |- Forall _ (if ?b then _ else _) => destruct b
    end; repeat constructor.
Qed.

Lemma parse_result previous configuration env env' graph :
  parseFromConfigurationObject previous configuration = (Some env, inr graph) ->
  parseFromConfigurationObject previous configuration
  = (Some env', inr (Env.jdlObject env')) ->
  env' = env /\ graph = Env.jdlObject env.
Proof. intros H1 H2. rewrite H1 in H2. injection H2 as -> ->. auto. Qed.

(** X1. The unary options of the graph come first, in the order
    skipClient, skipServer, noFluentMethod, filter, one for each of the
    four keys of the document whose list is not empty, with the list and
    the excluded names of the document; no unary option of the graph has
    an empty list of entities. *)
Theorem X1_unary_options previous configuration document :
  Configuration.document configuration = Some document ->
  exists env graph rest,
    parseFromConfigurationObject previous configuration
    = (Some env, inr graph)
    /\ JDLObject.options graph
       = (document_unary_options document ++ rest)%list
    /\ Forall (fun o => isUnaryOption o = false) rest
    /\ filter isUnaryOption (JDLObject.options graph)
       = document_unary_options document
    /\ (forall name entityNames excludedNames,
          In (JDLUnaryOption name entityNames excludedNames)
             (JDLObject.options graph) ->
          entityNames <> []
          /\ In (name, OptionList.mk excludedNames entityNames)
                [(UnaryOptions.SKIP_CLIENT, Document.noClient document);
                 (UnaryOptions.SKIP_SERVER, Document.noServer document);
                 (UnaryOptions.NO_FLUENT_METHOD,
                  Document.noFluentMethod document);
                 (UnaryOptions.FILTER, Document.filter document)]).
Proof.
  intros Hdoc.
  destruct (parse_full previous configuration document Hdoc)
    as (env & H & HO & _).
  assert (HB : Forall (fun o => isUnaryOption o = false)
                 (document_binary_options
                    (Configuration.applicationType configuration) document
                  ++ global_option
                       (Configuration.applicationType configuration)
                       (Configuration.applicationName configuration)
                       document)).
  { apply Forall_app. split.
    - unfold document_binary_options. apply Forall_forall. intros o Ho.
      apply in_flat_map in Ho. destruct Ho as (name & _ & Ho).
      destruct (ignored _ name); [destruct Ho|].
      apply in_flat_map in Ho. destruct Ho as (key & _ & Ho).
      unfold entry_option in Ho. destruct (obj_get _ key); [|destruct Ho].
      destruct Ho as [<-|[]]. reflexivity.
    - unfold global_option. destruct (_ && _); repeat constructor. }
  assert (HU : forall o, In o (document_unary_options document) ->
             isUnaryOption o = true
             /\ forall name entityNames excludedNames,
                  o = JDLUnaryOption name entityNames excludedNames ->
                  entityNames <> []
                  /\ In (name, OptionList.mk excludedNames entityNames)
                        [(UnaryOptions.SKIP_CLIENT, Document.noClient document);
                         (UnaryOptions.SKIP_SERVER, Document.noServer document);
                         (UnaryOptions.NO_FLUENT_METHOD,
                          Document.noFluentMethod document);
                         (UnaryOptions.FILTER, Document.filter document)]).
  { intros o Ho. unfold document_unary_options in Ho.
    repeat (apply in_app_or in Ho; destruct Ho as [Ho|Ho]);
      unfold unary_option in Ho;
      match type of Ho with
      | In _ (if negb (Nat.eqb (List.length (OptionList.list ?x)) 0)
              then _ else _) =>
          destruct x as [ex li]; destruct li as [|e0 l0];
          simpl in Ho; [destruct Ho|destruct Ho as [<-|[]]]
      end;
      (split; [reflexivity|]);
      intros name entityNames excludedNames E; injection E as <- <- <-;
      (split; [discriminate|]); simpl; auto. }
  exists env, (Env.jdlObject env). eexists. split; [exact H|].
  split; [exact HO|]. split; [exact HB|]. split.
  - rewrite HO, filter_app.
    rewrite (forallb_filter_id isUnaryOption (document_unary_options document)).
    + rewrite (filter_none isUnaryOption _ HB). apply app_nil_r.
    + apply forallb_forall. intros o Ho. apply HU. exact Ho.
  - intros name entityNames excludedNames Hin. rewrite HO in Hin.
    apply in_app_or in Hin. destruct Hin as [Hin|Hin].
    + apply (HU _ Hin). reflexivity.
    + rewrite Forall_forall in HB. specialize (HB _ Hin). discriminate.
Qed.

Lemma document_warnings_length applicationType d :
  List.length (document_warnings applicationType d)
  = if option_eqb applicationType ApplicationTypes.MICROSERVICE
    then count_occ string_dec Options BinaryOptions.CLIENT_ROOT_FOLDER
         * List.length (obj_keys (Document.at_key d
                                    BinaryOptions.CLIENT_ROOT_FOLDER))
    else 0.
Proof.
  unfold document_warnings, ignored.
  induction Options as [|name r IH]; simpl.
  - now destruct (option_eqb _ _).
  - rewrite length_app, IH.
    destruct (option_eqb applicationType ApplicationTypes.MICROSERVICE);
      simpl; auto.
    destruct (string_dec name BinaryOptions.CLIENT_ROOT_FOLDER) as [->|Hne].
    + rewrite String.eqb_refl, length_map. simpl. reflexivity.
    + apply String.eqb_neq in Hne. rewrite Hne. reflexivity.
Qed.

(** X2. For the application type "microservice" the graph holds no
    binary option clientRootFolder, whatever the document says, and the
    parser warns once for every entry of the document under
    clientRootFolder (and every time the table of binary options names
    it), always with the same message. For any other application type it
    warns of nothing. *)
Theorem X2_clientRootFolder_ignored previous configuration document :
  Configuration.document configuration = Some document ->
  exists env graph,
    parseFromConfigurationObject previous configuration
    = (Some env, inr graph)
    /\ Forall (fun w => w = clientRootFolder_warning) (Env.warnings env)
    /\ (Configuration.applicationType configuration
        = Some ApplicationTypes.MICROSERVICE ->
        filter (isBinaryOption BinaryOptions.CLIENT_ROOT_FOLDER)
               (JDLObject.options graph) = []
        /\ List.length (Env.warnings env)
           = count_occ string_dec Options BinaryOptions.CLIENT_ROOT_FOLDER
             * List.length
                 (obj_keys (Document.at_key document
                              BinaryOptions.CLIENT_ROOT_FOLDER)))
    /\ (Configuration.applicationType configuration
        <> Some ApplicationTypes.MICROSERVICE ->
        Env.warnings env = []).
Proof.
  intros Hdoc.
  destruct (parse_full previous configuration document Hdoc)
    as (env & H & HO & HW & _).
  exists env, (Env.jdlObject env). split; [exact H|]. split; [|split].
  - rewrite HW. unfold document_warnings. apply Forall_forall. intros w Hw.
    apply in_flat_map in Hw. destruct Hw as (name & _ & Hw).
    destruct (ignored _ name); [|destruct Hw].
    apply in_map_iff in Hw. destruct Hw as (k & <- & _). reflexivity.
  - intros Ht. split.
    + rewrite HO. apply filter_none. rewrite !Forall_app. repeat split.
      * eapply Forall_impl; [|apply document_unary_options_unary].
        intros o Ho. now destruct o.
      * unfold document_binary_options. apply Forall_forall. intros o Ho.
        apply in_flat_map in Ho. destruct Ho as (name & _ & Ho).
        destruct (ignored _ name) eqn:E; [destruct Ho|].
        apply in_flat_map in Ho. destruct Ho as (key & _ & Ho).
        unfold entry_option in Ho. destruct (obj_get _ key); [|destruct Ho].
        destruct Ho as [<-|[]]. simpl. unfold ignored in E.
        rewrite Ht in E. simpl in E. exact E.
      * unfold global_option. destruct (_ && _); repeat constructor.
    + rewrite HW, document_warnings_length, Ht. reflexivity.
  - intros Hn. apply length_zero_iff_nil.
    rewrite HW, document_warnings_length.
    destruct (option_eqb _ _) eqn:E; auto.
    apply option_eqb_eq in E. contradiction.
Qed.

(** X3. Every entry of the document under the name of a binary option of
    the table becomes a binary option of the graph, with the name of the
    option, the key of the entry as value, and the list and the excluded
    names of the entry; the entries under clientRootFolder are the
    exception when the application type is "microservice". *)
Theorem X3_binary_options_of_document previous configuration document
  name key entry :
  Configuration.document configuration = Some document ->
  In name Options ->
  obj_get (Document.at_key document name) key = Some entry ->
  ~ (Configuration.applicationType configuration
     = Some ApplicationTypes.MICROSERVICE
     /\ name = BinaryOptions.CLIENT_ROOT_FOLDER) ->
  exists env graph,
    parseFromConfigurationObject previous configuration
    = (Some env, inr graph)
    /\ In (JDLBinaryOption name (Some key) (OptionList.list entry)
                           (OptionList.excluded entry))
          (JDLObject.options graph).
Proof.
  intros Hdoc Hname Hkey Hnot.
  destruct (parse_full previous configuration document Hdoc)
    as (env & H & HO & _).
  exists env, (Env.jdlObject env). split; [exact H|]. rewrite HO.
  apply in_or_app. right. apply in_or_app. left.
  unfold document_binary_options. apply in_flat_map. exists name.
  split; auto.
  destruct (ignored _ name) eqn:E.
  - exfalso. apply Hnot. unfold ignored in E. apply andb_true_iff in E.
    destruct E as [E1 E2]. apply option_eqb_eq in E1.
    apply String.eqb_eq in E2. auto.
  - apply in_flat_map. exists key. split.
    + eapply obj_get_Some_keys. exact Hkey.
    + unfold entry_option. rewrite Hkey. now left.
Qed.

(** X4. The enums of the graph are the enums of the document by name:
    under the name of a declared enum the graph holds the name, the
    values and the formatted comment of the last enum declared with that
    name, and it holds nothing under any other name. *)
Theorem X4_enums previous configuration document :
  Configuration.document configuration = Some document ->
  exists env graph,
    parseFromConfigurationObject previous configuration
    = (Some env, inr graph)
    /\ (forall k, In k (obj_keys (JDLObject.enums graph))
                  <-> In k (map DocEnum.name (Document.enums document)))
    /\ (forall before enumObj after,
          Document.enums document = (before ++ enumObj :: after)%list ->
          (forall later, In later after ->
                         DocEnum.name later <> DocEnum.name enumObj) ->
          obj_get (JDLObject.enums graph) (DocEnum.name enumObj)
          = Some (JDLEnum.mk (DocEnum.name enumObj) (DocEnum.values enumObj)
                             (formatComment (DocEnum.javadoc enumObj))))
    /\ (forall k E, obj_get (JDLObject.enums graph) k = Some E ->
          exists enumObj,
            In enumObj (Document.enums document)
            /\ DocEnum.name enumObj = k
            /\ E = JDLEnum.mk k (DocEnum.values enumObj)
                              (formatComment (DocEnum.javadoc enumObj))).
Proof.
  intros Hdoc.
  destruct (parse_full previous configuration document Hdoc)
    as (env & H & _ & _ & HE & _).
  exists env, (Env.jdlObject env). split; [exact H|]. rewrite HE.
  split; [|split].
  - intros k. rewrite fold_obj_set_keys. simpl. tauto.
  - intros before e after Hl Hlast. rewrite Hl.
    apply (fold_obj_set_last DocEnum.name newJDLEnum). exact Hlast.
  - intros k E Hk. apply fold_obj_set_get in Hk.
    destruct Hk as [Hk|(e & He & <- & ->)]; [discriminate|].
    exists e. auto.
Qed.

(** X5. The graph holds one relationship for each relationship of the
    document, in the order of the document. Its endpoints are what the
    graph holds under the names of the two sides, its type is the
    cardinality in upper camel case, and the required flags, the
    comments and the injected field of the to side are those of the
    document; when a side of the document names an injected field, the
    injected field of the from side is the one of the document as
    well, so nothing is defaulted. *)
Theorem X5_relationships previous configuration document :
  Configuration.document configuration = Some document ->
  exists env graph,
    parseFromConfigurationObject previous configuration
    = (Some env, inr graph)
    /\ Forall2
         (fun r R =>
            let from := DocRelationship.from r in
            let to := DocRelationship.to r in
            JDLRelationship.from R
            = obj_get (JDLObject.entities graph) (DocSide.name from)
            /\ JDLRelationship.to R
               = obj_get (JDLObject.entities graph) (DocSide.name to)
            /\ JDLRelationship.type R
               = upperFirst (camelCase (DocRelationship.cardinality r))
            /\ JDLRelationship.isInjectedFieldInFromRequired R
               = DocSide.required from
            /\ JDLRelationship.isInjectedFieldInToRequired R
               = DocSide.required to
            /\ JDLRelationship.commentInFrom R
               = formatComment (DocSide.javadoc from)
            /\ JDLRelationship.commentInTo R
               = formatComment (DocSide.javadoc to)
            /\ JDLRelationship.injectedFieldInTo R = DocSide.injectedfield to
            /\ (truthy (DocSide.injectedfield from) = true
                \/ truthy (DocSide.injectedfield to) = true ->
                JDLRelationship.injectedFieldInFrom R
                = DocSide.injectedfield from))
         (Document.relationships document)
         (JDLObject.relationships graph).
Proof.
  intros Hdoc.
  destruct (parse_spec previous configuration document Hdoc)
    as (env & options & H & _ & HE & HR & _).
  exists env, (Env.jdlObject env). split; [exact H|]. rewrite HR, HE.
  apply Forall2_map_right. intros r _. cbv zeta.
  unfold newJDLRelationship, defaultInjectedField.
  destruct (negb (truthy (DocSide.injectedfield (DocRelationship.from r)))
            && negb (truthy (DocSide.injectedfield (DocRelationship.to r))))
    eqn:E; cbn; repeat split; auto.
  intros [T|T]; rewrite T in E; simpl in E;
    [discriminate|rewrite andb_false_r in E; discriminate].
Qed.

(** X6. When no relationship of the document goes to an entity named
    "User" in any case, or when an entity named "User" is declared, no
    entity is made up: the names of the entities of the graph are the
    declared names, and what the graph holds under "User" is installed
    for a declaration. *)
Theorem X6_no_user_entity_unless_needed previous configuration document :
  Configuration.document configuration = Some document ->
  (forall r, In r (Document.relationships document) ->
             toLowerCase (DocSide.name (DocRelationship.to r))
             <> toLowerCase "User")
  \/ (exists e, In e (Document.entities document)
                /\ DocEntity.name e = "User") ->
  exists env graph,
    parseFromConfigurationObject previous configuration
    = (Some env, inr graph)
    /\ (forall k, In k (obj_keys (JDLObject.entities graph))
                  <-> In k (map DocEntity.name (Document.entities document)))
    /\ (forall E, obj_get (JDLObject.entities graph) "User" = Some E ->
          exists declared,
            In declared (Document.entities document)
            /\ DocEntity.name declared = "User"
            /\ E = newJDLEntity (init configuration document) declared).
Proof.
  intros Hdoc Hcase.
  destruct (parse_spec previous configuration document Hdoc)
    as (env & options & H & _ & HE & _).
  exists env, (Env.jdlObject env). split; [exact H|]. rewrite HE.
  unfold graph_entities.
  set (declared :=
         fold_left
           (fun m a => obj_set m (DocEntity.name a)
                         (newJDLEntity (init configuration document) a))
           (Document.entities document) []).
  assert (Hkeys : forall k, In k (obj_keys declared)
            <-> In k (map DocEntity.name (Document.entities document))).
  { intros k. unfold declared. rewrite fold_obj_set_keys. simpl. tauto. }
  assert (Hif : negb (Nat.eqb (List.length
                         (filter to_user (Document.relationships document))) 0)
                && negb (obj_has declared USER) = false).
  { destruct Hcase as [Hnone|(e & He & Hn)].
    - replace (filter to_user (Document.relationships document))
        with (@nil DocRelationship.t); auto.
      symmetry. apply filter_none. apply Forall_forall. intros r Hr.
      unfold to_user. apply String.eqb_neq. now apply Hnone.
    - apply andb_false_iff. right. apply negb_false_iff. unfold obj_has.
      destruct (obj_get declared USER) eqn:G; auto.
      apply obj_get_keys in G. exfalso. apply G. apply Hkeys.
      apply in_map_iff. exists e. auto. }
  rewrite Hif. split; [exact Hkeys|].
  intros E HU. unfold declared in HU. apply fold_obj_set_get in HU.
  destruct HU as [HU|(e & He & Hn & ->)]; [discriminate|]. exists e. auto.
Qed.


(** X8. Under the name of a declared entity the graph holds the entity
    installed for the last declaration with that name: its table name is
    the declared one, or the name of the entity when none is declared or
    the declared one is empty, its comment is the formatted comment of
    the declaration and its fields are those of its body. The entity
    made up for User never stands in for a declared one. *)
Theorem X8_entity_by_name previous configuration document
  before entity after :
  Configuration.document configuration = Some document ->
  Document.entities document = (before ++ entity :: after)%list ->
  (forall later, In later after ->
                 DocEntity.name later <> DocEntity.name entity) ->
  exists env graph E,
    parseFromConfigurationObject previous configuration
    = (Some env, inr graph)
    /\ obj_get (JDLObject.entities graph) (DocEntity.name entity) = Some E
    /\ JDLEntity.name E = DocEntity.name entity
    /\ (forall t, DocEntity.tableName entity = Some t -> t <> "" ->
                  JDLEntity.tableName E = t)
    /\ (truthy (DocEntity.tableName entity) = false ->
        JDLEntity.tableName E = DocEntity.name entity)
    /\ JDLEntity.comment E = formatComment (DocEntity.javadoc entity)
    /\ JDLEntity.fields E
       = fst (getFields (init configuration document) entity).
Proof.
  intros Hdoc Hl Hlast.
  destruct (parse_spec previous configuration document Hdoc)
    as (env & options & H & _ & HE & _).
  exists env, (Env.jdlObject env),
    (newJDLEntity (init configuration document) entity).
  split; [exact H|]. split.
  - rewrite HE. unfold graph_entities.
    set (declared :=
           fold_left
             (fun m a => obj_set m (DocEntity.name a)
                           (newJDLEntity (init configuration document) a))
             (Document.entities document) []).
    assert (G : obj_get declared (DocEntity.name entity)
                = Some (newJDLEntity (init configuration document) entity)).
    { unfold declared. rewrite Hl.
      apply (fold_obj_set_last DocEntity.name
               (newJDLEntity (init configuration document))).
      exact Hlast. }
    destruct (negb _ && negb (obj_has declared USER)) eqn:E; auto.
    rewrite obj_get_set_other; auto.
    intros Hn. apply andb_true_iff in E. destruct E as [_ E].
    unfold obj_has in E. rewrite Hn, G in E. discriminate.
  - unfold newJDLEntity. cbn. repeat split; auto.
    + intros t -> Ht. destruct t; [contradiction|reflexivity].
    + unfold js_or. now destruct (DocEntity.tableName entity) as [[|c r]|].
Qed.

Lemma getValidations_written env field :
  Forall2
    (fun v w =>
       DocValidation.key w = DocValidation.key v
       /\ DocValidation.constant w = DocValidation.constant v
       /\ (DocValidation.constant v = false -> w = v)
       /\ (DocValidation.constant v = true ->
           DocValidation.value w
           = obj_get (Document.constants (Env.document env))
                     (property (DocValidation.value v))))
    (DocField.validations field) (snd (getValidations env field)).
Proof.
  unfold getValidations. apply forEach_mut_Forall2. intros m v.
  unfold getValidation. destruct (DocValidation.constant v) eqn:E; cbn [snd].
  - cbn. repeat split; auto. discriminate.
  - repeat split; auto. discriminate.
Qed.

Lemma getFields_written env entity :
  Forall2
    (fun f w =>
       DocField.name w = DocField.name f
       /\ DocField.type w = DocField.type f
       /\ DocField.javadoc w = DocField.javadoc f
       /\ Forall2
            (fun v w =>
               DocValidation.key w = DocValidation.key v
               /\ DocValidation.constant w = DocValidation.constant v
               /\ (DocValidation.constant v = false -> w = v))
            (DocField.validations f) (DocField.validations w))
    (DocEntity.body entity) (snd (getFields env entity)).
Proof.
  unfold getFields. apply forEach_mut_Forall2. intros m f.
  assert (R : Forall2
                (fun v w =>
                   DocValidation.key w = DocValidation.key v
                   /\ DocValidation.constant w = DocValidation.constant v
                   /\ (DocValidation.constant v = false -> w = v))
                (DocField.validations f) (DocField.validations f)).
  { induction (DocField.validations f); constructor; auto. }
  unfold getField. destruct (String.eqb _ "id"); cbn [snd].
  - repeat split; auto.
  - pose proof (getValidations_written env f) as W.
    destruct (getValidations env f) as [vs written]. cbn in *.
    repeat split; auto.
    eapply Forall2_impl; [|exact W]. cbv beta. tauto.
Qed.

(** X9. What the parser leaves of the document as it found it: the
    enums, the constants and all the options; of every entity the name,
    the comment and, field by field, the name, the type, the comment and
    every validation that is not flagged as a constant; of every
    relationship the cardinality, the to side and, but for the injected
    field, the from side; and the application blocks when no generator
    version is given. *)
Theorem X9_document_kept previous configuration document :
  Configuration.document configuration = Some document ->
  exists env graph,
    parseFromConfigurationObject previous configuration
    = (Some env, inr graph)
    /\ Document.enums (Env.document env) = Document.enums document
    /\ Document.constants (Env.document env) = Document.constants document
    /\ Document.noClient (Env.document env) = Document.noClient document
    /\ Document.noServer (Env.document env) = Document.noServer document
    /\ Document.noFluentMethod (Env.document env)
       = Document.noFluentMethod document
    /\ Document.filter (Env.document env) = Document.filter document
    /\ Document.microservice (Env.document env)
       = Document.microservice document
    /\ Document.binaryOptions (Env.document env)
       = Document.binaryOptions document
    /\ (truthy (Configuration.generatorVersion configuration) = false ->
        Document.applications (Env.document env)
        = Document.applications document)
    /\ Forall2
         (fun e w =>
            DocEntity.name w = DocEntity.name e
            /\ DocEntity.javadoc w = DocEntity.javadoc e
            /\ Forall2
                 (fun f w =>
                    DocField.name w = DocField.name f
                    /\ DocField.type w = DocField.type f
                    /\ DocField.javadoc w = DocField.javadoc f
                    /\ Forall2
                         (fun v w =>
                            DocValidation.key w = DocValidation.key v
                            /\ DocValidation.constant w
                               = DocValidation.constant v
                            /\ (DocValidation.constant v = false -> w = v))
                         (DocField.validations f) (DocField.validations w))
                 (DocEntity.body e) (DocEntity.body w))
         (Document.entities document) (Document.entities (Env.document env))
    /\ Forall2
         (fun r w =>
            DocRelationship.cardinality w = DocRelationship.cardinality r
            /\ DocRelationship.to w = DocRelationship.to r
            /\ DocSide.name (DocRelationship.from w)
               = DocSide.name (DocRelationship.from r)
            /\ DocSide.required (DocRelationship.from w)
               = DocSide.required (DocRelationship.from r)
            /\ DocSide.javadoc (DocRelationship.from w)
               = DocSide.javadoc (DocRelationship.from r)
            /\ (truthy (DocSide.injectedfield (DocRelationship.from r)) = true
                \/ truthy (DocSide.injectedfield (DocRelationship.to r)) = true
                -> w = r))
         (Document.relationships document)
         (Document.relationships (Env.document env)).
Proof.
  intros Hdoc.
  destruct (parse_spec previous configuration document Hdoc)
    as (env & options & H & _ & _ & _ & _ & _ & HD).
  exists env, (Env.jdlObject env). split; [exact H|]. rewrite HD.
  unfold Document.with_relationships, Document.with_entities,
    Document.with_applications.
  cbn [Document.applications Document.entities Document.relationships
       Document.enums Document.constants Document.noClient Document.noServer
       Document.noFluentMethod Document.filter Document.microservice
       Document.binaryOptions].
  repeat (split; [reflexivity|]). split; [|split].
  - intros Hg. rewrite <- (map_id (Document.applications document)) at 2.
    apply map_ext. intros a. unfold fillApplication, init. cbn.
    destruct (Configuration.generatorVersion configuration) as [[|c r]|];
      try reflexivity. discriminate.
  - apply Forall2_map_right. intros e _.
    unfold fillClassAndItsFields. cbn [snd DocEntity.name DocEntity.javadoc
                                       DocEntity.body].
    repeat split; auto. apply getFields_written.
  - apply Forall2_map_right. intros r _. unfold defaultInjectedField.
    destruct (negb (truthy (DocSide.injectedfield (DocRelationship.from r)))
              && negb (truthy (DocSide.injectedfield (DocRelationship.to r))))
      eqn:E; cbn; repeat split; auto.
    intros [T|T]; rewrite T in E; simpl in E;
      [discriminate|rewrite andb_false_r in E; discriminate].
Qed.

(** ** A second call on the same document *)

Lemma obj_set_twice {V : Type} (m : ObjMap V) k v :
  obj_set (obj_set m k v) k v = obj_set m k v.
Proof.
  induction m as [|[k0 v0] r IH]; simpl.
  - now rewrite String.eqb_refl.
  - destruct (String.eqb k0 k) eqn:E; simpl; rewrite E; auto.
    now rewrite IH.
Qed.

Lemma js_or_twice t n : js_or (Some (js_or t n)) n = js_or t n.
Proof.
  unfold js_or.
  destruct t as [[|c r]|]; auto; destruct n; reflexivity.
Qed.

Lemma forEach_mut_same {A S : Type} (body : S -> A -> S * A) l :
  (forall s a, In a l -> snd (body s a) = a) ->
  forall s, snd (forEach_mut body s l) = l.
Proof.
  induction l as [|a r IH]; intros H s; simpl; auto.
  pose proof (H s a (or_introl eq_refl)) as Ha.
  destruct (body s a) as [s1 a']. simpl in Ha. subst a'.
  specialize (IH (fun s b Hb => H s b (or_intror Hb)) s1).
  destruct (forEach_mut body s1 r) as [s2 r']. simpl in *. now subst.
Qed.

Lemma fold_left_of_map {A B S : Type} (f : S -> B -> S) (g : A -> B) l s :
  fold_left f (map g l) s = fold_left (fun s a => f s (g a)) l s.
Proof.
  revert s. induction l as [|a r IH]; intros s; simpl; auto.
Qed.

Lemma defaultInjectedField_twice r :
  defaultInjectedField (defaultInjectedField r) = defaultInjectedField r.
Proof.
  unfold defaultInjectedField.
  destruct (negb (truthy (DocSide.injectedfield (DocRelationship.from r)))
            && negb (truthy (DocSide.injectedfield (DocRelationship.to r))))
    eqn:E.
  - cbn. apply andb_true_iff in E. destruct E as [_ E]. rewrite E.
    destruct (lowerFirst (DocSide.name (DocRelationship.from r)));
      reflexivity.
  - rewrite E. reflexivity.
Qed.

Lemma fillApplication_twice e e' a :
  Env.generatorVersion e' = Env.generatorVersion e ->
  snd (fillApplication e' (snd (fillApplication e a)))
  = snd (fillApplication e a).
Proof.
  intros Hg. unfold fillApplication. cbn [snd]. rewrite Hg.
  destruct (Env.generatorVersion e) as [[|c r]|]; auto.
  cbn. now rewrite obj_set_twice.
Qed.

(** With no validation flagged as a constant, [getFields] writes
    nothing. *)
Lemma getFields_same env entity :
  (forall f v, In f (DocEntity.body entity) ->
               In v (DocField.validations f) ->
               DocValidation.constant v = false) ->
  snd (getFields env entity) = DocEntity.body entity.
Proof.
  intros H. unfold getFields. apply forEach_mut_same. intros m f Hf.
  unfold getField. destruct (String.eqb _ "id"); auto.
  assert (G : snd (getValidations env f) = DocField.validations f).
  { unfold getValidations. apply forEach_mut_same. intros m' v Hv.
    unfold getValidation. now rewrite (H f v Hf Hv). }
  destruct (getValidations env f) as [vs written]. cbn in *. subst.
  now destruct f.
Qed.

Lemma getFields_body e s entity entity' :
  Document.constants (Env.document s) = Document.constants (Env.document e) ->
  DocEntity.body entity' = DocEntity.body entity ->
  getFields s entity' = getFields e entity.
Proof.
  intros Hc Hb. rewrite (getFields_reads e s entity' Hc).
  unfold getFields. now rewrite Hb.
Qed.

Lemma JDLObject_eq (a b : JDLObject.t) :
  JDLObject.applications a = JDLObject.applications b ->
  JDLObject.entities a = JDLObject.entities b ->
  JDLObject.enums a = JDLObject.enums b ->
  JDLObject.relationships a = JDLObject.relationships b ->
  JDLObject.options a = JDLObject.options b ->
  a = b.
Proof. destruct a, b. simpl. now intros -> -> -> -> ->. Qed.

(** X10. A second call with the same configuration object, whose
    document is now the one the first call left, returns the same graph,
    warns of the same and writes nothing more into the document, provided
    no validation of the document is flagged as a constant. *)
Theorem X10_second_call previous configuration document :
  Configuration.document configuration = Some document ->
  no_constant document ->
  exists env graph env',
    parseFromConfigurationObject previous configuration
    = (Some env, inr graph)
    /\ parseFromConfigurationObject (Some env)
         (configuration_after configuration env)
       = (Some env', inr graph)
    /\ Env.document env' = Env.document env
    /\ Env.warnings env' = Env.warnings env.
Proof.
  intros Hdoc Hnc.
  destruct (parse_spec previous configuration document Hdoc)
    as (env & options & H & HA & HE & HR & _ & _ & HD).
  destruct (parse_full previous configuration document Hdoc)
    as (env1 & H1 & HO & HW & HN & _).
  destruct (parse_result _ _ _ _ _ H H1) as [-> _]. clear H1.
  set (env0 := init configuration document) in *.
  set (cfg' := configuration_after configuration env).
  assert (Hdoc' : Configuration.document cfg' = Some (Env.document env))
    by reflexivity.
  destruct (parse_spec (Some env) cfg' (Env.document env) Hdoc')
    as (env' & options' & H' & HA' & HE' & HR' & _ & _ & HD').
  destruct (parse_full (Some env) cfg' (Env.document env) Hdoc')
    as (env2 & H2 & HO' & HW' & HN' & _).
  destruct (parse_result _ _ _ _ _ H' H2) as [-> _]. clear H2.
  set (env0' := init cfg' (Env.document env)) in *.
  (* the document after the first call *)
  set (wa := fun a => snd (fillApplication env0 a)) in *.
  set (we := fun a => snd (fillClassAndItsFields env0 a)) in *.
  assert (Hwe : forall e, In e (Document.entities document) ->
            we e = DocEntity.mk (DocEntity.name e)
                     (Some (js_or (DocEntity.tableName e) (DocEntity.name e)))
                     (DocEntity.javadoc e) (DocEntity.body e)).
  { intros e He. unfold we, fillClassAndItsFields. cbn [snd].
    rewrite getFields_same; auto. intros f v. now apply Hnc. }
  assert (Hc : Document.constants (Env.document env0')
               = Document.constants (Env.document env0)).
  { unfold env0', env0, init. cbn [Env.document]. now rewrite HD. }
  assert (Hg : Env.generatorVersion env0' = Env.generatorVersion env0)
    by reflexivity.
  assert (Hent : forall e, In e (Document.entities document) ->
            newJDLEntity env0' (we e) = newJDLEntity env0 e
            /\ snd (fillClassAndItsFields env0' (we e)) = we e).
  { intros e He. rewrite (Hwe e He).
    unfold newJDLEntity, fillClassAndItsFields. cbn [snd DocEntity.name
      DocEntity.tableName DocEntity.javadoc].
    rewrite js_or_twice.
    rewrite (getFields_body env0 env0' e) by (auto; reflexivity).
    split; [reflexivity|].
    rewrite getFields_same; [reflexivity|]. intros f v. now apply Hnc. }
  assert (Happ : forall a,
            JDLApplication.new
              (DocApplication.config (snd (fillApplication env0' (wa a))))
              (getApplicationEntities env0' (wa a))
            = JDLApplication.new
                (DocApplication.config (snd (fillApplication env0 a)))
                (getApplicationEntities env0 a)).
  { intros a. unfold wa. rewrite (fillApplication_twice env0 env0' a Hg).
    f_equal. unfold getApplicationEntities.
    rewrite fillApplication_entities.
    replace (map DocEntity.name (Document.entities (Env.document env0')))
      with (map DocEntity.name (Document.entities (Env.document env0)));
      auto.
    unfold env0', env0, init. cbn [Env.document]. rewrite HD.
    unfold Document.with_relationships, Document.with_entities.
    cbn [Document.entities]. symmetry. apply written_entity_names. }
  assert (HE2 : graph_entities cfg' (Env.document env)
                = graph_entities configuration document).
  { unfold graph_entities. fold env0 env0'. rewrite HD.
    unfold Document.with_relationships, Document.with_entities.
    cbn [Document.entities Document.relationships]. fold we.
    rewrite fold_left_of_map, filter_map_swap, length_map.
    rewrite (filter_ext _ to_user)
      by (intros r; unfold to_user; now rewrite defaultInjectedField_to).
    assert (F : forall l m,
              (forall e, In e l -> In e (Document.entities document)) ->
              fold_left
                (fun s a => obj_set s (DocEntity.name (we a))
                              (newJDLEntity env0' (we a))) l m
              = fold_left
                  (fun m a => obj_set m (DocEntity.name a)
                                (newJDLEntity env0 a)) l m).
    { induction l as [|e r IH]; intros m Hin; auto. cbn [fold_left].
      destruct (Hent e (Hin e (or_introl eq_refl))) as (-> & _).
      rewrite (Hwe e (Hin e (or_introl eq_refl))). cbn [DocEntity.name].
      apply IH. intros x Hx. apply Hin. now right. }
    rewrite F by auto. reflexivity. }
  exists env, (Env.jdlObject env), env'. split; [exact H|]. fold cfg'.
  split; [|split].
  - rewrite H'. f_equal. f_equal. apply JDLObject_eq.
    + rewrite HA', HA. f_equal. unfold assembled_applications.
      fold env0 env0'. rewrite HD.
      unfold Document.with_relationships, Document.with_entities,
        Document.with_applications. cbn [Document.applications].
      fold wa. rewrite map_map. apply map_ext. exact Happ.
    + rewrite HE', HE. exact HE2.
    + rewrite HN', HN, HD. reflexivity.
    + rewrite HR', HR, HE2, HD.
      unfold Document.with_relationships. cbn [Document.relationships].
      rewrite map_map. apply map_ext. intros r.
      now rewrite defaultInjectedField_twice.
    + rewrite HO', HO, HD. unfold global_option, cfg', configuration_after.
      cbn [Configuration.applicationType Configuration.applicationName].
      unfold Document.with_relationships, Document.with_entities.
      cbn [Document.entities Document.microservice].
      unfold we. rewrite written_entity_names. reflexivity.
  - rewrite HD'. fold env0'. rewrite HD.
    unfold Document.with_relationships, Document.with_entities,
      Document.with_applications.
    cbn [Document.applications Document.entities Document.relationships
         Document.enums Document.constants Document.noClient
         Document.noServer Document.noFluentMethod Document.filter
         Document.microservice Document.binaryOptions].
    fold wa we. rewrite !map_map. f_equal.
    + apply map_ext. intros a. unfold wa.
      apply (fillApplication_twice env0 env0' a Hg).
    + apply map_ext_in. intros e He. apply (Hent e He).
    + apply map_ext. intros r. apply defaultInjectedField_twice.
  - rewrite HW', HW, HD. reflexivity.
Qed.

Lemma getValidations_snd env field :
  snd (getValidations env field)
  = map (fun v => snd (getValidation env [] v)) (DocField.validations field).
Proof.
  unfold getValidations.
  apply (forEach_mut_map (fun v => snd (getValidation env [] v))
           (getValidation env) (fun _ => True)); [|exact I].
  intros m v _. split; [|exact I]. unfold getValidation.
  now destruct (DocValidation.constant v).
Qed.

Lemma getValidation_snd env m v :
  DocValidation.key (snd (getValidation env m v)) = DocValidation.key v
  /\ DocValidation.constant (snd (getValidation env m v))
     = DocValidation.constant v
  /\ (DocValidation.constant v = true ->
      DocValidation.value (snd (getValidation env m v))
      = obj_get (Document.constants (Env.document env))
                (property (DocValidation.value v))).
Proof.
  unfold getValidation. destruct (DocValidation.constant v) eqn:E; cbn;
    repeat split; auto; discriminate.
Qed.

(** X11. A validation flagged as a constant is resolved again by every
    pass over the field: once [getValidations] has written the literal
    of the constant into the validation, a second pass over the field as
    written looks the literal itself up in the table of constants, and
    stores what it finds under it. *)
Theorem X11_constant_resolved_again env field before validation after :
  DocField.validations field = (before ++ validation :: after)%list ->
  (forall v, In v after ->
             DocValidation.key v <> DocValidation.key validation) ->
  DocValidation.constant validation = true ->
  let written :=
    DocField.mk (DocField.name field) (DocField.type field)
                (DocField.javadoc field) (snd (getValidations env field)) in
  obj_get (fst (getValidations env written)) (DocValidation.key validation)
  = Some (JDLValidation.mk (DocValidation.key validation)
            (obj_get (Document.constants (Env.document env))
               (property
                  (obj_get (Document.constants (Env.document env))
                           (property (DocValidation.value validation))))))
  /\ (forall fields,
        toLowerCase (lowerFirst (DocField.name field)) <> "id" ->
        snd (getField env fields field) = written).
Proof.
  intros Hv Hlast Hc. cbv zeta. split.
  - unfold getValidations at 1. cbn [DocField.validations].
    rewrite getValidations_snd, Hv, map_app. cbn [map].
    rewrite forEach_mut_app, forEach_mut_cons, getValidation_fst.
    rewrite getValidations_later.
    + destruct (getValidation_snd env [] validation) as (K & C & V).
      rewrite K, C, Hc, (V Hc). apply obj_get_set_same.
    + intros w Hw. apply in_map_iff in Hw. destruct Hw as (v & <- & Hin).
      destruct (getValidation_snd env [] v) as (-> & _).
      now apply Hlast.
  - intros fields Hn. unfold getField.
    destruct (String.eqb_spec (toLowerCase (lowerFirst (DocField.name field)))
                              "id") as [E|_]; [contradiction|].
    now destruct (getValidations env field).
Qed.
End document_parser.

(** ** The claims at sample inputs *)

(** C1. A relationship from Owner to Car with no injected field on
    either side: the parser names the injected field of the from side
    after the from entity, "owner", and not after the to entity, "car";
    the injected field of the to side stays absent. *)
Theorem C1_default_injected_field_is_from_name :
  exists env graph jdlRelationship,
    parseFromConfigurationObject plain_comment plain_case binary_options None
      (sample_configuration owner_car None None None)
    = (Some env, inr graph)
    /\ JDLObject.relationships graph = [jdlRelationship]
    /\ JDLRelationship.injectedFieldInFrom jdlRelationship = Some "owner"
    /\ lowerFirst "Car" = "car"
    /\ JDLRelationship.injectedFieldInTo jdlRelationship = None
    /\ option_map JDLEntity.name (JDLRelationship.to jdlRelationship)
       = Some "Car".
Proof. do 3 eexists. repeat split; reflexivity. Qed.

(** C2. A relationship from A to "user": the test of
    [getUserRelationships] compares the names in lower case and finds
    it, so the entity User is installed after the declared entity and
    before any relationship; [fillAssociations] then looks the to side
    up under its name as written, and the graph holds nothing under
    "user": the relationship does not resolve its User endpoint. For a
    relationship from A to "User" the same lookup finds the entity. *)
Theorem C2_user_endpoint_is_not_resolved :
  Document.relationships a_to_user = [sample_relationship "A" "user"]
  /\ map DocEntity.name (Document.entities a_to_user) = ["A"]
  /\ getUserRelationships
       (before_associations plain_comment
          (sample_configuration a_to_user None None None) a_to_user)
     = [sample_relationship "A" "user"]
  /\ JDLObject.entities
       (Env.jdlObject
          (before_associations plain_comment
             (sample_configuration a_to_user None None None) a_to_user))
     = [("A", JDLEntity.mk "A" "A" [] None);
        ("User", JDLEntity.mk "User" "jhi_user" [] None)]
  /\ JDLObject.relationships
       (Env.jdlObject
          (before_associations plain_comment
             (sample_configuration a_to_user None None None) a_to_user))
     = []
  /\ obj_get
       (JDLObject.entities
          (Env.jdlObject
             (before_associations plain_comment
                (sample_configuration a_to_user None None None) a_to_user)))
       (DocSide.name (DocRelationship.to (sample_relationship "A" "user")))
     = None
  /\ obj_get
       (JDLObject.entities
          (Env.jdlObject
             (before_associations plain_comment
                (sample_configuration a_to_User None None None) a_to_User)))
       (DocSide.name (DocRelationship.to (sample_relationship "A" "User")))
     = Some (JDLEntity.mk "User" "jhi_user" [] None).
Proof. repeat split; reflexivity. Qed.


(** The example of the specification for C4, by evaluation. *)
Example all_but_Foo_is_Bar_Baz :
  option_map (fun graph => map JDLApplication.entities
                               (obj_values (JDLObject.applications graph)))
    (match snd (parseFromConfigurationObject plain_comment plain_case
                  binary_options None
                  (sample_configuration all_but_Foo None None None)) with
     | inr graph => Some graph
     | inl _ => None
     end)
  = Some [["Bar"; "Baz"]].
Proof. reflexivity. Qed.



Lemma C6_witness :
  exists env graph,
    parseFromConfigurationObject plain_comment plain_case binary_options None
      (sample_configuration invoice_line (Some "microservice")
                            (Some "invoicing") None)
    = (Some env, inr graph)
    /\ filter (isBinaryOption "microservice") (JDLObject.options graph)
       = [JDLBinaryOption "microservice" (Some "invoicing")
                          ["Invoice"; "Line"] []].
Proof.
  destruct (C6_global_microservice_option plain_comment plain_case
              binary_options None
              (sample_configuration invoice_line (Some "microservice")
                                    (Some "invoicing") None)
              invoice_line eq_refl)
    as (env & graph & H1 & H2 & _).
  exists env, graph. split; [exact H1 | exact (H2 eq_refl eq_refl)].
Defined.

Lemma C10_witness :
  exists env graph written,
    parseFromConfigurationObject plain_comment plain_case binary_options None
      (sample_configuration to_be_written None None (Some "5.0.0"))
    = (Some env, inr graph)
    /\ Env.document env <> to_be_written
    /\ Document.applications (Env.document env) = [written]
    /\ obj_get (DocApplication.config written) "jhipsterVersion"
       = Some "5.0.0".
Proof.
  destruct (C10_document_is_written plain_comment plain_case binary_options
              None (sample_configuration to_be_written None None (Some "5.0.0"))
              to_be_written eq_refl)
    as (env & graph & H1 & H2 & H3 & H4).
  change (Document.applications to_be_written)
    with [DocApplication.mk [("baseName", "shop")]
                            (EntityList.mk ["Owner"] [])] in H2.
  inversion H2 as [|x y l l' [_ Hx] Hl Ea Eb]. inversion Hl. subst.
  specialize (Hx "5.0.0" eq_refl ltac:(discriminate)).
  exists env, graph, y. split; [exact H1|]. split; [|split; [auto|]].
  - intros E. rewrite E in Eb. injection Eb as Ey. rewrite Ey in Hx.
    discriminate Hx.
  - rewrite Hx. reflexivity.
Defined.

(** The document of the last example, before and after the call. *)
Example to_be_written_after :
  option_map Env.document
    (fst (parseFromConfigurationObject plain_comment plain_case binary_options
            None (sample_configuration to_be_written None None (Some "5.0.0"))))
  = Some
      (sample_document
         [DocApplication.mk [("baseName", "shop"); ("jhipsterVersion", "5.0.0")]
                            (EntityList.mk ["Owner"] [])]
         [DocEntity.mk "Owner" (Some "Owner") None [];
          DocEntity.mk "Car" (Some "Car") None []]
         [DocRelationship.mk "one-to-many"
            (DocSide.mk "Owner" (Some "owner") None None)
            (DocSide.mk "Car" None None None)]
         []).
Proof. reflexivity. Qed.

(** The examples of the specification for C3, by evaluation: Email
    becomes email, firstName stays, and no field Id is left. *)
Example fields_of_sample_entity :
  obj_keys
    (fst (getFields plain_comment
            (init (sample_configuration maxlen_document None None None)
                  maxlen_document)
            (sample_entity "Customer"
               [DocField.mk "Email" "String" None [];
                DocField.mk "Id" "Long" None
                  [DocValidation.mk "required" None false];
                DocField.mk "firstName" "String" None [];
                DocField.mk "ID" "UUID" None []])))
  = ["email"; "firstName"].
Proof. reflexivity. Qed.

(** ** The further properties at sample inputs *)

Lemma X1_witness :
  exists env graph,
    parseFromConfigurationObject plain_comment plain_case binary_options None
      (sample_configuration shop None None None)
    = (Some env, inr graph)
    /\ filter isUnaryOption (JDLObject.options graph)
       = [JDLUnaryOption "skipClient" ["Owner"] []].
Proof.
  destruct (X1_unary_options plain_comment plain_case binary_options None
              (sample_configuration shop None None None) shop eq_refl)
    as (env & graph & rest & H1 & _ & _ & H4 & _).
  exists env, graph. split; [exact H1 | exact H4].
Defined.

Lemma X2_witness :
  exists env graph,
    parseFromConfigurationObject plain_comment plain_case binary_options None
      (sample_configuration shop (Some "microservice") (Some "shop") None)
    = (Some env, inr graph)
    /\ filter (isBinaryOption "clientRootFolder") (JDLObject.options graph)
       = []
    /\ Env.warnings env = [clientRootFolder_warning].
Proof.
  destruct (X2_clientRootFolder_ignored plain_comment plain_case
              binary_options None
              (sample_configuration shop (Some "microservice") (Some "shop")
                                    None)
              shop eq_refl)
    as (env & graph & H1 & H2 & H3 & _).
  destruct (H3 eq_refl) as [A B].
  exists env, graph. split; [exact H1|]. split; [exact A|].
  change (List.length (Env.warnings env) = 1) in B.
  destruct (Env.warnings env) as [|w [|w' l]]; try discriminate.
  inversion H2 as [|x y Hw _]. now rewrite Hw.
Defined.

Lemma X3_witness :
  exists env graph,
    parseFromConfigurationObject plain_comment plain_case binary_options None
      (sample_configuration shop None None None)
    = (Some env, inr graph)
    /\ In (JDLBinaryOption "dto" (Some "mapstruct") ["Owner"] [])
          (JDLObject.options graph).
Proof.
  apply (X3_binary_options_of_document plain_comment plain_case
           binary_options None (sample_configuration shop None None None)
           shop "dto" "mapstruct" (OptionList.mk [] ["Owner"])).
  - reflexivity.
  - left. reflexivity.
  - reflexivity.
  - intros [E _]. discriminate.
Defined.

Lemma X4_witness :
  exists env graph,
    parseFromConfigurationObject plain_comment plain_case binary_options None
      (sample_configuration shop None None None)
    = (Some env, inr graph)
    /\ obj_get (JDLObject.enums graph) "Colour"
       = Some (JDLEnum.mk "Colour" ["RED"; "BLUE"] None)
    /\ obj_get (JDLObject.enums graph) "Owner" = None.
Proof.
  destruct (X4_enums plain_comment plain_case binary_options None
              (sample_configuration shop None None None) shop eq_refl)
    as (env & graph & H1 & _ & H3 & H4).
  exists env, graph. split; [exact H1|]. split.
  - apply (H3 [] (DocEnum.mk "Colour" ["RED"; "BLUE"] None) []).
    + reflexivity.
    + intros later [].
  - destruct (obj_get (JDLObject.enums graph) "Owner") as [E|] eqn:G; auto.
    destruct (H4 "Owner" E G) as (enumObj & [<-|[]] & Hn & _).
    discriminate.
Defined.

Lemma X5_witness :
  exists env graph R,
    parseFromConfigurationObject plain_comment plain_case binary_options None
      (sample_configuration shop None None None)
    = (Some env, inr graph)
    /\ JDLObject.relationships graph = [R]
    /\ JDLRelationship.type R = "One-to-many"
    /\ JDLRelationship.injectedFieldInFrom R = Some "cars"
    /\ JDLRelationship.injectedFieldInTo R = Some "owner".
Proof.
  destruct (X5_relationships plain_comment plain_case binary_options None
              (sample_configuration shop None None None) shop eq_refl)
    as (env & graph & H1 & H2).
  change (Document.relationships shop)
    with [DocRelationship.mk "one-to-many"
            (DocSide.mk "Owner" (Some "cars") None None)
            (DocSide.mk "Car" (Some "owner") None None)] in H2.
  inversion H2 as [|x R l l' HR Hl Ea Eb]. inversion Hl. subst.
  cbv zeta in HR.
  destruct HR as (_ & _ & Ht & _ & _ & _ & _ & Hto & Hfrom).
  exists env, graph, R. split; [exact H1|]. split; [symmetry; exact Eb|].
  split; [exact Ht|]. split; [|exact Hto].
  apply Hfrom. left. reflexivity.
Defined.

Lemma X6_witness :
  exists env graph,
    parseFromConfigurationObject plain_comment plain_case binary_options None
      (sample_configuration owner_car None None None)
    = (Some env, inr graph)
    /\ obj_get (JDLObject.entities graph) "User" = None.
Proof.
  destruct (X6_no_user_entity_unless_needed plain_comment plain_case
              binary_options None
              (sample_configuration owner_car None None None) owner_car
              eq_refl)
    as (env & graph & H1 & _ & H3).
  - left. intros r [<-|[]]. discriminate.
  - exists env, graph. split; [exact H1|].
    destruct (obj_get (JDLObject.entities graph) "User") as [E|]; auto.
    destruct (H3 E eq_refl) as (declared & Hd & Hn & _).
    destruct Hd as [<-|[<-|[]]]; discriminate.
Defined.


Lemma X8_witness :
  exists env graph E,
    parseFromConfigurationObject plain_comment plain_case binary_options None
      (sample_configuration shop None None None)
    = (Some env, inr graph)
    /\ obj_get (JDLObject.entities graph) "Owner" = Some E
    /\ JDLEntity.name E = "Owner"
    /\ JDLEntity.tableName E = "owners".
Proof.
  destruct (X8_entity_by_name plain_comment plain_case binary_options None
              (sample_configuration shop None None None) shop []
              (DocEntity.mk "Owner" (Some "owners") None
                 [DocField.mk "Name" "String" None
                    [DocValidation.mk "required" None false]])
              [sample_entity "Car" []])
    as (env & graph & E & H1 & H2 & H3 & H4 & _).
  - reflexivity.
  - reflexivity.
  - intros later [<-|[]]. discriminate.
  - exists env, graph, E. split; [exact H1|]. split; [exact H2|].
    split; [exact H3|]. apply H4; [reflexivity|discriminate].
Defined.

Lemma X9_witness :
  exists env graph,
    parseFromConfigurationObject plain_comment plain_case binary_options None
      (sample_configuration shop None None None)
    = (Some env, inr graph)
    /\ Document.enums (Env.document env) = Document.enums shop
    /\ Document.applications (Env.document env) = Document.applications shop
    /\ Document.relationships (Env.document env)
       = Document.relationships shop.
Proof.
  destruct (X9_document_kept plain_comment plain_case binary_options None
              (sample_configuration shop None None None) shop eq_refl)
    as (env & graph & H1 & H2 & _ & _ & _ & _ & _ & _ & _ & H3 & _ & H4).
  exists env, graph. split; [exact H1|]. split; [exact H2|].
  split; [exact (H3 eq_refl)|].
  change (Document.relationships shop)
    with [DocRelationship.mk "one-to-many"
            (DocSide.mk "Owner" (Some "cars") None None)
            (DocSide.mk "Car" (Some "owner") None None)] in H4 |- *.
  inversion H4 as [|x w l l' Hw Hl Ea Eb]. inversion Hl. subst.
  destruct Hw as (_ & _ & _ & _ & _ & Hw). f_equal. apply Hw.
  left. reflexivity.
Defined.

Lemma X10_witness :
  exists env graph env',
    parseFromConfigurationObject plain_comment plain_case binary_options None
      (sample_configuration shop None None (Some "5.0.0"))
    = (Some env, inr graph)
    /\ parseFromConfigurationObject plain_comment plain_case binary_options
         (Some env)
         (configuration_after
            (sample_configuration shop None None (Some "5.0.0")) env)
       = (Some env', inr graph)
    /\ Env.document env' = Env.document env.
Proof.
  destruct (X10_second_call plain_comment plain_case binary_options None
              (sample_configuration shop None None (Some "5.0.0")) shop
              eq_refl)
    as (env & graph & env' & H1 & H2 & H3 & _).
  - intros e f v He Hf Hv.
    destruct He as [<-|[<-|[]]]; simpl in Hf; [|contradiction].
    destruct Hf as [<-|[]]. simpl in Hv. destruct Hv as [<-|[]].
    reflexivity.
  - exists env, graph, env'. auto.
Defined.

Lemma X11_witness :
  let env := init (sample_configuration maxlen_document None None None)
                  maxlen_document in
  obj_get (fst (getValidations env maxlen_field)) "maxlength"
  = Some (JDLValidation.mk "maxlength" (Some "50"))
  /\ obj_get
       (fst (getValidations env
               (DocField.mk "Email" "String" None
                  (snd (getValidations env maxlen_field)))))
       "maxlength"
     = Some (JDLValidation.mk "maxlength" None).
Proof.
  split; [reflexivity|].
  pose proof (X11_constant_resolved_again plain_comment
                (init (sample_configuration maxlen_document None None None)
                      maxlen_document)
                maxlen_field [] maxlen_validation [] eq_refl) as H.
  cbv zeta in H. destruct H as [H _].
  - intros v [].
  - reflexivity.
  - exact H.
Defined.

(** ** The claims about the token catalog *)

Lemma createToken_keyword config tokens0 :
  matches_name (pattern config) = true ->
  LONGER_ALT (fst (createToken config tokens0)) = Some NAME
  /\ In KEYWORD (CATEGORIES (fst (createToken config tokens0)))
  /\ PATTERN (fst (createToken config tokens0)) = pattern config.
Proof.
  intros H. unfold createToken, as_keyword. cbn [fst]. rewrite H.
  destruct config as [n p alt cats g lb l]. simpl in *.
  destruct p as [s| |]; try discriminate. simpl.
  destruct l; simpl; (repeat split; auto);
    destruct cats; simpl; auto using in_or_app, in_eq.
Qed.

Lemma createToken_pattern config tokens0 :
  PATTERN (fst (createToken config tokens0)) = pattern config.
Proof.
  unfold createToken, with_label, as_keyword. cbn [fst].
  destruct config as [n p alt cats g lb l]. simpl.
  destruct p as [s| |]; simpl; auto.
  destruct (test namePattern s); simpl; destruct l; reflexivity.
Qed.

Lemma obj_values_set {V : Type} (m : ObjMap V) k v x :
  In x (obj_values (obj_set m k v)) -> x = v \/ In x (obj_values m).
Proof.
  induction m as [|[k0 v0] r IH]; simpl.
  - intuition.
  - destruct (String.eqb k0 k); simpl; intuition.
Qed.

(** The token types of the lexer are the ones the calls of [createToken]
    made, and NAME. *)
Lemma JDLLexer_calls t :
  In t JDLLexer ->
  t = NAME \/ exists config, In config calls /\ t = fst (createToken config []).
Proof.
  unfold JDLLexer, tokens. intros H. apply obj_values_set in H.
  destruct H as [H|H]; auto. right. revert H.
  assert (G : forall l m,
             In t (obj_values
                     (fold_left (fun t config => snd (createToken config t))
                                l m)) ->
             In t (obj_values m)
             \/ exists config, In config l /\ t = fst (createToken config [])).
  { induction l as [|c r IH]; intros m H; simpl in *; auto.
    apply IH in H. destruct H as [H|(c' & Hc & E)].
    - apply obj_values_set in H. destruct H as [H|H]; auto.
      right. exists c. auto.
    - right. exists c'. auto. }
  intros H. apply G in H. destruct H as [[]|H]. exact H.
Qed.

Lemma tokenMatcher_category t k c :
  In k (CATEGORIES t) -> tokenMatcher k c = true -> tokenMatcher t c = true.
Proof.
  intros Hk Hc. destruct t. simpl in *. apply orb_true_iff. right.
  apply existsb_exists. exists k. auto.
Qed.

Lemma lexes_as_spec ok s :
  lexes_as ok s = true ->
  exists tok,
    tokenize JDLLexer s = mkILexingResult [tok] []
    /\ image tok = s /\ startOffset tok = 0 /\ ok (tokenType tok) = true.
Proof.
  unfold lexes_as.
  destruct (tokenize JDLLexer s) as [[|tok [|]] [|]]; try discriminate.
  intros H. apply andb_true_iff in H. destruct H as [H H3].
  apply andb_true_iff in H. destruct H as [H1 H2].
  apply String.eqb_eq in H1. apply Nat.eqb_eq in H2. eauto.
Qed.

(** C8. A call of [createToken] with a string pattern on which the name
    pattern matches yields a token type with NAME as longer alternative
    and KEYWORD among its categories, and KEYWORD has NAME as category.
    So it is for every such token type of the lexer: a position that
    expects a NAME accepts it, and accepts what the lexer makes of its
    text. *)
Theorem C8_keywords_are_names :
  (forall config tokens0,
      matches_name (pattern config) = true ->
      LONGER_ALT (fst (createToken config tokens0)) = Some NAME
      /\ In KEYWORD (CATEGORIES (fst (createToken config tokens0))))
  /\ In NAME (CATEGORIES KEYWORD)
  /\ LONGER_ALT KEYWORD = Some NAME
  /\ (forall t, In t JDLLexer -> matches_name (PATTERN t) = true ->
        LONGER_ALT t = Some NAME
        /\ In KEYWORD (CATEGORIES t)
        /\ tokenMatcher t NAME = true)
  /\ (forall t s, In t JDLLexer -> PATTERN t = PString s ->
        test namePattern s = true ->
        exists tok,
          tokenize JDLLexer s = mkILexingResult [tok] []
          /\ image tok = s
          /\ tokenMatcher (tokenType tok) NAME = true).
Proof.
  split; [|split; [|split; [|split]]].
  - intros config tokens0 H.
    destruct (createToken_keyword config tokens0 H) as (H1 & H2 & _). auto.
  - simpl. auto.
  - reflexivity.
  - intros t Ht Hm. destruct (JDLLexer_calls t Ht) as [->|(c & Hc & ->)].
    + discriminate.
    + rewrite createToken_pattern in Hm.
      destruct (createToken_keyword c [] Hm) as (H1 & H2 & _).
      repeat split; auto.
      eapply tokenMatcher_category; [exact H2|reflexivity].
  - intros t s Ht Hp Hs.
    assert (H : forallb lexes_to_name JDLLexer = true)
      by (vm_compute; reflexivity).
    rewrite forallb_forall in H. specialize (H t Ht).
    unfold lexes_to_name in H. rewrite Hp, Hs in H.
    destruct (lexes_as_spec _ s H) as (tok & H1 & H2 & _ & H3). eauto.
Qed.

Lemma longest_first_spec l :
  longest_first l = true ->
  ForallOrdPairs (fun t u => shadows t u = false) l.
Proof.
  induction l as [|t r IH]; simpl; intros H; constructor.
  - apply andb_true_iff in H. destruct H as [H _].
    rewrite forallb_forall in H. apply Forall_forall. intros u Hu.
    specialize (H u Hu). now apply negb_true_iff in H.
  - apply IH. apply andb_true_iff in H. tauto.
Qed.

(** C9. The lexer reads "applicationType" as one token, of the type
    APPLICATION_TYPE: no token of the type APPLICATION, and no NAME
    after it. No token type of the lexer comes before one whose text it
    begins; APPLICATION comes after APPLICATION_TYPE; and the text of
    every token type with a string pattern is read as one token of that
    type. *)
Theorem C9_applicationType_is_one_token :
  (exists tok,
      tokenize JDLLexer "applicationType" = mkILexingResult [tok] []
      /\ image tok = "applicationType"
      /\ startOffset tok = 0
      /\ token "APPLICATION_TYPE" = Some (tokenType tok))
  /\ (forall tok,
        In tok (chevrotain.tokens (tokenize JDLLexer "applicationType")) ->
        name (tokenType tok) <> "APPLICATION"
        /\ name (tokenType tok) <> "NAME")
  /\ ForallOrdPairs (fun t u => shadows t u = false) JDLLexer
  /\ (exists i j,
        i < j
        /\ option_map name (nth_error JDLLexer i) = Some "APPLICATION_TYPE"
        /\ option_map name (nth_error JDLLexer j) = Some "APPLICATION")
  /\ (forall t s, In t JDLLexer -> PATTERN t = PString s ->
        exists tok,
          tokenize JDLLexer s = mkILexingResult [tok] []
          /\ image tok = s
          /\ name (tokenType tok) = name t).
Proof.
  split; [|split; [|split; [|split]]].
  - exists (mkIToken "applicationType" 0
              (fst (createToken
                      (cfg "APPLICATION_TYPE" (PString "applicationType")
                           (Some [CONFIG_KEY])) []))).
    repeat split; vm_compute; reflexivity.
  - assert (H : map (fun tok => name (tokenType tok))
                    (chevrotain.tokens (tokenize JDLLexer "applicationType"))
                = ["APPLICATION_TYPE"]) by (vm_compute; reflexivity).
    intros tok Hin.
    apply (in_map (fun tok => name (tokenType tok))) in Hin.
    rewrite H in Hin. destruct Hin as [<-|[]]. split; discriminate.
  - apply longest_first_spec. vm_compute. reflexivity.
  - exists 20, 21. repeat split; auto.
  - intros t s Ht Hp.
    assert (H : forallb lexes_to_itself JDLLexer = true)
      by (vm_compute; reflexivity).
    rewrite forallb_forall in H. specialize (H t Ht).
    unfold lexes_to_itself in H. rewrite Hp in H.
    destruct (lexes_as_spec _ s H) as (tok & H1 & H2 & _ & H3).
    exists tok. repeat split; auto.
    unfold same in H3. apply String.eqb_eq in H3. auto.
Qed.

(** ** Further properties of the lexer *)

Lemma all_ascii_In c : In c all_ascii.
Proof.
  unfold all_ascii. rewrite <- (ascii_nat_embedding c).
  apply in_map. apply in_seq. split; [apply Nat.le_0_l|].
  apply nat_ascii_bounded.
Qed.

Lemma for_all_ascii (P : ascii -> bool) :
  forallb P all_ascii = true -> forall c, P c = true.
Proof. intros H c. rewrite forallb_forall in H. apply H, all_ascii_In. Qed.

(** A regular expression that cannot start with the first character of
    the text matches the empty text there, or nothing. *)
Lemma run_can_start r c rest k :
  can_start r c = false ->
  run r (String c rest) k
  = if nullable r then k (String c rest) else None.
Proof.
  revert k. induction r as [d|p|a IHa b IHb|a IHa|a IHa|a IHa];
    intros k H; simpl in H.
  - simpl. now rewrite H.
  - simpl. now rewrite H.
  - apply orb_false_iff in H. destruct H as [Ha Hb].
    simpl. rewrite IHa by exact Ha.
    destruct (nullable a); simpl in *; auto.
  - simpl. rewrite IHa by exact H.
    destruct (nullable a); auto. now destruct (k (String c rest)).
  - cbn -[Nat.ltb]. rewrite IHa by exact H.
    rewrite Nat.ltb_irrefl. now destruct (nullable a).
  - cbn -[Nat.ltb]. destruct (k (String c rest)); auto.
    rewrite IHa by exact H. rewrite Nat.ltb_irrefl.
    now destruct (nullable a).
Qed.

Lemma match_at_cannot_start p c rest :
  pattern_starts p c = false -> match_at p (String c rest) = None.
Proof.
  destruct p as [s|r|]; simpl; auto.
  - destruct s as [|a s']; [discriminate|]. simpl. now intros ->.
  - intros H. apply orb_false_iff in H. destruct H as [H1 H2].
    unfold exec. rewrite run_can_start by exact H1. now rewrite H2.
Qed.

(** The token types that cannot start with the first character of the
    text are passed over. *)
Lemma first_match_passes l1 l2 c rest :
  forallb (fun t => negb (pattern_starts (PATTERN t) c)) l1 = true ->
  first_match (l1 ++ l2) (String c rest) = first_match l2 (String c rest).
Proof.
  induction l1 as [|t r IH]; simpl; auto.
  intros H. apply andb_true_iff in H. destruct H as [Ht Hr].
  apply negb_true_iff in Ht.
  now rewrite (match_at_cannot_start _ _ _ Ht), IH.
Qed.

Lemma first_match_none l c rest :
  forallb (fun t => negb (pattern_starts (PATTERN t) c)) l = true ->
  first_match l (String c rest) = None.
Proof.
  intros H. rewrite <- (app_nil_r l). now rewrite first_match_passes.
Qed.

(** A greedy star over a class takes all the characters of the class at
    the start of the text, when what follows lets the rest match. *)
Lemma run_star_class p body rest k x :
  all_chars p body = true ->
  match rest with
  | String d _ => p d = false
  | EmptyString => True
  end ->
  k rest = Some x ->
  run (Star (Cls p)) (body ++ rest) k = Some x.
Proof.
  intros Hb Hr Hk. induction body as [|c b IH].
  - simpl. destruct rest as [|d r]; cbn -[Nat.ltb]; auto.
    now rewrite Hr.
  - simpl in Hb. apply andb_true_iff in Hb. destruct Hb as [Hc Hb].
    specialize (IH Hb).
    change (run (Star (Cls p)) (String c b ++ rest) k)
      with (match
              (if p c
               then if Nat.ltb (String.length (b ++ rest))
                               (String.length (String c (b ++ rest)))
                    then run (Star (Cls p)) (b ++ rest) k
                    else None
               else None)
            with
            | Some r => Some r
            | None => k (String c (b ++ rest))
            end).
    rewrite Hc, IH.
    replace (Nat.ltb _ _) with true; auto.
    symmetry. apply Nat.ltb_lt. simpl. apply Nat.lt_succ_diag_r.
Qed.

Lemma length_append a b :
  String.length (a ++ b) = String.length a + String.length b.
Proof. induction a; simpl; auto. Qed.

Lemma append_empty a : (a ++ "")%string = a.
Proof. induction a; simpl; congruence. Qed.

Lemma take_all s : take (String.length s) s = s.
Proof. induction s; simpl; congruence. Qed.

Lemma drop_all s : drop (String.length s) s = "".
Proof. induction s; simpl; auto. Qed.

Lemma take_append a b : take (String.length a) (a ++ b) = a.
Proof. induction a; simpl; [now destruct b|congruence]. Qed.

Lemma drop_append a b : drop (String.length a) (a ++ b) = b.
Proof. induction a; simpl; [now destruct b|auto]. Qed.

(** The name pattern matches the whole of a name-shaped text. *)
Lemma exec_name s :
  name_shaped s = true -> exec namePattern s = Some (String.length s).
Proof.
  destruct s as [|c r]; [discriminate|]. simpl.
  intros H. apply andb_true_iff in H. destruct H as [Hc Hr].
  unfold exec, namePattern.
  change (run (Seq (Cls name_start) (Star (Cls name_part))) (String c r) Some)
    with (if name_start c then run (Star (Cls name_part)) r Some else None).
  rewrite Hc. rewrite <- (append_empty r) at 1.
  rewrite (run_star_class name_part r "" Some ""); auto.
Qed.

Lemma passes_spec cls p c rest :
  passes cls p = true -> cls c = true -> match_at p (String c rest) = None.
Proof.
  intros H Hc. apply match_at_cannot_start.
  pose proof (for_all_ascii _ H c) as G. simpl in G. rewrite Hc in G.
  simpl in G. now apply negb_true_iff in G.
Qed.

Lemma createToken_group config tokens0 :
  GROUP (fst (createToken config tokens0)) = group config
  /\ (matches_name (pattern config) = false ->
      LONGER_ALT (fst (createToken config tokens0)) = longer_alt config).
Proof.
  unfold createToken, with_label, as_keyword. cbn [fst].
  destruct config as [n p alt cats g lb l]. simpl.
  destruct p as [s| |]; simpl; auto.
  destruct (test namePattern s); simpl; destruct l; split;
    auto; discriminate.
Qed.

Lemma starts_with_length p s :
  starts_with p s = true ->
  String.length p <= String.length s
  /\ (String.length s <= String.length p -> p = s).
Proof.
  revert s. induction p as [|a p IH]; intros s H.
  - split; [apply Nat.le_0_l|]. destruct s; auto. simpl. intros G.
    inversion G.
  - destruct s as [|b s]; [discriminate|]. simpl in H.
    apply andb_true_iff in H. destruct H as [Hab H].
    apply Ascii.eqb_eq in Hab. subst b. destruct (IH s H) as [I1 I2].
    simpl. split.
    + now apply le_n_S.
    + intros G. apply le_S_n in G. now rewrite (I2 G).
Qed.

Lemma scan_empty fuel defs at_ :
  scan fuel defs "" at_ = mkILexingResult [] [].
Proof. now destruct fuel. Qed.

(** A match of the whole text by a token type that is not skipped makes
    the text one token. *)
Lemma tokenize_single defs s t :
  s <> "" ->
  first_match defs s = Some (t, String.length s) ->
  GROUP t = None ->
  tokenize defs s = mkILexingResult [mkIToken s 0 t] [].
Proof.
  intros Hs Hm Hg. unfold tokenize. destruct s as [|c r]; [contradiction|].
  cbn [String.length scan]. rewrite Hm, Hg.
  change (S (String.length r)) with (String.length (String c r)).
  now rewrite drop_all, take_all, scan_empty.
Qed.

Lemma calls_checked : forallb keyword_or_passes calls = true.
Proof. vm_compute. reflexivity. Qed.

(** At a name-shaped text, a token type of the lexer does not match, or
    is a keyword with NAME as longer alternative, or is NAME. *)
Lemma JDLLexer_at_name t c rest :
  In t JDLLexer -> name_start c = true ->
  match_at (PATTERN t) (String c rest) = None
  \/ (LONGER_ALT t = Some NAME /\ GROUP t = None
      /\ exists p, PATTERN t = PString p)
  \/ t = NAME.
Proof.
  intros Ht Hc. destruct (JDLLexer_calls t Ht) as [->|(config & Hin & ->)];
    auto.
  pose proof calls_checked as H. rewrite forallb_forall in H.
  specialize (H config Hin). unfold keyword_or_passes in H.
  apply orb_true_iff in H. destruct H as [H|H].
  - apply andb_true_iff in H. destruct H as [Hk Hg]. right. left.
    destruct (createToken_keyword config [] Hk) as (H1 & _ & H3).
    destruct (createToken_group config []) as (H4 & _).
    split; auto. split.
    + rewrite H4. now destruct (group config).
    + rewrite H3. destruct (pattern config) as [p| |]; try discriminate.
      now exists p.
  - left. rewrite createToken_pattern. eapply passes_spec; eauto.
Qed.

Lemma name_shaped_first_match l c rest :
  name_shaped (String c rest) = true ->
  (forall t, In t l ->
     match_at (PATTERN t) (String c rest) = None
     \/ (LONGER_ALT t = Some NAME /\ GROUP t = None
         /\ exists p, PATTERN t = PString p)
     \/ t = NAME) ->
  In NAME l ->
  exists t,
    first_match l (String c rest)
    = Some (t, String.length (String c rest))
    /\ GROUP t = None
    /\ (t = NAME \/ (In t l /\ PATTERN t = PString (String c rest))).
Proof.
  intros Hs. pose proof (exec_name _ Hs) as HN.
  induction l as [|t r IH]; intros Hgood Hname; [destruct Hname|].
  assert (Hrest : In NAME r -> exists t',
            first_match r (String c rest)
            = Some (t', String.length (String c rest))
            /\ GROUP t' = None
            /\ (t' = NAME
                \/ (In t' (t :: r) /\ PATTERN t' = PString (String c rest)))).
  { intros Hr. destruct IH as (t' & H1 & H2 & H3); auto.
    - intros x Hx. apply Hgood. now right.
    - exists t'. split; auto. split; auto.
      destruct H3 as [H3|[H3 H4]]; auto. right. split; auto. now right. }
  cbn [first_match].
  destruct (Hgood t (or_introl eq_refl)) as [Hn|[(Ha & Hg & p & Hp)|Et]];
    [| |subst t].
  - rewrite Hn. apply Hrest. destruct Hname as [E|Hr]; auto.
    subst t. cbn [PATTERN NAME chevrotain.createToken pattern match_at] in Hn.
    congruence.
  - rewrite Hp. cbn [match_at].
    destruct (starts_with p (String c rest)) eqn:E.
    + rewrite Ha. cbn [PATTERN NAME chevrotain.createToken pattern match_at].
      rewrite HN.
      destruct (Nat.ltb_spec (String.length p)
                             (String.length (String c rest))) as [Hlt|Hge].
      * exists NAME. auto.
      * destruct (starts_with_length _ _ E) as [_ Heq].
        specialize (Heq Hge). subst p. exists t. split; auto. split; auto.
        right. split; auto. now left.
    + apply Hrest. destruct Hname as [E'|Hr]; auto.
      subst t. simpl in Hp. discriminate.
  - cbn [PATTERN NAME chevrotain.createToken pattern match_at LONGER_ALT
         longer_alt].
    rewrite HN. exists NAME. auto.
Qed.

Lemma NAME_in_JDLLexer : In NAME JDLLexer.
Proof.
  unfold JDLLexer, tokens, obj_values.
  assert (G : forall (m : ObjMap TokenType) k v,
             In v (map snd (obj_set m k v))).
  { induction m as [|[k0 v0] r IH]; intros k v; simpl; auto.
    destruct (String.eqb k0 k); simpl; auto. }
  apply G.
Qed.

Lemma no_repeat_NoDup l : no_repeat l = true -> NoDup l.
Proof.
  induction l as [|x r IH]; intros H; constructor.
  - simpl in H. apply andb_true_iff in H. destruct H as [H _].
    apply negb_true_iff in H. intros Hin.
    assert (G : includes r x = true).
    { clear H IH. induction r as [|y r IH]; [destruct Hin|]. simpl.
      destruct Hin as [->|Hin].
      - now rewrite String.eqb_refl.
      - rewrite (IH Hin). apply orb_true_r. }
    congruence.
  - apply IH. simpl in H. apply andb_true_iff in H. tauto.
Qed.

Lemma NoDup_map_eq {A B : Type} (f : A -> B) (l : list A) :
  NoDup (map f l) ->
  forall a b, In a l -> In b l -> f a = f b -> a = b.
Proof.
  induction l as [|x r IH]; intros H a b Ha Hb E; [destruct Ha|].
  inversion H as [|y m Hx Hr]. subst.
  destruct Ha as [<-|Ha], Hb as [<-|Hb]; auto.
  - exfalso. apply Hx. rewrite E. now apply in_map.
  - exfalso. apply Hx. rewrite <- E. now apply in_map.
Qed.

(** The token types of the lexer have different names. *)
Lemma JDLLexer_names a b :
  In a JDLLexer -> In b JDLLexer -> name a = name b -> a = b.
Proof.
  apply NoDup_map_eq. apply no_repeat_NoDup. vm_compute. reflexivity.
Qed.

Lemma keywords_matched_first : forallb matched_first JDLLexer = true.
Proof. vm_compute. reflexivity. Qed.

(** X12. A text that has the shape of a name, a letter or an underscore
    and then letters, digits, underscores and hyphens, is read as one
    token that spans it: a token of the type of the keyword when the text
    is that of a keyword, and a NAME when it is the text of no token
    type. So no name is cut at the end of a keyword that begins it, and
    no keyword is read as a plain NAME. *)
Theorem X12_names_are_one_token s :
  name_shaped s = true ->
  exists tok,
    tokenize JDLLexer s = mkILexingResult [tok] []
    /\ image tok = s
    /\ startOffset tok = 0
    /\ (tokenType tok = NAME
        \/ (In (tokenType tok) JDLLexer
            /\ PATTERN (tokenType tok) = PString s))
    /\ (forall t, In t JDLLexer -> PATTERN t = PString s ->
                  tokenType tok = t)
    /\ ((forall t, In t JDLLexer -> PATTERN t <> PString s) ->
        tokenType tok = NAME).
Proof.
  intros Hs. destruct s as [|c rest]; [discriminate|].
  assert (Hc : name_start c = true).
  { simpl in Hs. apply andb_true_iff in Hs. tauto. }
  destruct (name_shaped_first_match JDLLexer c rest Hs) as (t & H1 & H2 & H3).
  - intros t Ht. now apply JDLLexer_at_name.
  - apply NAME_in_JDLLexer.
  - exists (mkIToken (String c rest) 0 t).
    rewrite (tokenize_single JDLLexer (String c rest) t); auto;
      [|discriminate].
    cbn [image startOffset tokenType].
    split; [reflexivity|]. split; [reflexivity|]. split; [reflexivity|].
    split; [exact H3|]. split.
    + intros u Hu Hp. pose proof keywords_matched_first as K.
      rewrite forallb_forall in K. specialize (K u Hu).
      unfold matched_first in K. rewrite Hp, Hs, H1 in K.
      apply andb_true_iff in K. destruct K as [K _].
      apply JDLLexer_names; auto.
      * destruct H3 as [->|[H3 _]]; auto. apply NAME_in_JDLLexer.
      * now apply String.eqb_eq.
    + intros Hno. destruct H3 as [H3|[H3 H4]]; auto.
      exfalso. apply (Hno t H3 H4).
Qed.

Lemma first_match_here l1 t l2 cls c rest n :
  forallb (fun u => passes cls (PATTERN u)) l1 = true ->
  cls c = true ->
  match_at (PATTERN t) (String c rest) = Some n ->
  LONGER_ALT t = None ->
  first_match (l1 ++ t :: l2) (String c rest) = Some (t, n).
Proof.
  intros H1 Hc Hm Ha. rewrite first_match_passes.
  - cbn [first_match]. now rewrite Hm, Ha.
  - apply forallb_forall. intros u Hu. rewrite forallb_forall in H1.
    specialize (H1 u Hu). pose proof (for_all_ascii _ H1 c) as G.
    simpl in G. now rewrite Hc in G.
Qed.

(** Where the lexer has the token types of the literals and of the
    whitespace, and that no token type before them takes their first
    character. *)
Lemma INTEGER_place :
  exists l1 t l2,
    JDLLexer = (l1 ++ t :: l2)%list
    /\ token "INTEGER" = Some t
    /\ PATTERN t = PRegExp (Seq (Opt (Chr "-")) (Plus (Cls is_digit)))
    /\ LONGER_ALT t = None /\ GROUP t = None
    /\ forallb (fun u => passes (fun c => is_digit c || is_char "-" c)
                                (PATTERN u)) l1 = true.
Proof.
  exists (firstn 71 JDLLexer), (nth 71 JDLLexer NAME), (skipn 72 JDLLexer).
  repeat split; vm_compute; reflexivity.
Qed.

Lemma STRING_place :
  exists l1 t l2,
    JDLLexer = (l1 ++ t :: l2)%list
    /\ token "STRING" = Some t
    /\ PATTERN t
       = PRegExp (Seq (Chr quote)
                    (Seq (Star (Cls (fun c => negb (is_char quote c))))
                         (Chr quote)))
    /\ LONGER_ALT t = None /\ GROUP t = None
    /\ forallb (fun u => passes (is_char quote) (PATTERN u)) l1 = true.
Proof.
  exists (firstn 72 JDLLexer), (nth 72 JDLLexer NAME), (skipn 73 JDLLexer).
  repeat split; vm_compute; reflexivity.
Qed.

Lemma WHITESPACE_place :
  exists l1 t l2,
    JDLLexer = (l1 ++ t :: l2)%list
    /\ token "WHITESPACE" = Some t
    /\ PATTERN t = PRegExp (Plus (Cls white))
    /\ LONGER_ALT t = None /\ GROUP t = Some SKIPPED
    /\ forallb (fun u => passes white (PATTERN u)) l1 = true.
Proof.
  exists (firstn 2 JDLLexer), (nth 2 JDLLexer NAME), (skipn 3 JDLLexer).
  repeat split; vm_compute; reflexivity.
Qed.

(** One character or more of a class, then the end of the text or a
    character that is not of the class. *)
Lemma exec_plus_class p body rest :
  body <> "" -> all_chars p body = true ->
  match rest with
  | String d _ => p d = false
  | EmptyString => True
  end ->
  run (Plus (Cls p)) (body ++ rest) Some = Some rest.
Proof.
  intros Hne Hb Hr. destruct body as [|c b]; [contradiction|].
  simpl in Hb. apply andb_true_iff in Hb. destruct Hb as [Hc Hb].
  change (run (Plus (Cls p)) (String c b ++ rest) Some)
    with (if p c then run (Star (Cls p)) (b ++ rest) Some else None).
  rewrite Hc. now apply run_star_class.
Qed.

Lemma exec_length s rest :
  String.length (s ++ rest) - String.length rest = String.length s.
Proof. rewrite length_append. apply Nat.add_sub. Qed.

Lemma exec_integer s :
  digits s = true ->
  exec (Seq (Opt (Chr "-")) (Plus (Cls is_digit))) s
  = Some (String.length s)
  /\ exec (Seq (Opt (Chr "-")) (Plus (Cls is_digit))) (String "-" s)
     = Some (S (String.length s)).
Proof.
  intros H. destruct s as [|c r] eqn:Es; [discriminate|]. rewrite <- Es in *.
  assert (Hne : s <> "") by (subst; discriminate).
  assert (Hd : all_chars is_digit s = true) by (subst; exact H).
  pose proof (exec_plus_class is_digit s "" Hne Hd I) as R.
  rewrite append_empty in R. unfold exec. split.
  - change (run (Seq (Opt (Chr "-")) (Plus (Cls is_digit))) s Some)
      with (run (Opt (Chr "-")) s
              (fun rest => run (Plus (Cls is_digit)) rest Some)).
    rewrite Es at 1.
    change (run (Opt (Chr "-")) (String c r)
              (fun rest => run (Plus (Cls is_digit)) rest Some))
      with (match (if Ascii.eqb "-" c
                   then run (Plus (Cls is_digit)) r Some else None) with
            | Some rest => Some rest
            | None => run (Plus (Cls is_digit)) (String c r) Some
            end).
    assert (Hc : Ascii.eqb "-" c = false).
    { subst s. simpl in Hd. apply andb_true_iff in Hd. destruct Hd as [Hd _].
      destruct (Ascii.eqb_spec "-" c) as [<-|]; [discriminate|reflexivity]. }
    rewrite Hc, <- Es, R. simpl. now rewrite Nat.sub_0_r.
  - change (run (Seq (Opt (Chr "-")) (Plus (Cls is_digit))) (String "-" s) Some)
      with (match run (Plus (Cls is_digit)) s Some with
            | Some rest => Some rest
            | None => run (Plus (Cls is_digit)) (String "-" s) Some
            end).
    rewrite R. simpl. reflexivity.
Qed.

(** X13. One digit or more, with or without a minus sign before them,
    are read as one INTEGER token that spans the text. *)
Theorem X13_integers s :
  digits s = true ->
  (exists tok,
      tokenize JDLLexer s = mkILexingResult [tok] []
      /\ image tok = s /\ startOffset tok = 0
      /\ token "INTEGER" = Some (tokenType tok))
  /\ (exists tok,
        tokenize JDLLexer (String "-" s) = mkILexingResult [tok] []
        /\ image tok = String "-" s /\ startOffset tok = 0
        /\ token "INTEGER" = Some (tokenType tok)).
Proof.
  intros H. destruct (exec_integer s H) as [E1 E2].
  destruct INTEGER_place as (l1 & t & l2 & HL & HT & HP & HA & HG & H1).
  split.
  - exists (mkIToken s 0 t). destruct s as [|c r] eqn:Es; [discriminate|].
    rewrite <- Es in *. rewrite (tokenize_single JDLLexer s t); auto.
    + subst s. discriminate.
    + rewrite Es, HL.
      apply (first_match_here l1 t l2 _ c r _ H1); auto.
      * subst s. simpl in H. apply andb_true_iff in H. destruct H as [H _].
        now rewrite H.
      * rewrite HP. cbn [match_at]. rewrite <- Es. exact E1.
  - exists (mkIToken (String "-" s) 0 t).
    rewrite (tokenize_single JDLLexer (String "-" s) t); auto.
    + discriminate.
    + rewrite HL. apply (first_match_here l1 t l2 _ "-" s _ H1); auto.
      rewrite HP. exact E2.
Qed.

Lemma exec_string body :
  all_chars (fun c => negb (is_char quote c)) body = true ->
  exec (Seq (Chr quote)
          (Seq (Star (Cls (fun c => negb (is_char quote c)))) (Chr quote)))
       (String quote (body ++ String quote ""))
  = Some (String.length (String quote (body ++ String quote ""))).
Proof.
  intros H. unfold exec.
  change (run (Seq (Chr quote)
                 (Seq (Star (Cls (fun c => negb (is_char quote c))))
                      (Chr quote)))
              (String quote (body ++ String quote "")) Some)
    with (run (Star (Cls (fun c => negb (is_char quote c))))
              (body ++ String quote "")
              (fun rest => run (Chr quote) rest Some)).
  rewrite (run_star_class _ body (String quote "") _ ""); auto.
Qed.

(** X14. A double quote, any characters but a double quote, and a double
    quote are read as one STRING token that spans the text, whatever
    the characters are: a backslash, a line break or the text of a
    keyword between the quotes changes nothing. *)
Theorem X14_strings body :
  all_chars (fun c => negb (is_char quote c)) body = true ->
  exists tok,
    tokenize JDLLexer (String quote (body ++ String quote ""))
    = mkILexingResult [tok] []
    /\ image tok = String quote (body ++ String quote "")
    /\ startOffset tok = 0
    /\ token "STRING" = Some (tokenType tok).
Proof.
  intros H.
  destruct STRING_place as (l1 & t & l2 & HL & HT & HP & HA & HG & H1).
  exists (mkIToken (String quote (body ++ String quote "")) 0 t).
  rewrite (tokenize_single JDLLexer _ t); auto.
  - discriminate.
  - rewrite HL. apply (first_match_here l1 t l2 _ quote _ _ H1); auto.
    rewrite HP. cbn [match_at]. now apply exec_string.
Qed.

Lemma tokenize_skipped defs s t :
  s <> "" ->
  first_match defs s = Some (t, String.length s) ->
  GROUP t = Some SKIPPED ->
  tokenize defs s = mkILexingResult [] [].
Proof.
  intros Hs Hm Hg. unfold tokenize. destruct s as [|c r]; [contradiction|].
  cbn [String.length scan]. rewrite Hm, Hg.
  change (S (String.length r)) with (String.length (String c r)).
  now rewrite drop_all, scan_empty.
Qed.

(** X15. A text of whitespace only (tab, line feed, vertical tab, form
    feed, carriage return, space, no-break space) yields no token and no
    error. *)
Theorem X15_whitespace_is_skipped s :
  s <> "" -> all_chars white s = true ->
  tokenize JDLLexer s = mkILexingResult [] [].
Proof.
  intros Hne H.
  destruct WHITESPACE_place as (l1 & t & l2 & HL & HT & HP & HA & HG & H1).
  assert (E : exec (Plus (Cls white)) s = Some (String.length s)).
  { unfold exec. pose proof (exec_plus_class white s "" Hne H I) as R.
    rewrite append_empty in R. rewrite R. simpl. now rewrite Nat.sub_0_r. }
  apply (tokenize_skipped JDLLexer s t Hne); [|exact HG].
  destruct s as [|c r] eqn:Es; [contradiction|]. rewrite <- Es in *.
  rewrite Es at 1. rewrite HL.
  apply (first_match_here l1 t l2 _ c r _ H1); auto.
  - subst s. simpl in H. apply andb_true_iff in H. tauto.
  - rewrite HP, <- Es. exact E.
Qed.

Lemma stray_unknown c : stray c = unknown c.
Proof.
  apply Bool.eqb_prop.
  apply (for_all_ascii (fun c => Bool.eqb (stray c) (unknown c))).
  vm_compute. reflexivity.
Qed.

Lemma first_match_empty : first_match JDLLexer "" = None.
Proof. vm_compute. reflexivity. Qed.

Lemma resync_unknown s :
  all_chars unknown s = true -> resync JDLLexer s = String.length s.
Proof.
  induction s as [|c r IH]; [reflexivity|]. intros H. simpl in H.
  apply andb_true_iff in H. destruct H as [_ H]. cbn [resync String.length].
  destruct r as [|d r'].
  - now rewrite first_match_empty.
  - rewrite first_match_none.
    + now rewrite IH.
    + simpl in H. apply andb_true_iff in H. apply H.
Qed.

Lemma tokenize_error defs s :
  s <> "" ->
  first_match defs s = None ->
  resync defs s = String.length s ->
  tokenize defs s = mkILexingResult [] [mkILexingError 0 (String.length s)].
Proof.
  intros Hs Hm Hr. unfold tokenize. destruct s as [|c r]; [contradiction|].
  cbn [String.length scan]. rewrite Hm. cbv zeta. rewrite Hr.
  change (S (String.length r)) with (String.length (String c r)).
  now rewrite drop_all, scan_empty.
Qed.

(** X16. A text of characters that begin no token (none of letters,
    underscore, digits, whitespace with the no-break space, double quote
    and the punctuation of the patterns) yields no token and one error,
    which spans the whole text. *)
Theorem X16_stray_characters s :
  s <> "" -> all_chars stray s = true ->
  tokenize JDLLexer s
  = mkILexingResult [] [mkILexingError 0 (String.length s)].
Proof.
  intros Hne H.
  assert (U : all_chars unknown s = true).
  { clear Hne. induction s as [|c r IH]; [reflexivity|]. simpl in *.
    apply andb_true_iff in H. destruct H as [Hc Hr].
    now rewrite <- stray_unknown, Hc, IH. }
  pose proof (resync_unknown s U) as R.
  apply tokenize_error; auto.
  destruct s as [|c r]; [contradiction|].
  apply first_match_none. simpl in U. apply andb_true_iff in U. apply U.
Qed.

Lemma closed_within_suffix a b :
  closed_within (a ++ b) = false -> closed_within b = false.
Proof.
  induction a as [|c a IH]; auto. intros H.
  change (starts_with "*/" (String c (a ++ b)) || closed_within (a ++ b)
          = false) in H.
  apply orb_false_iff in H. now apply IH.
Qed.

(** A lazy star over any character stops at the first place where what
    follows it matches. *)
Lemma run_lazy_any k body tail x :
  (forall a b, body = (a ++ b)%string -> b <> "" -> k (b ++ tail)%string = None) ->
  k tail = Some x ->
  run (LazyStar (Cls (fun _ => true))) (body ++ tail) k = Some x.
Proof.
  intros Hb Hk. induction body as [|c b IH].
  - simpl. destruct tail as [|d r]; cbn -[Nat.ltb]; now rewrite Hk.
  - change (run (LazyStar (Cls (fun _ => true))) (String c b ++ tail) k)
      with (match k (String c (b ++ tail)) with
            | Some r => Some r
            | None =>
                if Nat.ltb (String.length (b ++ tail))
                           (String.length (String c (b ++ tail)))
                then run (LazyStar (Cls (fun _ => true))) (b ++ tail) k
                else None
            end).
    assert (E0 : k (String c (b ++ tail)) = None).
    { apply (Hb "" (String c b) eq_refl). discriminate. }
    rewrite E0.
    replace (Nat.ltb _ _) with true.
    + apply IH. intros a b' E Hn. apply (Hb (String c a) b'); auto.
      simpl. now rewrite E.
    + symmetry. apply Nat.ltb_lt. simpl. apply Nat.lt_succ_diag_r.
Qed.

Lemma exec_comment body rest :
  closed_within body = false ->
  exec (Seq (Chr "/") (Seq (Chr "*")
         (Seq (LazyStar (Cls (fun _ => true))) (Seq (Chr "*") (Chr "/")))))
       (("/*" ++ body ++ "*/") ++ rest)
  = Some (String.length ("/*" ++ body ++ "*/")).
Proof.
  intros H. unfold exec.
  assert (R : run (Seq (Chr "/") (Seq (Chr "*")
                (Seq (LazyStar (Cls (fun _ => true)))
                     (Seq (Chr "*") (Chr "/")))))
                (("/*" ++ body ++ "*/") ++ rest) Some = Some rest).
  { change (run (LazyStar (Cls (fun _ => true)))
              ((body ++ "*/") ++ rest)
              (fun r => run (Seq (Chr "*") (Chr "/")) r Some) = Some rest).
    replace ((body ++ "*/") ++ rest)%string
      with (body ++ String "*" (String "/" rest))%string.
    2:{ clear H. induction body; simpl; congruence. }
    apply run_lazy_any; [|reflexivity].
    intros a b E Hn. destruct b as [|c b]; [contradiction|].
    rewrite E in H. apply closed_within_suffix in H.
    change (starts_with "*/" (String c b) || closed_within b = false) in H.
    apply orb_false_iff in H. destruct H as [H _].
    change (run (Seq (Chr "*") (Chr "/"))
              (String c b ++ String "*" (String "/" rest)) Some)
      with (if Ascii.eqb "*" c
            then run (Chr "/") (b ++ String "*" (String "/" rest)) Some
            else None).
    destruct (Ascii.eqb_spec "*" c) as [<-|]; auto.
    destruct b as [|d b]; [reflexivity|].
    change (starts_with "*/" (String "*" (String d b)))
      with (Ascii.eqb "/" d && true) in H.
    rewrite andb_true_r in H.
    change (run (Chr "/") (String d b ++ String "*" (String "/" rest)) Some)
      with (if Ascii.eqb "/" d
            then Some (b ++ String "*" (String "/" rest))%string else None).
    now rewrite H. }
  rewrite R. now rewrite exec_length.
Qed.

Lemma COMMENT_place :
  exists l1 t l2,
    JDLLexer = (l1 ++ t :: l2)%list
    /\ token "COMMENT" = Some t
    /\ PATTERN t
       = PRegExp (Seq (Chr "/") (Seq (Chr "*")
           (Seq (LazyStar (Cls (fun _ => true))) (Seq (Chr "*") (Chr "/")))))
    /\ LONGER_ALT t = None /\ GROUP t = None
    /\ forallb (fun u => passes (is_char "/") (PATTERN u)) l1 = true.
Proof.
  exists (firstn 3 JDLLexer), (nth 3 JDLLexer NAME), (skipn 4 JDLLexer).
  repeat split; vm_compute; reflexivity.
Qed.

(** Tokens and errors are at or past the offset the scan starts from. *)
Lemma scan_offsets fuel defs text at_ :
  Forall (fun tk => at_ <= startOffset tk)
         (chevrotain.tokens (scan fuel defs text at_))
  /\ Forall (fun e => at_ <= offset e) (errors (scan fuel defs text at_)).
Proof.
  revert text at_. induction fuel as [|f IH]; intros text at_.
  - simpl. split; constructor.
  - destruct text as [|c r]; [simpl; split; constructor|].
    cbn [scan]. destruct (first_match defs (String c r)) as [[t n]|].
    + destruct (IH (drop n (String c r)) (at_ + n)) as [I1 I2].
      assert (J1 : Forall (fun tk => at_ <= startOffset tk)
                     (chevrotain.tokens
                        (scan f defs (drop n (String c r)) (at_ + n)))).
      { eapply Forall_impl; [|exact I1]. simpl. intros a Ha.
        eapply Nat.le_trans; [apply Nat.le_add_r|exact Ha]. }
      assert (J2 : Forall (fun e => at_ <= offset e)
                     (errors (scan f defs (drop n (String c r)) (at_ + n)))).
      { eapply Forall_impl; [|exact I2]. simpl. intros a Ha.
        eapply Nat.le_trans; [apply Nat.le_add_r|exact Ha]. }
      cbv zeta. destruct (GROUP t) as [[]|]; [now split|].
      simpl. split; [constructor; simpl; auto|exact J2].
    + cbv zeta.
      destruct (IH (drop (resync defs (String c r)) (String c r))
                   (at_ + resync defs (String c r))) as [I1 I2].
      simpl. split.
      * eapply Forall_impl; [|exact I1]. simpl. intros a Ha.
        eapply Nat.le_trans; [apply Nat.le_add_r|exact Ha].
      * constructor; simpl; auto.
        eapply Forall_impl; [|exact I2]. simpl. intros a Ha.
        eapply Nat.le_trans; [apply Nat.le_add_r|exact Ha].
Qed.

(** A match at the start of the text by a token type that is not
    skipped is the first token; the rest of the result lies past it. *)
Lemma tokenize_first defs s rest t :
  s <> "" ->
  first_match defs (s ++ rest) = Some (t, String.length s) ->
  GROUP t = None ->
  exists more errs,
    tokenize defs (s ++ rest)
    = mkILexingResult (mkIToken s 0 t :: more) errs
    /\ Forall (fun tk => String.length s <= startOffset tk) more
    /\ Forall (fun e => String.length s <= offset e) errs
    /\ (rest = "" -> more = [] /\ errs = []).
Proof.
  intros Hs Hm Hg. unfold tokenize.
  destruct (s ++ rest)%string as [|c r] eqn:E.
  { destruct s; [contradiction|discriminate]. }
  cbn [String.length scan]. rewrite Hm, Hg. cbv zeta. rewrite <- E.
  rewrite take_append, drop_append.
  exists (chevrotain.tokens (scan (String.length r) defs rest
                               (0 + String.length s))),
         (errors (scan (String.length r) defs rest (0 + String.length s))).
  destruct (scan_offsets (String.length r) defs rest (0 + String.length s))
    as [I1 I2].
  split; [reflexivity|]. split; [exact I1|]. split; [exact I2|].
  intros ->. now rewrite scan_empty.
Qed.

(** X17. A comment ends at the first star and slash after its opening,
    whatever follows: the text between the opening and the first
    closing is one COMMENT token, which is kept (comments are not
    skipped), and what the rest of the text yields lies past it. *)
Theorem X17_comment_ends_at_first_close body rest :
  closed_within body = false ->
  exists t more errs,
    token "COMMENT" = Some t
    /\ tokenize JDLLexer (("/*" ++ body ++ "*/") ++ rest)
       = mkILexingResult (mkIToken ("/*" ++ body ++ "*/") 0 t :: more) errs
    /\ Forall (fun tk => String.length ("/*" ++ body ++ "*/")
                         <= startOffset tk) more
    /\ Forall (fun e => String.length ("/*" ++ body ++ "*/") <= offset e)
              errs
    /\ (rest = "" -> more = [] /\ errs = []).
Proof.
  intros H.
  destruct COMMENT_place as (l1 & t & l2 & HL & HT & HP & HA & HG & H1).
  destruct (tokenize_first JDLLexer ("/*" ++ body ++ "*/") rest t)
    as (more & errs & E & F1 & F2 & F3); auto.
  - discriminate.
  - rewrite HL.
    change (("/*" ++ body ++ "*/") ++ rest)%string
      with (String "/" (String "*" ((body ++ "*/") ++ rest))).
    apply (first_match_here l1 t l2 _ "/" _ _ H1); auto.
    rewrite HP. cbn [match_at]. now apply exec_comment.
  - exists t, more, errs. auto.
Qed.

Lemma REGEX_place :
  exists l1 c l1' t l2,
    JDLLexer = (l1 ++ c :: l1' ++ t :: l2)%list
    /\ token "REGEX" = Some t
    /\ PATTERN t
       = PRegExp (Seq (Chr "/") (Seq (Star (Cls regex_char)) (Chr "/")))
    /\ LONGER_ALT t = None /\ GROUP t = None
    /\ PATTERN c
       = PRegExp (Seq (Chr "/") (Seq (Chr "*")
           (Seq (LazyStar (Cls (fun _ => true))) (Seq (Chr "*") (Chr "/")))))
    /\ forallb (fun u => passes (is_char "/") (PATTERN u)) l1 = true
    /\ forallb (fun u => passes (is_char "/") (PATTERN u)) l1' = true.
Proof.
  exists (firstn 3 JDLLexer), (nth 3 JDLLexer NAME),
         (firstn 66 (skipn 4 JDLLexer)), (nth 70 JDLLexer NAME),
         (skipn 71 JDLLexer).
  repeat split; vm_compute; reflexivity.
Qed.

(** X18. A slash, characters that are neither a slash nor a line break
    and do not begin with a star, and a slash are one REGEX token: the
    comment pattern, which is tried first, does not match them. *)
Theorem X18_regex_literal body :
  all_chars regex_char body = true -> starts_with "*" body = false ->
  exists t,
    token "REGEX" = Some t
    /\ tokenize JDLLexer (String "/" (body ++ "/"))
       = mkILexingResult [mkIToken (String "/" (body ++ "/")) 0 t] [].
Proof.
  intros H Hs.
  destruct REGEX_place
    as (l1 & c & l1' & t & l2 & HL & HT & HP & HA & HG & HC & H1 & H2).
  exists t. split; [exact HT|].
  apply tokenize_single; [discriminate| |exact HG].
  rewrite HL, first_match_passes.
  2:{ apply forallb_forall. intros u Hu. rewrite forallb_forall in H1.
      pose proof (for_all_ascii _ (H1 u Hu) "/"%char) as G. exact G. }
  cbn [first_match]. rewrite HC.
  assert (N : match_at
                (PRegExp (Seq (Chr "/") (Seq (Chr "*")
                   (Seq (LazyStar (Cls (fun _ => true)))
                        (Seq (Chr "*") (Chr "/"))))))
                (String "/" (body ++ "/")) = None).
  { cbn [match_at]. unfold exec.
    destruct body as [|d b].
    - reflexivity.
    - change (Ascii.eqb "*" d && true = false) in Hs.
      rewrite andb_true_r in Hs.
      change (run (Seq (Chr "/") (Seq (Chr "*")
                (Seq (LazyStar (Cls (fun _ => true)))
                     (Seq (Chr "*") (Chr "/")))))
                (String "/" (String d b ++ "/")) Some)
        with (if Ascii.eqb "*" d
              then run (Seq (LazyStar (Cls (fun _ => true)))
                            (Seq (Chr "*") (Chr "/"))) (b ++ "/") Some
              else None).
      now rewrite Hs. }
  rewrite N.
  apply (first_match_here l1' t l2 _ "/" _ _ H2); auto.
  rewrite HP. cbn [match_at]. unfold exec.
  change (run (Seq (Chr "/") (Seq (Star (Cls regex_char)) (Chr "/")))
              (String "/" (body ++ "/")) Some)
    with (run (Star (Cls regex_char)) (body ++ "/")
              (fun r => run (Chr "/") r Some)).
  rewrite (run_star_class regex_char body "/" _ ""); auto.
Qed.

(** ** The further properties of the lexer at sample texts *)

Lemma X12_witness :
  exists tok tok',
    tokenize JDLLexer "Owner" = mkILexingResult [tok] []
    /\ image tok = "Owner" /\ tokenType tok = NAME
    /\ tokenize JDLLexer "entity" = mkILexingResult [tok'] []
    /\ token "ENTITY" = Some (tokenType tok').
Proof.
  destruct (X12_names_are_one_token "Owner" eq_refl)
    as (tok & H1 & H2 & _ & _ & _ & H5).
  destruct (X12_names_are_one_token "entity" eq_refl)
    as (tok' & G1 & _ & _ & _ & G4 & _).
  exists tok, tok'. split; [exact H1|]. split; [exact H2|]. split.
  - apply H5. intros t Ht.
    assert (G : forallb (fun t => match PATTERN t with
                                  | PString s => negb (String.eqb s "Owner")
                                  | _ => true
                                  end) JDLLexer = true)
      by (vm_compute; reflexivity).
    rewrite forallb_forall in G. specialize (G t Ht). intros E.
    rewrite E in G. discriminate.
  - split; [exact G1|].
    destruct (token "ENTITY") as [t|] eqn:E; [|discriminate].
    f_equal. symmetry. apply G4.
    + unfold token in E. clear - E.
      assert (G : forall (m : ObjMap TokenType) k v,
                 obj_get m k = Some v -> In v (obj_values m)).
      { induction m as [|[k0 v0] r IH]; intros k v; simpl; [discriminate|].
        destruct (String.eqb k0 k); [intros [= ->]; now left|].
        intros H. right. now apply (IH k). }
      apply (G _ _ _ E).
    + vm_compute in E. injection E as <-. reflexivity.
Defined.

Lemma X13_witness :
  exists tok tok',
    tokenize JDLLexer "42" = mkILexingResult [tok] []
    /\ image tok = "42"
    /\ tokenize JDLLexer "-42" = mkILexingResult [tok'] []
    /\ image tok' = "-42"
    /\ token "INTEGER" = Some (tokenType tok').
Proof.
  destruct (X13_integers "42" eq_refl)
    as [(tok & H1 & H2 & _) (tok' & H3 & H4 & _ & H5)].
  exists tok, tok'. auto.
Defined.

Lemma X14_witness :
  exists tok,
    tokenize JDLLexer (String quote ("a b" ++ String quote ""))
    = mkILexingResult [tok] []
    /\ String.length (image tok) = 5
    /\ token "STRING" = Some (tokenType tok).
Proof.
  destruct (X14_strings "a b" eq_refl) as (tok & H1 & H2 & _ & H3).
  exists tok. split; [exact H1|]. split; [now rewrite H2 | exact H3].
Defined.

Lemma X15_witness :
  tokenize JDLLexer
    (String (ascii_of_nat 32)
       (String (ascii_of_nat 10) (String (ascii_of_nat 160) "")))
  = mkILexingResult [] [].
Proof. apply X15_whitespace_is_skipped; [discriminate|reflexivity]. Defined.

Lemma X16_witness :
  tokenize JDLLexer "#@!" = mkILexingResult [] [mkILexingError 0 3].
Proof.
  apply (X16_stray_characters "#@!"); [discriminate|reflexivity].
Defined.

Lemma X17_witness :
  exists t more errs,
    token "COMMENT" = Some t
    /\ tokenize JDLLexer "/* a **/ b */"
       = mkILexingResult (mkIToken "/* a **/" 0 t :: more) errs
    /\ Forall (fun tk => 8 <= startOffset tk) more.
Proof.
  destruct (X17_comment_ends_at_first_close " a *" " b */" eq_refl)
    as (t & more & errs & H1 & H2 & H3 & _).
  exists t, more, errs. auto.
Defined.

Lemma X18_witness :
  exists t,
    token "REGEX" = Some t
    /\ tokenize JDLLexer "/[a-z]+/"
       = mkILexingResult [mkIToken "/[a-z]+/" 0 t] [].
Proof.
  apply (X18_regex_literal "[a-z]+"); reflexivity.
Defined.
